(** * parse_stp_history: ownership attribution over a commit history

    A shallow embedding of [src/parse_stp_history.py].  Python's [str] is
    modelled by the [string] of its UTF-8 bytes, [set] by [gset string],
    [dict] by [gmap string _], an aware [datetime] by its epoch instant
    together with its UTC offset, and a raised exception by the [Err]
    branch of [result]; [assert] statements are taken as enabled.  The
    history provider (pygit2) is outside the program: the walk consumes the
    commits and deltas it yields as plain records. *)

From Stdlib Require Import ZArith NArith Ascii String List Sorting.Permutation.
From stdpp Require Import base gmap strings list fin_maps sets.

Local Open Scope Z_scope.

(** ** Strings *)

(** Case on the ASCII letters alone, byte by byte: what [str.lower] and
    [str.title] do to a name of ASCII characters. *)
Module Ascii7.

Definition is_upper (c : ascii) : bool :=
  let n := nat_of_ascii c in (65 <=? n)%nat && (n <=? 90)%nat.

Definition is_lower (c : ascii) : bool :=
  let n := nat_of_ascii c in (97 <=? n)%nat && (n <=? 122)%nat.

Definition is_cased (c : ascii) : bool := is_upper c || is_lower c.

Definition lower_char (c : ascii) : ascii :=
  if is_upper c then ascii_of_nat (nat_of_ascii c + 32) else c.

Definition upper_char (c : ascii) : ascii :=
  if is_lower c then ascii_of_nat (nat_of_ascii c - 32) else c.

Fixpoint lower (s : string) : string :=
  match s with
  | EmptyString => EmptyString
  | String c s' => String (lower_char c) (lower s')
  end.

(** A letter that follows a letter is lowered, any other is upper-cased. *)
Fixpoint title_from (previous_is_cased : bool) (s : string) : string :=
  match s with
  | EmptyString => EmptyString
  | String c s' =>
      String (if previous_is_cased then lower_char c else upper_char c)
             (title_from (is_cased c) s')
  end.

Definition title (s : string) : string := title_from false s.

Definition is_ascii_char (c : ascii) : bool :=
  match c with
  | Ascii _ _ _ _ _ _ _ b7 => negb b7
  end.

Fixpoint is_ascii (s : string) : bool :=
  match s with
  | EmptyString => true
  | String c s' => is_ascii_char c && is_ascii s'
  end.

End Ascii7.

(** Python's [str], held as its UTF-8 encoding: [str.lower], [str.title]
    and [in] as CPython computes them, code point by code point, with the
    case data of Unicode 14.0 (CPython 3.11).  A byte that is not part of a
    well-formed UTF-8 sequence stands for the lone surrogate that the
    [surrogateescape] error handler gives it; no name read from a
    repository has one. *)
Module PyStr.

Local Open Scope N_scope.

(** [_PyUnicode_ToLowerFull] and [_PyUnicode_ToTitleFull] above ASCII: the
    code points the mapping changes, each with what it becomes. *)
Definition lower_table : list (N * list N) :=
  [ (192, [224]); (193, [225]); (194, [226]); (195, [227]); (196, [228]);
    (197, [229]); (198, [230]); (199, [231]); (200, [232]); (201, [233]);
    (202, [234]); (203, [235]); (204, [236]); (205, [237]); (206, [238]);
    (207, [239]); (208, [240]); (209, [241]); (210, [242]); (211, [243]);
    (212, [244]); (213, [245]); (214, [246]); (216, [248]); (217, [249]);
    (218, [250]); (219, [251]); (220, [252]); (221, [253]); (222, [254]);
    (256, [257]); (258, [259]); (260, [261]); (262, [263]); (264, [265]);
    (266, [267]); (268, [269]); (270, [271]); (272, [273]); (274, [275]);
    (276, [277]); (278, [279]); (280, [281]); (282, [283]); (284, [285]);
    (286, [287]); (288, [289]); (290, [291]); (292, [293]); (294, [295]);
    (296, [297]); (298, [299]); (300, [301]); (302, [303]);
    (304, [105; 775]); (306, [307]); (308, [309]); (310, [311]);
    (313, [314]); (315, [316]); (317, [318]); (319, [320]); (321, [322]);
    (323, [324]); (325, [326]); (327, [328]); (330, [331]); (332, [333]);
    (334, [335]); (336, [337]); (338, [339]); (340, [341]); (342, [343]);
    (344, [345]); (346, [347]); (348, [349]); (350, [351]); (352, [353]);
    (354, [355]); (356, [357]); (358, [359]); (360, [361]); (362, [363]);
    (364, [365]); (366, [367]); (368, [369]); (370, [371]); (372, [373]);
    (374, [375]); (376, [255]); (377, [378]); (379, [380]); (381, [382]);
    (385, [595]); (386, [387]); (388, [389]); (390, [596]); (391, [392]);
    (393, [598]); (394, [599]); (395, [396]); (398, [477]); (399, [601]);
    (400, [603]); (401, [402]); (403, [608]); (404, [611]); (406, [617]);
    (407, [616]); (408, [409]); (412, [623]); (413, [626]); (415, [629]);
    (416, [417]); (418, [419]); (420, [421]); (422, [640]); (423, [424]);
    (425, [643]); (428, [429]); (430, [648]); (431, [432]); (433, [650]);
    (434, [651]); (435, [436]); (437, [438]); (439, [658]); (440, [441]);
    (444, [445]); (452, [454]); (453, [454]); (455, [457]); (456, [457]);
    (458, [460]); (459, [460]); (461, [462]); (463, [464]); (465, [466]);
    (467, [468]); (469, [470]); (471, [472]); (473, [474]); (475, [476]);
    (478, [479]); (480, [481]); (482, [483]); (484, [485]); (486, [487]);
    (488, [489]); (490, [491]); (492, [493]); (494, [495]); (497, [499]);
    (498, [499]); (500, [501]); (502, [405]); (503, [447]); (504, [505]);
    (506, [507]); (508, [509]); (510, [511]); (512, [513]); (514, [515]);
    (516, [517]); (518, [519]); (520, [521]); (522, [523]); (524, [525]);
    (526, [527]); (528, [529]); (530, [531]); (532, [533]); (534, [535]);
    (536, [537]); (538, [539]); (540, [541]); (542, [543]); (544, [414]);
    (546, [547]); (548, [549]); (550, [551]); (552, [553]); (554, [555]);
    (556, [557]); (558, [559]); (560, [561]); (562, [563]); (570, [11365]);
    (571, [572]); (573, [410]); (574, [11366]); (577, [578]); (579, [384]);
    (580, [649]); (581, [652]); (582, [583]); (584, [585]); (586, [587]);
    (588, [589]); (590, [591]); (880, [881]); (882, [883]); (886, [887]);
    (895, [1011]); (902, [940]); (904, [941]); (905, [942]); (906, [943]);
    (908, [972]); (910, [973]); (911, [974]); (913, [945]); (914, [946]);
    (915, [947]); (916, [948]); (917, [949]); (918, [950]); (919, [951]);
    (920, [952]); (921, [953]); (922, [954]); (923, [955]); (924, [956]);
    (925, [957]); (926, [958]); (927, [959]); (928, [960]); (929, [961]);
    (931, [963]); (932, [964]); (933, [965]); (934, [966]); (935, [967]);
    (936, [968]); (937, [969]); (938, [970]); (939, [971]); (975, [983]);
    (984, [985]); (986, [987]); (988, [989]); (990, [991]); (992, [993]);
    (994, [995]); (996, [997]); (998, [999]); (1000, [1001]); (1002, [1003]);
    (1004, [1005]); (1006, [1007]); (1012, [952]); (1015, [1016]);
    (1017, [1010]); (1018, [1019]); (1021, [891]); (1022, [892]);
    (1023, [893]); (1024, [1104]); (1025, [1105]); (1026, [1106]);
    (1027, [1107]); (1028, [1108]); (1029, [1109]); (1030, [1110]);
    (1031, [1111]); (1032, [1112]); (1033, [1113]); (1034, [1114]);
    (1035, [1115]); (1036, [1116]); (1037, [1117]); (1038, [1118]);
    (1039, [1119]); (1040, [1072]); (1041, [1073]); (1042, [1074]);
    (1043, [1075]); (1044, [1076]); (1045, [1077]); (1046, [1078]);
    (1047, [1079]); (1048, [1080]); (1049, [1081]); (1050, [1082]);
    (1051, [1083]); (1052, [1084]); (1053, [1085]); (1054, [1086]);
    (1055, [1087]); (1056, [1088]); (1057, [1089]); (1058, [1090]);
    (1059, [1091]); (1060, [1092]); (1061, [1093]); (1062, [1094]);
    (1063, [1095]); (1064, [1096]); (1065, [1097]); (1066, [1098]);
    (1067, [1099]); (1068, [1100]); (1069, [1101]); (1070, [1102]);
    (1071, [1103]); (1120, [1121]); (1122, [1123]); (1124, [1125]);
    (1126, [1127]); (1128, [1129]); (1130, [1131]); (1132, [1133]);
    (1134, [1135]); (1136, [1137]); (1138, [1139]); (1140, [1141]);
    (1142, [1143]); (1144, [1145]); (1146, [1147]); (1148, [1149]);
    (1150, [1151]); (1152, [1153]); (1162, [1163]); (1164, [1165]);
    (1166, [1167]); (1168, [1169]); (1170, [1171]); (1172, [1173]);
    (1174, [1175]); (1176, [1177]); (1178, [1179]); (1180, [1181]);
    (1182, [1183]); (1184, [1185]); (1186, [1187]); (1188, [1189]);
    (1190, [1191]); (1192, [1193]); (1194, [1195]); (1196, [1197]);
    (1198, [1199]); (1200, [1201]); (1202, [1203]); (1204, [1205]);
    (1206, [1207]); (1208, [1209]); (1210, [1211]); (1212, [1213]);
    (1214, [1215]); (1216, [1231]); (1217, [1218]); (1219, [1220]);
    (1221, [1222]); (1223, [1224]); (1225, [1226]); (1227, [1228]);
    (1229, [1230]); (1232, [1233]); (1234, [1235]); (1236, [1237]);
    (1238, [1239]); (1240, [1241]); (1242, [1243]); (1244, [1245]);
    (1246, [1247]); (1248, [1249]); (1250, [1251]); (1252, [1253]);
    (1254, [1255]); (1256, [1257]); (1258, [1259]); (1260, [1261]);
    (1262, [1263]); (1264, [1265]); (1266, [1267]); (1268, [1269]);
    (1270, [1271]); (1272, [1273]); (1274, [1275]); (1276, [1277]);
    (1278, [1279]); (1280, [1281]); (1282, [1283]); (1284, [1285]);
    (1286, [1287]); (1288, [1289]); (1290, [1291]); (1292, [1293]);
    (1294, [1295]); (1296, [1297]); (1298, [1299]); (1300, [1301]);
    (1302, [1303]); (1304, [1305]); (1306, [1307]); (1308, [1309]);
    (1310, [1311]); (1312, [1313]); (1314, [1315]); (1316, [1317]);
    (1318, [1319]); (1320, [1321]); (1322, [1323]); (1324, [1325]);
    (1326, [1327]); (1329, [1377]); (1330, [1378]); (1331, [1379]);
    (1332, [1380]); (1333, [1381]); (1334, [1382]); (1335, [1383]);
    (1336, [1384]); (1337, [1385]); (1338, [1386]); (1339, [1387]);
    (1340, [1388]); (1341, [1389]); (1342, [1390]); (1343, [1391]);
    (1344, [1392]); (1345, [1393]); (1346, [1394]); (1347, [1395]);
    (1348, [1396]); (1349, [1397]); (1350, [1398]); (1351, [1399]);
    (1352, [1400]); (1353, [1401]); (1354, [1402]); (1355, [1403]);
    (1356, [1404]); (1357, [1405]); (1358, [1406]); (1359, [1407]);
    (1360, [1408]); (1361, [1409]); (1362, [1410]); (1363, [1411]);
    (1364, [1412]); (1365, [1413]); (1366, [1414]); (4256, [11520]);
    (4257, [11521]); (4258, [11522]); (4259, [11523]); (4260, [11524]);
    (4261, [11525]); (4262, [11526]); (4263, [11527]); (4264, [11528]);
    (4265, [11529]); (4266, [11530]); (4267, [11531]); (4268, [11532]);
    (4269, [11533]); (4270, [11534]); (4271, [11535]); (4272, [11536]);
    (4273, [11537]); (4274, [11538]); (4275, [11539]); (4276, [11540]);
    (4277, [11541]); (4278, [11542]); (4279, [11543]); (4280, [11544]);
    (4281, [11545]); (4282, [11546]); (4283, [11547]); (4284, [11548]);
    (4285, [11549]); (4286, [11550]); (4287, [11551]); (4288, [11552]);
    (4289, [11553]); (4290, [11554]); (4291, [11555]); (4292, [11556]);
    (4293, [11557]); (4295, [11559]); (4301, [11565]); (5024, [43888]);
    (5025, [43889]); (5026, [43890]); (5027, [43891]); (5028, [43892]);
    (5029, [43893]); (5030, [43894]); (5031, [43895]); (5032, [43896]);
    (5033, [43897]); (5034, [43898]); (5035, [43899]); (5036, [43900]);
    (5037, [43901]); (5038, [43902]); (5039, [43903]); (5040, [43904]);
    (5041, [43905]); (5042, [43906]); (5043, [43907]); (5044, [43908]);
    (5045, [43909]); (5046, [43910]); (5047, [43911]); (5048, [43912]);
    (5049, [43913]); (5050, [43914]); (5051, [43915]); (5052, [43916]);
    (5053, [43917]); (5054, [43918]); (5055, [43919]); (5056, [43920]);
    (5057, [43921]); (5058, [43922]); (5059, [43923]); (5060, [43924]);
    (5061, [43925]); (5062, [43926]); (5063, [43927]); (5064, [43928]);
    (5065, [43929]); (5066, [43930]); (5067, [43931]); (5068, [43932]);
    (5069, [43933]); (5070, [43934]); (5071, [43935]); (5072, [43936]);
    (5073, [43937]); (5074, [43938]); (5075, [43939]); (5076, [43940]);
    (5077, [43941]); (5078, [43942]); (5079, [43943]); (5080, [43944]);
    (5081, [43945]); (5082, [43946]); (5083, [43947]); (5084, [43948]);
    (5085, [43949]); (5086, [43950]); (5087, [43951]); (5088, [43952]);
    (5089, [43953]); (5090, [43954]); (5091, [43955]); (5092, [43956]);
    (5093, [43957]); (5094, [43958]); (5095, [43959]); (5096, [43960]);
    (5097, [43961]); (5098, [43962]); (5099, [43963]); (5100, [43964]);
    (5101, [43965]); (5102, [43966]); (5103, [43967]); (5104, [5112]);
    (5105, [5113]); (5106, [5114]); (5107, [5115]); (5108, [5116]);
    (5109, [5117]); (7312, [4304]); (7313, [4305]); (7314, [4306]);
    (7315, [4307]); (7316, [4308]); (7317, [4309]); (7318, [4310]);
    (7319, [4311]); (7320, [4312]); (7321, [4313]); (7322, [4314]);
    (7323, [4315]); (7324, [4316]); (7325, [4317]); (7326, [4318]);
    (7327, [4319]); (7328, [4320]); (7329, [4321]); (7330, [4322]);
    (7331, [4323]); (7332, [4324]); (7333, [4325]); (7334, [4326]);
    (7335, [4327]); (7336, [4328]); (7337, [4329]); (7338, [4330]);
    (7339, [4331]); (7340, [4332]); (7341, [4333]); (7342, [4334]);
    (7343, [4335]); (7344, [4336]); (7345, [4337]); (7346, [4338]);
    (7347, [4339]); (7348, [4340]); (7349, [4341]); (7350, [4342]);
    (7351, [4343]); (7352, [4344]); (7353, [4345]); (7354, [4346]);
    (7357, [4349]); (7358, [4350]); (7359, [4351]); (7680, [7681]);
    (7682, [7683]); (7684, [7685]); (7686, [7687]); (7688, [7689]);
    (7690, [7691]); (7692, [7693]); (7694, [7695]); (7696, [7697]);
    (7698, [7699]); (7700, [7701]); (7702, [7703]); (7704, [7705]);
    (7706, [7707]); (7708, [7709]); (7710, [7711]); (7712, [7713]);
    (7714, [7715]); (7716, [7717]); (7718, [7719]); (7720, [7721]);
    (7722, [7723]); (7724, [7725]); (7726, [7727]); (7728, [7729]);
    (7730, [7731]); (7732, [7733]); (7734, [7735]); (7736, [7737]);
    (7738, [7739]); (7740, [7741]); (7742, [7743]); (7744, [7745]);
    (7746, [7747]); (7748, [7749]); (7750, [7751]); (7752, [7753]);
    (7754, [7755]); (7756, [7757]); (7758, [7759]); (7760, [7761]);
    (7762, [7763]); (7764, [7765]); (7766, [7767]); (7768, [7769]);
    (7770, [7771]); (7772, [7773]); (7774, [7775]); (7776, [7777]);
    (7778, [7779]); (7780, [7781]); (7782, [7783]); (7784, [7785]);
    (7786, [7787]); (7788, [7789]); (7790, [7791]); (7792, [7793]);
    (7794, [7795]); (7796, [7797]); (7798, [7799]); (7800, [7801]);
    (7802, [7803]); (7804, [7805]); (7806, [7807]); (7808, [7809]);
    (7810, [7811]); (7812, [7813]); (7814, [7815]); (7816, [7817]);
    (7818, [7819]); (7820, [7821]); (7822, [7823]); (7824, [7825]);
    (7826, [7827]); (7828, [7829]); (7838, [223]); (7840, [7841]);
    (7842, [7843]); (7844, [7845]); (7846, [7847]); (7848, [7849]);
    (7850, [7851]); (7852, [7853]); (7854, [7855]); (7856, [7857]);
    (7858, [7859]); (7860, [7861]); (7862, [7863]); (7864, [7865]);
    (7866, [7867]); (7868, [7869]); (7870, [7871]); (7872, [7873]);
    (7874, [7875]); (7876, [7877]); (7878, [7879]); (7880, [7881]);
    (7882, [7883]); (7884, [7885]); (7886, [7887]); (7888, [7889]);
    (7890, [7891]); (7892, [7893]); (7894, [7895]); (7896, [7897]);
    (7898, [7899]); (7900, [7901]); (7902, [7903]); (7904, [7905]);
    (7906, [7907]); (7908, [7909]); (7910, [7911]); (7912, [7913]);
    (7914, [7915]); (7916, [7917]); (7918, [7919]); (7920, [7921]);
    (7922, [7923]); (7924, [7925]); (7926, [7927]); (7928, [7929]);
    (7930, [7931]); (7932, [7933]); (7934, [7935]); (7944, [7936]);
    (7945, [7937]); (7946, [7938]); (7947, [7939]); (7948, [7940]);
    (7949, [7941]); (7950, [7942]); (7951, [7943]); (7960, [7952]);
    (7961, [7953]); (7962, [7954]); (7963, [7955]); (7964, [7956]);
    (7965, [7957]); (7976, [7968]); (7977, [7969]); (7978, [7970]);
    (7979, [7971]); (7980, [7972]); (7981, [7973]); (7982, [7974]);
    (7983, [7975]); (7992, [7984]); (7993, [7985]); (7994, [7986]);
    (7995, [7987]); (7996, [7988]); (7997, [7989]); (7998, [7990]);
    (7999, [7991]); (8008, [8000]); (8009, [8001]); (8010, [8002]);
    (8011, [8003]); (8012, [8004]); (8013, [8005]); (8025, [8017]);
    (8027, [8019]); (8029, [8021]); (8031, [8023]); (8040, [8032]);
    (8041, [8033]); (8042, [8034]); (8043, [8035]); (8044, [8036]);
    (8045, [8037]); (8046, [8038]); (8047, [8039]); (8072, [8064]);
    (8073, [8065]); (8074, [8066]); (8075, [8067]); (8076, [8068]);
    (8077, [8069]); (8078, [8070]); (8079, [8071]); (8088, [8080]);
    (8089, [8081]); (8090, [8082]); (8091, [8083]); (8092, [8084]);
    (8093, [8085]); (8094, [8086]); (8095, [8087]); (8104, [8096]);
    (8105, [8097]); (8106, [8098]); (8107, [8099]); (8108, [8100]);
    (8109, [8101]); (8110, [8102]); (8111, [8103]); (8120, [8112]);
    (8121, [8113]); (8122, [8048]); (8123, [8049]); (8124, [8115]);
    (8136, [8050]); (8137, [8051]); (8138, [8052]); (8139, [8053]);
    (8140, [8131]); (8152, [8144]); (8153, [8145]); (8154, [8054]);
    (8155, [8055]); (8168, [8160]); (8169, [8161]); (8170, [8058]);
    (8171, [8059]); (8172, [8165]); (8184, [8056]); (8185, [8057]);
    (8186, [8060]); (8187, [8061]); (8188, [8179]); (8486, [969]);
    (8490, [107]); (8491, [229]); (8498, [8526]); (8544, [8560]);
    (8545, [8561]); (8546, [8562]); (8547, [8563]); (8548, [8564]);
    (8549, [8565]); (8550, [8566]); (8551, [8567]); (8552, [8568]);
    (8553, [8569]); (8554, [8570]); (8555, [8571]); (8556, [8572]);
    (8557, [8573]); (8558, [8574]); (8559, [8575]); (8579, [8580]);
    (9398, [9424]); (9399, [9425]); (9400, [9426]); (9401, [9427]);
    (9402, [9428]); (9403, [9429]); (9404, [9430]); (9405, [9431]);
    (9406, [9432]); (9407, [9433]); (9408, [9434]); (9409, [9435]);
    (9410, [9436]); (9411, [9437]); (9412, [9438]); (9413, [9439]);
    (9414, [9440]); (9415, [9441]); (9416, [9442]); (9417, [9443]);
    (9418, [9444]); (9419, [9445]); (9420, [9446]); (9421, [9447]);
    (9422, [9448]); (9423, [9449]); (11264, [11312]); (11265, [11313]);
    (11266, [11314]); (11267, [11315]); (11268, [11316]); (11269, [11317]);
    (11270, [11318]); (11271, [11319]); (11272, [11320]); (11273, [11321]);
    (11274, [11322]); (11275, [11323]); (11276, [11324]); (11277, [11325]);
    (11278, [11326]); (11279, [11327]); (11280, [11328]); (11281, [11329]);
    (11282, [11330]); (11283, [11331]); (11284, [11332]); (11285, [11333]);
    (11286, [11334]); (11287, [11335]); (11288, [11336]); (11289, [11337]);
    (11290, [11338]); (11291, [11339]); (11292, [11340]); (11293, [11341]);
    (11294, [11342]); (11295, [11343]); (11296, [11344]); (11297, [11345]);
    (11298, [11346]); (11299, [11347]); (11300, [11348]); (11301, [11349]);
    (11302, [11350]); (11303, [11351]); (11304, [11352]); (11305, [11353]);
    (11306, [11354]); (11307, [11355]); (11308, [11356]); (11309, [11357]);
    (11310, [11358]); (11311, [11359]); (11360, [11361]); (11362, [619]);
    (11363, [7549]); (11364, [637]); (11367, [11368]); (11369, [11370]);
    (11371, [11372]); (11373, [593]); (11374, [625]); (11375, [592]);
    (11376, [594]); (11378, [11379]); (11381, [11382]); (11390, [575]);
    (11391, [576]); (11392, [11393]); (11394, [11395]); (11396, [11397]);
    (11398, [11399]); (11400, [11401]); (11402, [11403]); (11404, [11405]);
    (11406, [11407]); (11408, [11409]); (11410, [11411]); (11412, [11413]);
    (11414, [11415]); (11416, [11417]); (11418, [11419]); (11420, [11421]);
    (11422, [11423]); (11424, [11425]); (11426, [11427]); (11428, [11429]);
    (11430, [11431]); (11432, [11433]); (11434, [11435]); (11436, [11437]);
    (11438, [11439]); (11440, [11441]); (11442, [11443]); (11444, [11445]);
    (11446, [11447]); (11448, [11449]); (11450, [11451]); (11452, [11453]);
    (11454, [11455]); (11456, [11457]); (11458, [11459]); (11460, [11461]);
    (11462, [11463]); (11464, [11465]); (11466, [11467]); (11468, [11469]);
    (11470, [11471]); (11472, [11473]); (11474, [11475]); (11476, [11477]);
    (11478, [11479]); (11480, [11481]); (11482, [11483]); (11484, [11485]);
    (11486, [11487]); (11488, [11489]); (11490, [11491]); (11499, [11500]);
    (11501, [11502]); (11506, [11507]); (42560, [42561]); (42562, [42563]);
    (42564, [42565]); (42566, [42567]); (42568, [42569]); (42570, [42571]);
    (42572, [42573]); (42574, [42575]); (42576, [42577]); (42578, [42579]);
    (42580, [42581]); (42582, [42583]); (42584, [42585]); (42586, [42587]);
    (42588, [42589]); (42590, [42591]); (42592, [42593]); (42594, [42595]);
    (42596, [42597]); (42598, [42599]); (42600, [42601]); (42602, [42603]);
    (42604, [42605]); (42624, [42625]); (42626, [42627]); (42628, [42629]);
    (42630, [42631]); (42632, [42633]); (42634, [42635]); (42636, [42637]);
    (42638, [42639]); (42640, [42641]); (42642, [42643]); (42644, [42645]);
    (42646, [42647]); (42648, [42649]); (42650, [42651]); (42786, [42787]);
    (42788, [42789]); (42790, [42791]); (42792, [42793]); (42794, [42795]);
    (42796, [42797]); (42798, [42799]); (42802, [42803]); (42804, [42805]);
    (42806, [42807]); (42808, [42809]); (42810, [42811]); (42812, [42813]);
    (42814, [42815]); (42816, [42817]); (42818, [42819]); (42820, [42821]);
    (42822, [42823]); (42824, [42825]); (42826, [42827]); (42828, [42829]);
    (42830, [42831]); (42832, [42833]); (42834, [42835]); (42836, [42837]);
    (42838, [42839]); (42840, [42841]); (42842, [42843]); (42844, [42845]);
    (42846, [42847]); (42848, [42849]); (42850, [42851]); (42852, [42853]);
    (42854, [42855]); (42856, [42857]); (42858, [42859]); (42860, [42861]);
    (42862, [42863]); (42873, [42874]); (42875, [42876]); (42877, [7545]);
    (42878, [42879]); (42880, [42881]); (42882, [42883]); (42884, [42885]);
    (42886, [42887]); (42891, [42892]); (42893, [613]); (42896, [42897]);
    (42898, [42899]); (42902, [42903]); (42904, [42905]); (42906, [42907]);
    (42908, [42909]); (42910, [42911]); (42912, [42913]); (42914, [42915]);
    (42916, [42917]); (42918, [42919]); (42920, [42921]); (42922, [614]);
    (42923, [604]); (42924, [609]); (42925, [620]); (42926, [618]);
    (42928, [670]); (42929, [647]); (42930, [669]); (42931, [43859]);
    (42932, [42933]); (42934, [42935]); (42936, [42937]); (42938, [42939]);
    (42940, [42941]); (42942, [42943]); (42944, [42945]); (42946, [42947]);
    (42948, [42900]); (42949, [642]); (42950, [7566]); (42951, [42952]);
    (42953, [42954]); (42960, [42961]); (42966, [42967]); (42968, [42969]);
    (42997, [42998]); (65313, [65345]); (65314, [65346]); (65315, [65347]);
    (65316, [65348]); (65317, [65349]); (65318, [65350]); (65319, [65351]);
    (65320, [65352]); (65321, [65353]); (65322, [65354]); (65323, [65355]);
    (65324, [65356]); (65325, [65357]); (65326, [65358]); (65327, [65359]);
    (65328, [65360]); (65329, [65361]); (65330, [65362]); (65331, [65363]);
    (65332, [65364]); (65333, [65365]); (65334, [65366]); (65335, [65367]);
    (65336, [65368]); (65337, [65369]); (65338, [65370]); (66560, [66600]);
    (66561, [66601]); (66562, [66602]); (66563, [66603]); (66564, [66604]);
    (66565, [66605]); (66566, [66606]); (66567, [66607]); (66568, [66608]);
    (66569, [66609]); (66570, [66610]); (66571, [66611]); (66572, [66612]);
    (66573, [66613]); (66574, [66614]); (66575, [66615]); (66576, [66616]);
    (66577, [66617]); (66578, [66618]); (66579, [66619]); (66580, [66620]);
    (66581, [66621]); (66582, [66622]); (66583, [66623]); (66584, [66624]);
    (66585, [66625]); (66586, [66626]); (66587, [66627]); (66588, [66628]);
    (66589, [66629]); (66590, [66630]); (66591, [66631]); (66592, [66632]);
    (66593, [66633]); (66594, [66634]); (66595, [66635]); (66596, [66636]);
    (66597, [66637]); (66598, [66638]); (66599, [66639]); (66736, [66776]);
    (66737, [66777]); (66738, [66778]); (66739, [66779]); (66740, [66780]);
    (66741, [66781]); (66742, [66782]); (66743, [66783]); (66744, [66784]);
    (66745, [66785]); (66746, [66786]); (66747, [66787]); (66748, [66788]);
    (66749, [66789]); (66750, [66790]); (66751, [66791]); (66752, [66792]);
    (66753, [66793]); (66754, [66794]); (66755, [66795]); (66756, [66796]);
    (66757, [66797]); (66758, [66798]); (66759, [66799]); (66760, [66800]);
    (66761, [66801]); (66762, [66802]); (66763, [66803]); (66764, [66804]);
    (66765, [66805]); (66766, [66806]); (66767, [66807]); (66768, [66808]);
    (66769, [66809]); (66770, [66810]); (66771, [66811]); (66928, [66967]);
    (66929, [66968]); (66930, [66969]); (66931, [66970]); (66932, [66971]);
    (66933, [66972]); (66934, [66973]); (66935, [66974]); (66936, [66975]);
    (66937, [66976]); (66938, [66977]); (66940, [66979]); (66941, [66980]);
    (66942, [66981]); (66943, [66982]); (66944, [66983]); (66945, [66984]);
    (66946, [66985]); (66947, [66986]); (66948, [66987]); (66949, [66988]);
    (66950, [66989]); (66951, [66990]); (66952, [66991]); (66953, [66992]);
    (66954, [66993]); (66956, [66995]); (66957, [66996]); (66958, [66997]);
    (66959, [66998]); (66960, [66999]); (66961, [67000]); (66962, [67001]);
    (66964, [67003]); (66965, [67004]); (68736, [68800]); (68737, [68801]);
    (68738, [68802]); (68739, [68803]); (68740, [68804]); (68741, [68805]);
    (68742, [68806]); (68743, [68807]); (68744, [68808]); (68745, [68809]);
    (68746, [68810]); (68747, [68811]); (68748, [68812]); (68749, [68813]);
    (68750, [68814]); (68751, [68815]); (68752, [68816]); (68753, [68817]);
    (68754, [68818]); (68755, [68819]); (68756, [68820]); (68757, [68821]);
    (68758, [68822]); (68759, [68823]); (68760, [68824]); (68761, [68825]);
    (68762, [68826]); (68763, [68827]); (68764, [68828]); (68765, [68829]);
    (68766, [68830]); (68767, [68831]); (68768, [68832]); (68769, [68833]);
    (68770, [68834]); (68771, [68835]); (68772, [68836]); (68773, [68837]);
    (68774, [68838]); (68775, [68839]); (68776, [68840]); (68777, [68841]);
    (68778, [68842]); (68779, [68843]); (68780, [68844]); (68781, [68845]);
    (68782, [68846]); (68783, [68847]); (68784, [68848]); (68785, [68849]);
    (68786, [68850]); (71840, [71872]); (71841, [71873]); (71842, [71874]);
    (71843, [71875]); (71844, [71876]); (71845, [71877]); (71846, [71878]);
    (71847, [71879]); (71848, [71880]); (71849, [71881]); (71850, [71882]);
    (71851, [71883]); (71852, [71884]); (71853, [71885]); (71854, [71886]);
    (71855, [71887]); (71856, [71888]); (71857, [71889]); (71858, [71890]);
    (71859, [71891]); (71860, [71892]); (71861, [71893]); (71862, [71894]);
    (71863, [71895]); (71864, [71896]); (71865, [71897]); (71866, [71898]);
    (71867, [71899]); (71868, [71900]); (71869, [71901]); (71870, [71902]);
    (71871, [71903]); (93760, [93792]); (93761, [93793]); (93762, [93794]);
    (93763, [93795]); (93764, [93796]); (93765, [93797]); (93766, [93798]);
    (93767, [93799]); (93768, [93800]); (93769, [93801]); (93770, [93802]);
    (93771, [93803]); (93772, [93804]); (93773, [93805]); (93774, [93806]);
    (93775, [93807]); (93776, [93808]); (93777, [93809]); (93778, [93810]);
    (93779, [93811]); (93780, [93812]); (93781, [93813]); (93782, [93814]);
    (93783, [93815]); (93784, [93816]); (93785, [93817]); (93786, [93818]);
    (93787, [93819]); (93788, [93820]); (93789, [93821]); (93790, [93822]);
    (93791, [93823]); (125184, [125218]); (125185, [125219]);
    (125186, [125220]); (125187, [125221]); (125188, [125222]);
    (125189, [125223]); (125190, [125224]); (125191, [125225]);
    (125192, [125226]); (125193, [125227]); (125194, [125228]);
    (125195, [125229]); (125196, [125230]); (125197, [125231]);
    (125198, [125232]); (125199, [125233]); (125200, [125234]);
    (125201, [125235]); (125202, [125236]); (125203, [125237]);
    (125204, [125238]); (125205, [125239]); (125206, [125240]);
    (125207, [125241]); (125208, [125242]); (125209, [125243]);
    (125210, [125244]); (125211, [125245]); (125212, [125246]);
    (125213, [125247]); (125214, [125248]); (125215, [125249]);
    (125216, [125250]); (125217, [125251]) ].

Definition title_table : list (N * list N) :=
  [ (181, [924]); (223, [83; 115]); (224, [192]); (225, [193]); (226, [194]);
    (227, [195]); (228, [196]); (229, [197]); (230, [198]); (231, [199]);
    (232, [200]); (233, [201]); (234, [202]); (235, [203]); (236, [204]);
    (237, [205]); (238, [206]); (239, [207]); (240, [208]); (241, [209]);
    (242, [210]); (243, [211]); (244, [212]); (245, [213]); (246, [214]);
    (248, [216]); (249, [217]); (250, [218]); (251, [219]); (252, [220]);
    (253, [221]); (254, [222]); (255, [376]); (257, [256]); (259, [258]);
    (261, [260]); (263, [262]); (265, [264]); (267, [266]); (269, [268]);
    (271, [270]); (273, [272]); (275, [274]); (277, [276]); (279, [278]);
    (281, [280]); (283, [282]); (285, [284]); (287, [286]); (289, [288]);
    (291, [290]); (293, [292]); (295, [294]); (297, [296]); (299, [298]);
    (301, [300]); (303, [302]); (305, [73]); (307, [306]); (309, [308]);
    (311, [310]); (314, [313]); (316, [315]); (318, [317]); (320, [319]);
    (322, [321]); (324, [323]); (326, [325]); (328, [327]); (329, [700; 78]);
    (331, [330]); (333, [332]); (335, [334]); (337, [336]); (339, [338]);
    (341, [340]); (343, [342]); (345, [344]); (347, [346]); (349, [348]);
    (351, [350]); (353, [352]); (355, [354]); (357, [356]); (359, [358]);
    (361, [360]); (363, [362]); (365, [364]); (367, [366]); (369, [368]);
    (371, [370]); (373, [372]); (375, [374]); (378, [377]); (380, [379]);
    (382, [381]); (383, [83]); (384, [579]); (387, [386]); (389, [388]);
    (392, [391]); (396, [395]); (402, [401]); (405, [502]); (409, [408]);
    (410, [573]); (414, [544]); (417, [416]); (419, [418]); (421, [420]);
    (424, [423]); (429, [428]); (432, [431]); (436, [435]); (438, [437]);
    (441, [440]); (445, [444]); (447, [503]); (452, [453]); (454, [453]);
    (455, [456]); (457, [456]); (458, [459]); (460, [459]); (462, [461]);
    (464, [463]); (466, [465]); (468, [467]); (470, [469]); (472, [471]);
    (474, [473]); (476, [475]); (477, [398]); (479, [478]); (481, [480]);
    (483, [482]); (485, [484]); (487, [486]); (489, [488]); (491, [490]);
    (493, [492]); (495, [494]); (496, [74; 780]); (497, [498]); (499, [498]);
    (501, [500]); (505, [504]); (507, [506]); (509, [508]); (511, [510]);
    (513, [512]); (515, [514]); (517, [516]); (519, [518]); (521, [520]);
    (523, [522]); (525, [524]); (527, [526]); (529, [528]); (531, [530]);
    (533, [532]); (535, [534]); (537, [536]); (539, [538]); (541, [540]);
    (543, [542]); (547, [546]); (549, [548]); (551, [550]); (553, [552]);
    (555, [554]); (557, [556]); (559, [558]); (561, [560]); (563, [562]);
    (572, [571]); (575, [11390]); (576, [11391]); (578, [577]); (583, [582]);
    (585, [584]); (587, [586]); (589, [588]); (591, [590]); (592, [11375]);
    (593, [11373]); (594, [11376]); (595, [385]); (596, [390]); (598, [393]);
    (599, [394]); (601, [399]); (603, [400]); (604, [42923]); (608, [403]);
    (609, [42924]); (611, [404]); (613, [42893]); (614, [42922]);
    (616, [407]); (617, [406]); (618, [42926]); (619, [11362]);
    (620, [42925]); (623, [412]); (625, [11374]); (626, [413]); (629, [415]);
    (637, [11364]); (640, [422]); (642, [42949]); (643, [425]);
    (647, [42929]); (648, [430]); (649, [580]); (650, [433]); (651, [434]);
    (652, [581]); (658, [439]); (669, [42930]); (670, [42928]); (837, [921]);
    (881, [880]); (883, [882]); (887, [886]); (891, [1021]); (892, [1022]);
    (893, [1023]); (912, [921; 776; 769]); (940, [902]); (941, [904]);
    (942, [905]); (943, [906]); (944, [933; 776; 769]); (945, [913]);
    (946, [914]); (947, [915]); (948, [916]); (949, [917]); (950, [918]);
    (951, [919]); (952, [920]); (953, [921]); (954, [922]); (955, [923]);
    (956, [924]); (957, [925]); (958, [926]); (959, [927]); (960, [928]);
    (961, [929]); (962, [931]); (963, [931]); (964, [932]); (965, [933]);
    (966, [934]); (967, [935]); (968, [936]); (969, [937]); (970, [938]);
    (971, [939]); (972, [908]); (973, [910]); (974, [911]); (976, [914]);
    (977, [920]); (981, [934]); (982, [928]); (983, [975]); (985, [984]);
    (987, [986]); (989, [988]); (991, [990]); (993, [992]); (995, [994]);
    (997, [996]); (999, [998]); (1001, [1000]); (1003, [1002]);
    (1005, [1004]); (1007, [1006]); (1008, [922]); (1009, [929]);
    (1010, [1017]); (1011, [895]); (1013, [917]); (1016, [1015]);
    (1019, [1018]); (1072, [1040]); (1073, [1041]); (1074, [1042]);
    (1075, [1043]); (1076, [1044]); (1077, [1045]); (1078, [1046]);
    (1079, [1047]); (1080, [1048]); (1081, [1049]); (1082, [1050]);
    (1083, [1051]); (1084, [1052]); (1085, [1053]); (1086, [1054]);
    (1087, [1055]); (1088, [1056]); (1089, [1057]); (1090, [1058]);
    (1091, [1059]); (1092, [1060]); (1093, [1061]); (1094, [1062]);
    (1095, [1063]); (1096, [1064]); (1097, [1065]); (1098, [1066]);
    (1099, [1067]); (1100, [1068]); (1101, [1069]); (1102, [1070]);
    (1103, [1071]); (1104, [1024]); (1105, [1025]); (1106, [1026]);
    (1107, [1027]); (1108, [1028]); (1109, [1029]); (1110, [1030]);
    (1111, [1031]); (1112, [1032]); (1113, [1033]); (1114, [1034]);
    (1115, [1035]); (1116, [1036]); (1117, [1037]); (1118, [1038]);
    (1119, [1039]); (1121, [1120]); (1123, [1122]); (1125, [1124]);
    (1127, [1126]); (1129, [1128]); (1131, [1130]); (1133, [1132]);
    (1135, [1134]); (1137, [1136]); (1139, [1138]); (1141, [1140]);
    (1143, [1142]); (1145, [1144]); (1147, [1146]); (1149, [1148]);
    (1151, [1150]); (1153, [1152]); (1163, [1162]); (1165, [1164]);
    (1167, [1166]); (1169, [1168]); (1171, [1170]); (1173, [1172]);
    (1175, [1174]); (1177, [1176]); (1179, [1178]); (1181, [1180]);
    (1183, [1182]); (1185, [1184]); (1187, [1186]); (1189, [1188]);
    (1191, [1190]); (1193, [1192]); (1195, [1194]); (1197, [1196]);
    (1199, [1198]); (1201, [1200]); (1203, [1202]); (1205, [1204]);
    (1207, [1206]); (1209, [1208]); (1211, [1210]); (1213, [1212]);
    (1215, [1214]); (1218, [1217]); (1220, [1219]); (1222, [1221]);
    (1224, [1223]); (1226, [1225]); (1228, [1227]); (1230, [1229]);
    (1231, [1216]); (1233, [1232]); (1235, [1234]); (1237, [1236]);
    (1239, [1238]); (1241, [1240]); (1243, [1242]); (1245, [1244]);
    (1247, [1246]); (1249, [1248]); (1251, [1250]); (1253, [1252]);
    (1255, [1254]); (1257, [1256]); (1259, [1258]); (1261, [1260]);
    (1263, [1262]); (1265, [1264]); (1267, [1266]); (1269, [1268]);
    (1271, [1270]); (1273, [1272]); (1275, [1274]); (1277, [1276]);
    (1279, [1278]); (1281, [1280]); (1283, [1282]); (1285, [1284]);
    (1287, [1286]); (1289, [1288]); (1291, [1290]); (1293, [1292]);
    (1295, [1294]); (1297, [1296]); (1299, [1298]); (1301, [1300]);
    (1303, [1302]); (1305, [1304]); (1307, [1306]); (1309, [1308]);
    (1311, [1310]); (1313, [1312]); (1315, [1314]); (1317, [1316]);
    (1319, [1318]); (1321, [1320]); (1323, [1322]); (1325, [1324]);
    (1327, [1326]); (1377, [1329]); (1378, [1330]); (1379, [1331]);
    (1380, [1332]); (1381, [1333]); (1382, [1334]); (1383, [1335]);
    (1384, [1336]); (1385, [1337]); (1386, [1338]); (1387, [1339]);
    (1388, [1340]); (1389, [1341]); (1390, [1342]); (1391, [1343]);
    (1392, [1344]); (1393, [1345]); (1394, [1346]); (1395, [1347]);
    (1396, [1348]); (1397, [1349]); (1398, [1350]); (1399, [1351]);
    (1400, [1352]); (1401, [1353]); (1402, [1354]); (1403, [1355]);
    (1404, [1356]); (1405, [1357]); (1406, [1358]); (1407, [1359]);
    (1408, [1360]); (1409, [1361]); (1410, [1362]); (1411, [1363]);
    (1412, [1364]); (1413, [1365]); (1414, [1366]); (1415, [1333; 1410]);
    (5112, [5104]); (5113, [5105]); (5114, [5106]); (5115, [5107]);
    (5116, [5108]); (5117, [5109]); (7296, [1042]); (7297, [1044]);
    (7298, [1054]); (7299, [1057]); (7300, [1058]); (7301, [1058]);
    (7302, [1066]); (7303, [1122]); (7304, [42570]); (7545, [42877]);
    (7549, [11363]); (7566, [42950]); (7681, [7680]); (7683, [7682]);
    (7685, [7684]); (7687, [7686]); (7689, [7688]); (7691, [7690]);
    (7693, [7692]); (7695, [7694]); (7697, [7696]); (7699, [7698]);
    (7701, [7700]); (7703, [7702]); (7705, [7704]); (7707, [7706]);
    (7709, [7708]); (7711, [7710]); (7713, [7712]); (7715, [7714]);
    (7717, [7716]); (7719, [7718]); (7721, [7720]); (7723, [7722]);
    (7725, [7724]); (7727, [7726]); (7729, [7728]); (7731, [7730]);
    (7733, [7732]); (7735, [7734]); (7737, [7736]); (7739, [7738]);
    (7741, [7740]); (7743, [7742]); (7745, [7744]); (7747, [7746]);
    (7749, [7748]); (7751, [7750]); (7753, [7752]); (7755, [7754]);
    (7757, [7756]); (7759, [7758]); (7761, [7760]); (7763, [7762]);
    (7765, [7764]); (7767, [7766]); (7769, [7768]); (7771, [7770]);
    (7773, [7772]); (7775, [7774]); (7777, [7776]); (7779, [7778]);
    (7781, [7780]); (7783, [7782]); (7785, [7784]); (7787, [7786]);
    (7789, [7788]); (7791, [7790]); (7793, [7792]); (7795, [7794]);
    (7797, [7796]); (7799, [7798]); (7801, [7800]); (7803, [7802]);
    (7805, [7804]); (7807, [7806]); (7809, [7808]); (7811, [7810]);
    (7813, [7812]); (7815, [7814]); (7817, [7816]); (7819, [7818]);
    (7821, [7820]); (7823, [7822]); (7825, [7824]); (7827, [7826]);
    (7829, [7828]); (7830, [72; 817]); (7831, [84; 776]); (7832, [87; 778]);
    (7833, [89; 778]); (7834, [65; 702]); (7835, [7776]); (7841, [7840]);
    (7843, [7842]); (7845, [7844]); (7847, [7846]); (7849, [7848]);
    (7851, [7850]); (7853, [7852]); (7855, [7854]); (7857, [7856]);
    (7859, [7858]); (7861, [7860]); (7863, [7862]); (7865, [7864]);
    (7867, [7866]); (7869, [7868]); (7871, [7870]); (7873, [7872]);
    (7875, [7874]); (7877, [7876]); (7879, [7878]); (7881, [7880]);
    (7883, [7882]); (7885, [7884]); (7887, [7886]); (7889, [7888]);
    (7891, [7890]); (7893, [7892]); (7895, [7894]); (7897, [7896]);
    (7899, [7898]); (7901, [7900]); (7903, [7902]); (7905, [7904]);
    (7907, [7906]); (7909, [7908]); (7911, [7910]); (7913, [7912]);
    (7915, [7914]); (7917, [7916]); (7919, [7918]); (7921, [7920]);
    (7923, [7922]); (7925, [7924]); (7927, [7926]); (7929, [7928]);
    (7931, [7930]); (7933, [7932]); (7935, [7934]); (7936, [7944]);
    (7937, [7945]); (7938, [7946]); (7939, [7947]); (7940, [7948]);
    (7941, [7949]); (7942, [7950]); (7943, [7951]); (7952, [7960]);
    (7953, [7961]); (7954, [7962]); (7955, [7963]); (7956, [7964]);
    (7957, [7965]); (7968, [7976]); (7969, [7977]); (7970, [7978]);
    (7971, [7979]); (7972, [7980]); (7973, [7981]); (7974, [7982]);
    (7975, [7983]); (7984, [7992]); (7985, [7993]); (7986, [7994]);
    (7987, [7995]); (7988, [7996]); (7989, [7997]); (7990, [7998]);
    (7991, [7999]); (8000, [8008]); (8001, [8009]); (8002, [8010]);
    (8003, [8011]); (8004, [8012]); (8005, [8013]); (8016, [933; 787]);
    (8017, [8025]); (8018, [933; 787; 768]); (8019, [8027]);
    (8020, [933; 787; 769]); (8021, [8029]); (8022, [933; 787; 834]);
    (8023, [8031]); (8032, [8040]); (8033, [8041]); (8034, [8042]);
    (8035, [8043]); (8036, [8044]); (8037, [8045]); (8038, [8046]);
    (8039, [8047]); (8048, [8122]); (8049, [8123]); (8050, [8136]);
    (8051, [8137]); (8052, [8138]); (8053, [8139]); (8054, [8154]);
    (8055, [8155]); (8056, [8184]); (8057, [8185]); (8058, [8170]);
    (8059, [8171]); (8060, [8186]); (8061, [8187]); (8064, [8072]);
    (8065, [8073]); (8066, [8074]); (8067, [8075]); (8068, [8076]);
    (8069, [8077]); (8070, [8078]); (8071, [8079]); (8080, [8088]);
    (8081, [8089]); (8082, [8090]); (8083, [8091]); (8084, [8092]);
    (8085, [8093]); (8086, [8094]); (8087, [8095]); (8096, [8104]);
    (8097, [8105]); (8098, [8106]); (8099, [8107]); (8100, [8108]);
    (8101, [8109]); (8102, [8110]); (8103, [8111]); (8112, [8120]);
    (8113, [8121]); (8114, [8122; 837]); (8115, [8124]); (8116, [902; 837]);
    (8118, [913; 834]); (8119, [913; 834; 837]); (8126, [921]);
    (8130, [8138; 837]); (8131, [8140]); (8132, [905; 837]);
    (8134, [919; 834]); (8135, [919; 834; 837]); (8144, [8152]);
    (8145, [8153]); (8146, [921; 776; 768]); (8147, [921; 776; 769]);
    (8150, [921; 834]); (8151, [921; 776; 834]); (8160, [8168]);
    (8161, [8169]); (8162, [933; 776; 768]); (8163, [933; 776; 769]);
    (8164, [929; 787]); (8165, [8172]); (8166, [933; 834]);
    (8167, [933; 776; 834]); (8178, [8186; 837]); (8179, [8188]);
    (8180, [911; 837]); (8182, [937; 834]); (8183, [937; 834; 837]);
    (8526, [8498]); (8560, [8544]); (8561, [8545]); (8562, [8546]);
    (8563, [8547]); (8564, [8548]); (8565, [8549]); (8566, [8550]);
    (8567, [8551]); (8568, [8552]); (8569, [8553]); (8570, [8554]);
    (8571, [8555]); (8572, [8556]); (8573, [8557]); (8574, [8558]);
    (8575, [8559]); (8580, [8579]); (9424, [9398]); (9425, [9399]);
    (9426, [9400]); (9427, [9401]); (9428, [9402]); (9429, [9403]);
    (9430, [9404]); (9431, [9405]); (9432, [9406]); (9433, [9407]);
    (9434, [9408]); (9435, [9409]); (9436, [9410]); (9437, [9411]);
    (9438, [9412]); (9439, [9413]); (9440, [9414]); (9441, [9415]);
    (9442, [9416]); (9443, [9417]); (9444, [9418]); (9445, [9419]);
    (9446, [9420]); (9447, [9421]); (9448, [9422]); (9449, [9423]);
    (11312, [11264]); (11313, [11265]); (11314, [11266]); (11315, [11267]);
    (11316, [11268]); (11317, [11269]); (11318, [11270]); (11319, [11271]);
    (11320, [11272]); (11321, [11273]); (11322, [11274]); (11323, [11275]);
    (11324, [11276]); (11325, [11277]); (11326, [11278]); (11327, [11279]);
    (11328, [11280]); (11329, [11281]); (11330, [11282]); (11331, [11283]);
    (11332, [11284]); (11333, [11285]); (11334, [11286]); (11335, [11287]);
    (11336, [11288]); (11337, [11289]); (11338, [11290]); (11339, [11291]);
    (11340, [11292]); (11341, [11293]); (11342, [11294]); (11343, [11295]);
    (11344, [11296]); (11345, [11297]); (11346, [11298]); (11347, [11299]);
    (11348, [11300]); (11349, [11301]); (11350, [11302]); (11351, [11303]);
    (11352, [11304]); (11353, [11305]); (11354, [11306]); (11355, [11307]);
    (11356, [11308]); (11357, [11309]); (11358, [11310]); (11359, [11311]);
    (11361, [11360]); (11365, [570]); (11366, [574]); (11368, [11367]);
    (11370, [11369]); (11372, [11371]); (11379, [11378]); (11382, [11381]);
    (11393, [11392]); (11395, [11394]); (11397, [11396]); (11399, [11398]);
    (11401, [11400]); (11403, [11402]); (11405, [11404]); (11407, [11406]);
    (11409, [11408]); (11411, [11410]); (11413, [11412]); (11415, [11414]);
    (11417, [11416]); (11419, [11418]); (11421, [11420]); (11423, [11422]);
    (11425, [11424]); (11427, [11426]); (11429, [11428]); (11431, [11430]);
    (11433, [11432]); (11435, [11434]); (11437, [11436]); (11439, [11438]);
    (11441, [11440]); (11443, [11442]); (11445, [11444]); (11447, [11446]);
    (11449, [11448]); (11451, [11450]); (11453, [11452]); (11455, [11454]);
    (11457, [11456]); (11459, [11458]); (11461, [11460]); (11463, [11462]);
    (11465, [11464]); (11467, [11466]); (11469, [11468]); (11471, [11470]);
    (11473, [11472]); (11475, [11474]); (11477, [11476]); (11479, [11478]);
    (11481, [11480]); (11483, [11482]); (11485, [11484]); (11487, [11486]);
    (11489, [11488]); (11491, [11490]); (11500, [11499]); (11502, [11501]);
    (11507, [11506]); (11520, [4256]); (11521, [4257]); (11522, [4258]);
    (11523, [4259]); (11524, [4260]); (11525, [4261]); (11526, [4262]);
    (11527, [4263]); (11528, [4264]); (11529, [4265]); (11530, [4266]);
    (11531, [4267]); (11532, [4268]); (11533, [4269]); (11534, [4270]);
    (11535, [4271]); (11536, [4272]); (11537, [4273]); (11538, [4274]);
    (11539, [4275]); (11540, [4276]); (11541, [4277]); (11542, [4278]);
    (11543, [4279]); (11544, [4280]); (11545, [4281]); (11546, [4282]);
    (11547, [4283]); (11548, [4284]); (11549, [4285]); (11550, [4286]);
    (11551, [4287]); (11552, [4288]); (11553, [4289]); (11554, [4290]);
    (11555, [4291]); (11556, [4292]); (11557, [4293]); (11559, [4295]);
    (11565, [4301]); (42561, [42560]); (42563, [42562]); (42565, [42564]);
    (42567, [42566]); (42569, [42568]); (42571, [42570]); (42573, [42572]);
    (42575, [42574]); (42577, [42576]); (42579, [42578]); (42581, [42580]);
    (42583, [42582]); (42585, [42584]); (42587, [42586]); (42589, [42588]);
    (42591, [42590]); (42593, [42592]); (42595, [42594]); (42597, [42596]);
    (42599, [42598]); (42601, [42600]); (42603, [42602]); (42605, [42604]);
    (42625, [42624]); (42627, [42626]); (42629, [42628]); (42631, [42630]);
    (42633, [42632]); (42635, [42634]); (42637, [42636]); (42639, [42638]);
    (42641, [42640]); (42643, [42642]); (42645, [42644]); (42647, [42646]);
    (42649, [42648]); (42651, [42650]); (42787, [42786]); (42789, [42788]);
    (42791, [42790]); (42793, [42792]); (42795, [42794]); (42797, [42796]);
    (42799, [42798]); (42803, [42802]); (42805, [42804]); (42807, [42806]);
    (42809, [42808]); (42811, [42810]); (42813, [42812]); (42815, [42814]);
    (42817, [42816]); (42819, [42818]); (42821, [42820]); (42823, [42822]);
    (42825, [42824]); (42827, [42826]); (42829, [42828]); (42831, [42830]);
    (42833, [42832]); (42835, [42834]); (42837, [42836]); (42839, [42838]);
    (42841, [42840]); (42843, [42842]); (42845, [42844]); (42847, [42846]);
    (42849, [42848]); (42851, [42850]); (42853, [42852]); (42855, [42854]);
    (42857, [42856]); (42859, [42858]); (42861, [42860]); (42863, [42862]);
    (42874, [42873]); (42876, [42875]); (42879, [42878]); (42881, [42880]);
    (42883, [42882]); (42885, [42884]); (42887, [42886]); (42892, [42891]);
    (42897, [42896]); (42899, [42898]); (42900, [42948]); (42903, [42902]);
    (42905, [42904]); (42907, [42906]); (42909, [42908]); (42911, [42910]);
    (42913, [42912]); (42915, [42914]); (42917, [42916]); (42919, [42918]);
    (42921, [42920]); (42933, [42932]); (42935, [42934]); (42937, [42936]);
    (42939, [42938]); (42941, [42940]); (42943, [42942]); (42945, [42944]);
    (42947, [42946]); (42952, [42951]); (42954, [42953]); (42961, [42960]);
    (42967, [42966]); (42969, [42968]); (42998, [42997]); (43859, [42931]);
    (43888, [5024]); (43889, [5025]); (43890, [5026]); (43891, [5027]);
    (43892, [5028]); (43893, [5029]); (43894, [5030]); (43895, [5031]);
    (43896, [5032]); (43897, [5033]); (43898, [5034]); (43899, [5035]);
    (43900, [5036]); (43901, [5037]); (43902, [5038]); (43903, [5039]);
    (43904, [5040]); (43905, [5041]); (43906, [5042]); (43907, [5043]);
    (43908, [5044]); (43909, [5045]); (43910, [5046]); (43911, [5047]);
    (43912, [5048]); (43913, [5049]); (43914, [5050]); (43915, [5051]);
    (43916, [5052]); (43917, [5053]); (43918, [5054]); (43919, [5055]);
    (43920, [5056]); (43921, [5057]); (43922, [5058]); (43923, [5059]);
    (43924, [5060]); (43925, [5061]); (43926, [5062]); (43927, [5063]);
    (43928, [5064]); (43929, [5065]); (43930, [5066]); (43931, [5067]);
    (43932, [5068]); (43933, [5069]); (43934, [5070]); (43935, [5071]);
    (43936, [5072]); (43937, [5073]); (43938, [5074]); (43939, [5075]);
    (43940, [5076]); (43941, [5077]); (43942, [5078]); (43943, [5079]);
    (43944, [5080]); (43945, [5081]); (43946, [5082]); (43947, [5083]);
    (43948, [5084]); (43949, [5085]); (43950, [5086]); (43951, [5087]);
    (43952, [5088]); (43953, [5089]); (43954, [5090]); (43955, [5091]);
    (43956, [5092]); (43957, [5093]); (43958, [5094]); (43959, [5095]);
    (43960, [5096]); (43961, [5097]); (43962, [5098]); (43963, [5099]);
    (43964, [5100]); (43965, [5101]); (43966, [5102]); (43967, [5103]);
    (64256, [70; 102]); (64257, [70; 105]); (64258, [70; 108]);
    (64259, [70; 102; 105]); (64260, [70; 102; 108]); (64261, [83; 116]);
    (64262, [83; 116]); (64275, [1348; 1398]); (64276, [1348; 1381]);
    (64277, [1348; 1387]); (64278, [1358; 1398]); (64279, [1348; 1389]);
    (65345, [65313]); (65346, [65314]); (65347, [65315]); (65348, [65316]);
    (65349, [65317]); (65350, [65318]); (65351, [65319]); (65352, [65320]);
    (65353, [65321]); (65354, [65322]); (65355, [65323]); (65356, [65324]);
    (65357, [65325]); (65358, [65326]); (65359, [65327]); (65360, [65328]);
    (65361, [65329]); (65362, [65330]); (65363, [65331]); (65364, [65332]);
    (65365, [65333]); (65366, [65334]); (65367, [65335]); (65368, [65336]);
    (65369, [65337]); (65370, [65338]); (66600, [66560]); (66601, [66561]);
    (66602, [66562]); (66603, [66563]); (66604, [66564]); (66605, [66565]);
    (66606, [66566]); (66607, [66567]); (66608, [66568]); (66609, [66569]);
    (66610, [66570]); (66611, [66571]); (66612, [66572]); (66613, [66573]);
    (66614, [66574]); (66615, [66575]); (66616, [66576]); (66617, [66577]);
    (66618, [66578]); (66619, [66579]); (66620, [66580]); (66621, [66581]);
    (66622, [66582]); (66623, [66583]); (66624, [66584]); (66625, [66585]);
    (66626, [66586]); (66627, [66587]); (66628, [66588]); (66629, [66589]);
    (66630, [66590]); (66631, [66591]); (66632, [66592]); (66633, [66593]);
    (66634, [66594]); (66635, [66595]); (66636, [66596]); (66637, [66597]);
    (66638, [66598]); (66639, [66599]); (66776, [66736]); (66777, [66737]);
    (66778, [66738]); (66779, [66739]); (66780, [66740]); (66781, [66741]);
    (66782, [66742]); (66783, [66743]); (66784, [66744]); (66785, [66745]);
    (66786, [66746]); (66787, [66747]); (66788, [66748]); (66789, [66749]);
    (66790, [66750]); (66791, [66751]); (66792, [66752]); (66793, [66753]);
    (66794, [66754]); (66795, [66755]); (66796, [66756]); (66797, [66757]);
    (66798, [66758]); (66799, [66759]); (66800, [66760]); (66801, [66761]);
    (66802, [66762]); (66803, [66763]); (66804, [66764]); (66805, [66765]);
    (66806, [66766]); (66807, [66767]); (66808, [66768]); (66809, [66769]);
    (66810, [66770]); (66811, [66771]); (66967, [66928]); (66968, [66929]);
    (66969, [66930]); (66970, [66931]); (66971, [66932]); (66972, [66933]);
    (66973, [66934]); (66974, [66935]); (66975, [66936]); (66976, [66937]);
    (66977, [66938]); (66979, [66940]); (66980, [66941]); (66981, [66942]);
    (66982, [66943]); (66983, [66944]); (66984, [66945]); (66985, [66946]);
    (66986, [66947]); (66987, [66948]); (66988, [66949]); (66989, [66950]);
    (66990, [66951]); (66991, [66952]); (66992, [66953]); (66993, [66954]);
    (66995, [66956]); (66996, [66957]); (66997, [66958]); (66998, [66959]);
    (66999, [66960]); (67000, [66961]); (67001, [66962]); (67003, [66964]);
    (67004, [66965]); (68800, [68736]); (68801, [68737]); (68802, [68738]);
    (68803, [68739]); (68804, [68740]); (68805, [68741]); (68806, [68742]);
    (68807, [68743]); (68808, [68744]); (68809, [68745]); (68810, [68746]);
    (68811, [68747]); (68812, [68748]); (68813, [68749]); (68814, [68750]);
    (68815, [68751]); (68816, [68752]); (68817, [68753]); (68818, [68754]);
    (68819, [68755]); (68820, [68756]); (68821, [68757]); (68822, [68758]);
    (68823, [68759]); (68824, [68760]); (68825, [68761]); (68826, [68762]);
    (68827, [68763]); (68828, [68764]); (68829, [68765]); (68830, [68766]);
    (68831, [68767]); (68832, [68768]); (68833, [68769]); (68834, [68770]);
    (68835, [68771]); (68836, [68772]); (68837, [68773]); (68838, [68774]);
    (68839, [68775]); (68840, [68776]); (68841, [68777]); (68842, [68778]);
    (68843, [68779]); (68844, [68780]); (68845, [68781]); (68846, [68782]);
    (68847, [68783]); (68848, [68784]); (68849, [68785]); (68850, [68786]);
    (71872, [71840]); (71873, [71841]); (71874, [71842]); (71875, [71843]);
    (71876, [71844]); (71877, [71845]); (71878, [71846]); (71879, [71847]);
    (71880, [71848]); (71881, [71849]); (71882, [71850]); (71883, [71851]);
    (71884, [71852]); (71885, [71853]); (71886, [71854]); (71887, [71855]);
    (71888, [71856]); (71889, [71857]); (71890, [71858]); (71891, [71859]);
    (71892, [71860]); (71893, [71861]); (71894, [71862]); (71895, [71863]);
    (71896, [71864]); (71897, [71865]); (71898, [71866]); (71899, [71867]);
    (71900, [71868]); (71901, [71869]); (71902, [71870]); (71903, [71871]);
    (93792, [93760]); (93793, [93761]); (93794, [93762]); (93795, [93763]);
    (93796, [93764]); (93797, [93765]); (93798, [93766]); (93799, [93767]);
    (93800, [93768]); (93801, [93769]); (93802, [93770]); (93803, [93771]);
    (93804, [93772]); (93805, [93773]); (93806, [93774]); (93807, [93775]);
    (93808, [93776]); (93809, [93777]); (93810, [93778]); (93811, [93779]);
    (93812, [93780]); (93813, [93781]); (93814, [93782]); (93815, [93783]);
    (93816, [93784]); (93817, [93785]); (93818, [93786]); (93819, [93787]);
    (93820, [93788]); (93821, [93789]); (93822, [93790]); (93823, [93791]);
    (125218, [125184]); (125219, [125185]); (125220, [125186]);
    (125221, [125187]); (125222, [125188]); (125223, [125189]);
    (125224, [125190]); (125225, [125191]); (125226, [125192]);
    (125227, [125193]); (125228, [125194]); (125229, [125195]);
    (125230, [125196]); (125231, [125197]); (125232, [125198]);
    (125233, [125199]); (125234, [125200]); (125235, [125201]);
    (125236, [125202]); (125237, [125203]); (125238, [125204]);
    (125239, [125205]); (125240, [125206]); (125241, [125207]);
    (125242, [125208]); (125243, [125209]); (125244, [125210]);
    (125245, [125211]); (125246, [125212]); (125247, [125213]);
    (125248, [125214]); (125249, [125215]); (125250, [125216]);
    (125251, [125217]) ].

(** [_PyUnicode_IsCased] above ASCII, and [_PyUnicode_IsCaseIgnorable]:
    ranges of code points, both ends included. *)
Definition cased_ranges : list (N * N) :=
  [ (170, 170); (181, 181); (186, 186); (192, 214); (216, 246); (248, 442);
    (444, 447); (452, 659); (661, 696); (704, 705); (736, 740); (837, 837);
    (880, 883); (886, 887); (890, 893); (895, 895); (902, 902); (904, 906);
    (908, 908); (910, 929); (931, 1013); (1015, 1153); (1162, 1327);
    (1329, 1366); (1376, 1416); (4256, 4293); (4295, 4295); (4301, 4301);
    (4304, 4346); (4349, 4351); (5024, 5109); (5112, 5117); (7296, 7304);
    (7312, 7354); (7357, 7359); (7424, 7615); (7680, 7957); (7960, 7965);
    (7968, 8005); (8008, 8013); (8016, 8023); (8025, 8025); (8027, 8027);
    (8029, 8029); (8031, 8061); (8064, 8116); (8118, 8124); (8126, 8126);
    (8130, 8132); (8134, 8140); (8144, 8147); (8150, 8155); (8160, 8172);
    (8178, 8180); (8182, 8188); (8305, 8305); (8319, 8319); (8336, 8348);
    (8450, 8450); (8455, 8455); (8458, 8467); (8469, 8469); (8473, 8477);
    (8484, 8484); (8486, 8486); (8488, 8488); (8490, 8493); (8495, 8500);
    (8505, 8505); (8508, 8511); (8517, 8521); (8526, 8526); (8544, 8575);
    (8579, 8580); (9398, 9449); (11264, 11492); (11499, 11502);
    (11506, 11507); (11520, 11557); (11559, 11559); (11565, 11565);
    (42560, 42605); (42624, 42653); (42786, 42887); (42891, 42894);
    (42896, 42954); (42960, 42961); (42963, 42963); (42965, 42969);
    (42997, 42998); (43000, 43002); (43824, 43866); (43868, 43880);
    (43888, 43967); (64256, 64262); (64275, 64279); (65313, 65338);
    (65345, 65370); (66560, 66639); (66736, 66771); (66776, 66811);
    (66928, 66938); (66940, 66954); (66956, 66962); (66964, 66965);
    (66967, 66977); (66979, 66993); (66995, 67001); (67003, 67004);
    (67456, 67456); (67459, 67461); (67463, 67504); (67506, 67514);
    (68736, 68786); (68800, 68850); (71840, 71903); (93760, 93823);
    (119808, 119892); (119894, 119964); (119966, 119967); (119970, 119970);
    (119973, 119974); (119977, 119980); (119982, 119993); (119995, 119995);
    (119997, 120003); (120005, 120069); (120071, 120074); (120077, 120084);
    (120086, 120092); (120094, 120121); (120123, 120126); (120128, 120132);
    (120134, 120134); (120138, 120144); (120146, 120485); (120488, 120512);
    (120514, 120538); (120540, 120570); (120572, 120596); (120598, 120628);
    (120630, 120654); (120656, 120686); (120688, 120712); (120714, 120744);
    (120746, 120770); (120772, 120779); (122624, 122633); (122635, 122654);
    (125184, 125251); (127280, 127305); (127312, 127337); (127344, 127369) ].

Definition case_ignorable_ranges : list (N * N) :=
  [ (39, 39); (46, 46); (58, 58); (94, 94); (96, 96); (168, 168); (173, 173);
    (175, 175); (180, 180); (183, 184); (688, 879); (884, 885); (890, 890);
    (900, 901); (903, 903); (1155, 1161); (1369, 1369); (1375, 1375);
    (1425, 1469); (1471, 1471); (1473, 1474); (1476, 1477); (1479, 1479);
    (1524, 1524); (1536, 1541); (1552, 1562); (1564, 1564); (1600, 1600);
    (1611, 1631); (1648, 1648); (1750, 1757); (1759, 1768); (1770, 1773);
    (1807, 1807); (1809, 1809); (1840, 1866); (1958, 1968); (2027, 2037);
    (2042, 2042); (2045, 2045); (2070, 2093); (2137, 2139); (2184, 2184);
    (2192, 2193); (2200, 2207); (2249, 2306); (2362, 2362); (2364, 2364);
    (2369, 2376); (2381, 2381); (2385, 2391); (2402, 2403); (2417, 2417);
    (2433, 2433); (2492, 2492); (2497, 2500); (2509, 2509); (2530, 2531);
    (2558, 2558); (2561, 2562); (2620, 2620); (2625, 2626); (2631, 2632);
    (2635, 2637); (2641, 2641); (2672, 2673); (2677, 2677); (2689, 2690);
    (2748, 2748); (2753, 2757); (2759, 2760); (2765, 2765); (2786, 2787);
    (2810, 2815); (2817, 2817); (2876, 2876); (2879, 2879); (2881, 2884);
    (2893, 2893); (2901, 2902); (2914, 2915); (2946, 2946); (3008, 3008);
    (3021, 3021); (3072, 3072); (3076, 3076); (3132, 3132); (3134, 3136);
    (3142, 3144); (3146, 3149); (3157, 3158); (3170, 3171); (3201, 3201);
    (3260, 3260); (3263, 3263); (3270, 3270); (3276, 3277); (3298, 3299);
    (3328, 3329); (3387, 3388); (3393, 3396); (3405, 3405); (3426, 3427);
    (3457, 3457); (3530, 3530); (3538, 3540); (3542, 3542); (3633, 3633);
    (3636, 3642); (3654, 3662); (3761, 3761); (3764, 3772); (3782, 3782);
    (3784, 3789); (3864, 3865); (3893, 3893); (3895, 3895); (3897, 3897);
    (3953, 3966); (3968, 3972); (3974, 3975); (3981, 3991); (3993, 4028);
    (4038, 4038); (4141, 4144); (4146, 4151); (4153, 4154); (4157, 4158);
    (4184, 4185); (4190, 4192); (4209, 4212); (4226, 4226); (4229, 4230);
    (4237, 4237); (4253, 4253); (4348, 4348); (4957, 4959); (5906, 5908);
    (5938, 5939); (5970, 5971); (6002, 6003); (6068, 6069); (6071, 6077);
    (6086, 6086); (6089, 6099); (6103, 6103); (6109, 6109); (6155, 6159);
    (6211, 6211); (6277, 6278); (6313, 6313); (6432, 6434); (6439, 6440);
    (6450, 6450); (6457, 6459); (6679, 6680); (6683, 6683); (6742, 6742);
    (6744, 6750); (6752, 6752); (6754, 6754); (6757, 6764); (6771, 6780);
    (6783, 6783); (6823, 6823); (6832, 6862); (6912, 6915); (6964, 6964);
    (6966, 6970); (6972, 6972); (6978, 6978); (7019, 7027); (7040, 7041);
    (7074, 7077); (7080, 7081); (7083, 7085); (7142, 7142); (7144, 7145);
    (7149, 7149); (7151, 7153); (7212, 7219); (7222, 7223); (7288, 7293);
    (7376, 7378); (7380, 7392); (7394, 7400); (7405, 7405); (7412, 7412);
    (7416, 7417); (7468, 7530); (7544, 7544); (7579, 7679); (8125, 8125);
    (8127, 8129); (8141, 8143); (8157, 8159); (8173, 8175); (8189, 8190);
    (8203, 8207); (8216, 8217); (8228, 8228); (8231, 8231); (8234, 8238);
    (8288, 8292); (8294, 8303); (8305, 8305); (8319, 8319); (8336, 8348);
    (8400, 8432); (11388, 11389); (11503, 11505); (11631, 11631);
    (11647, 11647); (11744, 11775); (11823, 11823); (12293, 12293);
    (12330, 12333); (12337, 12341); (12347, 12347); (12441, 12446);
    (12540, 12542); (40981, 40981); (42232, 42237); (42508, 42508);
    (42607, 42610); (42612, 42621); (42623, 42623); (42652, 42655);
    (42736, 42737); (42752, 42785); (42864, 42864); (42888, 42890);
    (42994, 42996); (43000, 43001); (43010, 43010); (43014, 43014);
    (43019, 43019); (43045, 43046); (43052, 43052); (43204, 43205);
    (43232, 43249); (43263, 43263); (43302, 43309); (43335, 43345);
    (43392, 43394); (43443, 43443); (43446, 43449); (43452, 43453);
    (43471, 43471); (43493, 43494); (43561, 43566); (43569, 43570);
    (43573, 43574); (43587, 43587); (43596, 43596); (43632, 43632);
    (43644, 43644); (43696, 43696); (43698, 43700); (43703, 43704);
    (43710, 43711); (43713, 43713); (43741, 43741); (43756, 43757);
    (43763, 43764); (43766, 43766); (43867, 43871); (43881, 43883);
    (44005, 44005); (44008, 44008); (44013, 44013); (64286, 64286);
    (64434, 64450); (65024, 65039); (65043, 65043); (65056, 65071);
    (65106, 65106); (65109, 65109); (65279, 65279); (65287, 65287);
    (65294, 65294); (65306, 65306); (65342, 65342); (65344, 65344);
    (65392, 65392); (65438, 65439); (65507, 65507); (65529, 65531);
    (66045, 66045); (66272, 66272); (66422, 66426); (67456, 67461);
    (67463, 67504); (67506, 67514); (68097, 68099); (68101, 68102);
    (68108, 68111); (68152, 68154); (68159, 68159); (68325, 68326);
    (68900, 68903); (69291, 69292); (69446, 69456); (69506, 69509);
    (69633, 69633); (69688, 69702); (69744, 69744); (69747, 69748);
    (69759, 69761); (69811, 69814); (69817, 69818); (69821, 69821);
    (69826, 69826); (69837, 69837); (69888, 69890); (69927, 69931);
    (69933, 69940); (70003, 70003); (70016, 70017); (70070, 70078);
    (70089, 70092); (70095, 70095); (70191, 70193); (70196, 70196);
    (70198, 70199); (70206, 70206); (70367, 70367); (70371, 70378);
    (70400, 70401); (70459, 70460); (70464, 70464); (70502, 70508);
    (70512, 70516); (70712, 70719); (70722, 70724); (70726, 70726);
    (70750, 70750); (70835, 70840); (70842, 70842); (70847, 70848);
    (70850, 70851); (71090, 71093); (71100, 71101); (71103, 71104);
    (71132, 71133); (71219, 71226); (71229, 71229); (71231, 71232);
    (71339, 71339); (71341, 71341); (71344, 71349); (71351, 71351);
    (71453, 71455); (71458, 71461); (71463, 71467); (71727, 71735);
    (71737, 71738); (71995, 71996); (71998, 71998); (72003, 72003);
    (72148, 72151); (72154, 72155); (72160, 72160); (72193, 72202);
    (72243, 72248); (72251, 72254); (72263, 72263); (72273, 72278);
    (72281, 72283); (72330, 72342); (72344, 72345); (72752, 72758);
    (72760, 72765); (72767, 72767); (72850, 72871); (72874, 72880);
    (72882, 72883); (72885, 72886); (73009, 73014); (73018, 73018);
    (73020, 73021); (73023, 73029); (73031, 73031); (73104, 73105);
    (73109, 73109); (73111, 73111); (73459, 73460); (78896, 78904);
    (92912, 92916); (92976, 92982); (92992, 92995); (94031, 94031);
    (94095, 94111); (94176, 94177); (94179, 94180); (110576, 110579);
    (110581, 110587); (110589, 110590); (113821, 113822); (113824, 113827);
    (118528, 118573); (118576, 118598); (119143, 119145); (119155, 119170);
    (119173, 119179); (119210, 119213); (119362, 119364); (121344, 121398);
    (121403, 121452); (121461, 121461); (121476, 121476); (121499, 121503);
    (121505, 121519); (122880, 122886); (122888, 122904); (122907, 122913);
    (122915, 122916); (122918, 122922); (123184, 123197); (123566, 123566);
    (123628, 123631); (125136, 125142); (125252, 125259); (127995, 127999);
    (917505, 917505); (917536, 917631); (917760, 917999) ].

Fixpoint assoc (c : N) (table : list (N * list N)) : option (list N) :=
  match table with
  | [] => None
  | (k, v) :: table' => if k =? c then Some v else assoc c table'
  end.

Fixpoint in_ranges (c : N) (ranges : list (N * N)) : bool :=
  match ranges with
  | [] => false
  | (lo, hi) :: ranges' => (lo <=? c) && (c <=? hi) || in_ranges c ranges'
  end.

Definition to_lower_full (c : N) : list N :=
  if c <? 128 then [if (65 <=? c) && (c <=? 90) then c + 32 else c]
  else match assoc c lower_table with
       | Some mapped => mapped
       | None => [c]
       end.

Definition to_title_full (c : N) : list N :=
  if c <? 128 then [if (97 <=? c) && (c <=? 122) then c - 32 else c]
  else match assoc c title_table with
       | Some mapped => mapped
       | None => [c]
       end.

Definition is_cased (c : N) : bool :=
  if c <? 128 then (65 <=? c) && (c <=? 90) || (97 <=? c) && (c <=? 122)
  else in_ranges c cased_ranges.

Definition is_case_ignorable (c : N) : bool :=
  in_ranges c case_ignorable_ranges.

(** The second half of [handle_capital_sigma]: past the case-ignorable code
    points the text ends, or goes on with a code point that is not cased. *)
Fixpoint final_after (rest : list N) : bool :=
  match rest with
  | [] => true
  | c :: rest' =>
      if is_case_ignorable c then final_after rest' else negb (is_cased c)
  end.

(** [lower_ucs4]: capital sigma (931) becomes final sigma (962) when the
    nearest code point before it that is not case-ignorable is cased
    ([after_cased]) and [final_after] holds of what follows, and small
    sigma (963) otherwise. *)
Definition lower_ucs4 (after_cased : bool) (c : N) (rest : list N) : list N :=
  if c =? 931 then [if after_cased && final_after rest then 962 else 963]
  else to_lower_full c.

Definition after_cased_next (after_cased : bool) (c : N) : bool :=
  if is_case_ignorable c then after_cased else is_cased c.

(** [do_lower] *)
Fixpoint lower_from (after_cased : bool) (s : list N) : list N :=
  match s with
  | [] => []
  | c :: s' =>
      lower_ucs4 after_cased c s' ++ lower_from (after_cased_next after_cased c) s'
  end.

(** [do_title] *)
Fixpoint title_from (previous_is_cased after_cased : bool) (s : list N)
  : list N :=
  match s with
  | [] => []
  | c :: s' =>
      (if previous_is_cased then lower_ucs4 after_cased c s'
       else to_title_full c)
      ++ title_from (is_cased c) (after_cased_next after_cased c) s'
  end.

(** The number whose binary digits are [l], lowest first. *)
Fixpoint of_bits (l : list bool) : N :=
  match l with
  | [] => 0
  | b :: l' => (if b then 1 else 0) + 2 * of_bits l'
  end.

(** The lone surrogate 0xDC00 + b that stands for a stray byte b. *)
Definition escaped (b : ascii) : N := 56320 + N_of_ascii b.

(** The code points of a UTF-8 string.  Overlong forms, encoded surrogates
    and values above 0x10FFFF are not well formed. *)
Fixpoint decode (s : string) : list N :=
  match s with
  | EmptyString => []
  | String b0 s1 =>
      match b0 with
      | Ascii x0 x1 x2 x3 x4 x5 x6 false =>
          of_bits [x0; x1; x2; x3; x4; x5; x6] :: decode s1
      | Ascii x0 x1 x2 x3 x4 false true true =>
          match s1 with
          | String (Ascii y0 y1 y2 y3 y4 y5 false true) s2 =>
              let c := of_bits [y0; y1; y2; y3; y4; y5; x0; x1; x2; x3; x4] in
              if 128 <=? c then c :: decode s2 else escaped b0 :: decode s1
          | _ => escaped b0 :: decode s1
          end
      | Ascii x0 x1 x2 x3 false true true true =>
          match s1 with
          | String (Ascii y0 y1 y2 y3 y4 y5 false true)
              (String (Ascii z0 z1 z2 z3 z4 z5 false true) s3) =>
              let c := of_bits [z0; z1; z2; z3; z4; z5; y0; y1; y2; y3; y4; y5;
                                x0; x1; x2; x3] in
              if (2048 <=? c) && negb ((55296 <=? c) && (c <=? 57343))
              then c :: decode s3 else escaped b0 :: decode s1
          | _ => escaped b0 :: decode s1
          end
      | Ascii x0 x1 x2 false true true true true =>
          match s1 with
          | String (Ascii y0 y1 y2 y3 y4 y5 false true)
              (String (Ascii z0 z1 z2 z3 z4 z5 false true)
                 (String (Ascii w0 w1 w2 w3 w4 w5 false true) s4)) =>
              let c := of_bits [w0; w1; w2; w3; w4; w5; z0; z1; z2; z3; z4; z5;
                                y0; y1; y2; y3; y4; y5; x0; x1; x2] in
              if (65536 <=? c) && (c <=? 1114111)
              then c :: decode s4 else escaped b0 :: decode s1
          | _ => escaped b0 :: decode s1
          end
      | _ => escaped b0 :: decode s1
      end
  end.

(** A continuation byte with the six bits of [c] from bit [k] on. *)
Definition continuation (c k : N) : ascii :=
  Ascii (N.testbit c k) (N.testbit c (k + 1)) (N.testbit c (k + 2))
        (N.testbit c (k + 3)) (N.testbit c (k + 4)) (N.testbit c (k + 5))
        false true.

Definition encode_code_point (c : N) : string :=
  if c <? 128 then
    String (Ascii (N.testbit c 0) (N.testbit c 1) (N.testbit c 2)
                  (N.testbit c 3) (N.testbit c 4) (N.testbit c 5)
                  (N.testbit c 6) false) EmptyString
  else if (56448 <=? c) && (c <=? 56575) then
    String (Ascii (N.testbit c 0) (N.testbit c 1) (N.testbit c 2)
                  (N.testbit c 3) (N.testbit c 4) (N.testbit c 5)
                  (N.testbit c 6) true) EmptyString
  else if c <? 2048 then
    String (Ascii (N.testbit c 6) (N.testbit c 7) (N.testbit c 8)
                  (N.testbit c 9) (N.testbit c 10) false true true)
      (String (continuation c 0) EmptyString)
  else if c <? 65536 then
    String (Ascii (N.testbit c 12) (N.testbit c 13) (N.testbit c 14)
                  (N.testbit c 15) false true true true)
      (String (continuation c 6) (String (continuation c 0) EmptyString))
  else
    String (Ascii (N.testbit c 18) (N.testbit c 19) (N.testbit c 20)
                  false true true true true)
      (String (continuation c 12)
         (String (continuation c 6) (String (continuation c 0) EmptyString))).

Fixpoint encode (l : list N) : string :=
  match l with
  | [] => EmptyString
  | c :: l' => encode_code_point c +:+ encode l'
  end.

(** [str.lower] *)
Definition lower (s : string) : string :=
  encode (lower_from false (decode s)).

(** [str.title] *)
Definition title (s : string) : string :=
  encode (title_from false false (decode s)).

Fixpoint startswith (p s : string) : bool :=
  match p, s with
  | EmptyString, _ => true
  | String a p', String b s' => Ascii.eqb a b && startswith p' s'
  | String _ _, EmptyString => false
  end.

(** [sub in s]: on UTF-8 a string occurs in another as a run of code points
    exactly when it does as a run of bytes. *)
Fixpoint contains (sub s : string) : bool :=
  startswith sub s ||
  match s with
  | EmptyString => false
  | String _ s' => contains sub s'
  end.

End PyStr.

(** ** Names *)

Definition VIJAY_NAME : string := "Vijay Ganesh".

Definition transform_name (name : string) : gset string :=
  if PyStr.contains (PyStr.lower "Ganesh") (PyStr.lower name)
  then {[ VIJAY_NAME; "David L. Dill" ]}
  else {[ PyStr.title name ]}.

(** ** Exceptions *)

(** The [assert] statements of [calculate_stats], by what they require. *)
Inductive assertion : Type :=
  | PathsUnchanged        (* assert delta.old_file.path == delta.new_file.path *)
  | FirstCommitAdds       (* assert delta.status == pygit2.GIT_DELTA_ADDED *)
  | AddedPathFresh        (* assert delta.new_file.path not in owners (adding) *)
  | ModifiedPathLive      (* assert delta.new_file.path in owners *)
  | RenamedPathFresh      (* assert delta.new_file.path not in owners (renaming) *)
  | LivePathOnDisk.       (* assert os.path.exists(...) *)

Inductive exn : Type :=
  | AssertionError (a : assertion)
  | KeyError (key : string)
  | RuntimeError (msg : string)
  | AttributeError (msg : string)
  | GitError.             (* pygit2.GitError: repo.head of an empty repository *)

Inductive result (A : Type) : Type :=
  | Ok (a : A)
  | Err (e : exn).

Arguments Ok {A} a.
Arguments Err {A} e.

Global Instance result_bind : MBind result := λ A B k r,
  match r with
  | Ok a => k a
  | Err e => Err e
  end.

Definition assert (b : bool) (a : assertion) : result unit :=
  if b then Ok tt else Err (AssertionError a).

(** [m[k]] and [del m[k]] on a dict: both raise [KeyError] on a missing key. *)
Definition getitem {V : Type} (m : gmap string V) (k : string) : result V :=
  match m !! k with
  | Some v => Ok v
  | None => Err (KeyError k)
  end.

Definition delitem {V : Type} (m : gmap string V) (k : string)
  : result (gmap string V) :=
  match m !! k with
  | Some _ => Ok (delete k m)
  | None => Err (KeyError k)
  end.

(** [k in m] *)
Definition has_key {V : Type} (k : string) (m : gmap string V) : bool :=
  match m !! k with
  | Some _ => true
  | None => false
  end.

(** ** The history provider's records *)

Inductive delta_status : Type :=
  | GIT_DELTA_UNMODIFIED
  | GIT_DELTA_ADDED
  | GIT_DELTA_DELETED
  | GIT_DELTA_MODIFIED
  | GIT_DELTA_RENAMED
  | GIT_DELTA_COPIED
  | GIT_DELTA_IGNORED
  | GIT_DELTA_UNTRACKED
  | GIT_DELTA_TYPECHANGE
  | GIT_DELTA_UNREADABLE
  | GIT_DELTA_CONFLICTED.

Global Instance delta_status_eq_dec : EqDecision delta_status.
Proof. solve_decision. Defined.

Definition get_git_type (action : delta_status) : string :=
  match action with
  | GIT_DELTA_ADDED => "GIT_DELTA_ADDED"
  | GIT_DELTA_CONFLICTED => "GIT_DELTA_CONFLICTED"
  | GIT_DELTA_COPIED => "GIT_DELTA_COPIED"
  | GIT_DELTA_DELETED => "GIT_DELTA_DELETED"
  | GIT_DELTA_IGNORED => "GIT_DELTA_IGNORED"
  | GIT_DELTA_MODIFIED => "GIT_DELTA_MODIFIED"
  | GIT_DELTA_RENAMED => "GIT_DELTA_RENAMED"
  | GIT_DELTA_TYPECHANGE => "GIT_DELTA_TYPECHANGE"
  | GIT_DELTA_UNMODIFIED => "GIT_DELTA_UNMODIFIED"
  | GIT_DELTA_UNREADABLE => "GIT_DELTA_UNREADABLE"
  | GIT_DELTA_UNTRACKED => "GIT_DELTA_UNTRACKED"
  end.

Record delta : Type := Delta {
  status : delta_status;
  old_file_path : string;
  new_file_path : string
}.

(** [commit.author]: display name, epoch seconds, UTC offset in minutes. *)
Record signature : Type := Signature {
  name : string;
  time : Z;
  offset : Z
}.

(** A commit together with [repo.diff(last, commit.hex).deltas] after
    [find_similar()]. *)
Record commit : Type := Commit {
  author : signature;
  deltas : list delta
}.

(** An aware [datetime] with a fixed-offset [timezone]: the instant it
    denotes, in epoch seconds, and the offset it is displayed in.  Aware
    datetimes are ordered by instant.  The provider's times and offsets are
    taken to lie in [datetime]'s range, so building one does not raise. *)
Record datetime : Type := Datetime {
  timestamp : Z;
  utcoffset : Z
}.

Global Instance datetime_eq_dec : EqDecision datetime.
Proof. solve_decision. Defined.

Definition datetime_lt (a b : datetime) : bool := timestamp a <? timestamp b.

Definition commit_time_of (c : commit) : datetime :=
  {| timestamp := time (author c); utcoffset := offset (author c) |}.

(** ** The walk *)

(** The local variables of [calculate_stats] that the loop updates. *)
Record state : Type := State {
  owners : gmap string (gset string);
  created_on : gmap string datetime;
  all_contributors : gset string;
  last_vijay_date : option datetime;
  first : bool
}.

Definition initial_state : state :=
  {| owners := ∅; created_on := ∅; all_contributors := ∅;
     last_vijay_date := None; first := true |}.

(** The body of [for delta in diff.deltas]. *)
Definition process_delta (c : commit) (d : delta) (st : state) : result state :=
  if first st || bool_decide (status d ∈ [GIT_DELTA_ADDED; GIT_DELTA_MODIFIED]) then
    assert (bool_decide (old_file_path d = new_file_path d)) PathsUnchanged ;;
    contributor ←
      (if first st then
         assert (bool_decide (status d = GIT_DELTA_ADDED)) FirstCommitAdds ;;
         Ok (transform_name VIJAY_NAME)
       else
         Ok (transform_name (name (author c))));
    let commit_time := commit_time_of c in
    let last_vijay_date' :=
      if bool_decide (VIJAY_NAME ∈ contributor) then Some commit_time
      else last_vijay_date st in
    '(owners', created_on') ←
      (if bool_decide (status d = GIT_DELTA_ADDED) then
         assert (negb (has_key (new_file_path d) (owners st))) AddedPathFresh ;;
         Ok (<[new_file_path d := contributor]> (owners st),
             <[new_file_path d := commit_time]> (created_on st))
       else
         assert (has_key (new_file_path d) (owners st)) ModifiedPathLive ;;
         current ← getitem (owners st) (new_file_path d);
         Ok (<[new_file_path d := current ∪ contributor]> (owners st),
             created_on st));
    Ok {| owners := owners'; created_on := created_on';
          all_contributors := all_contributors st ∪ contributor;
          last_vijay_date := last_vijay_date'; first := first st |}
  else if bool_decide (status d ∈ [GIT_DELTA_RENAMED; GIT_DELTA_DELETED]) then
    '(owners', created_on') ←
      (if bool_decide (status d = GIT_DELTA_RENAMED) then
         assert (negb (has_key (new_file_path d) (owners st))) RenamedPathFresh ;;
         old_owners ← getitem (owners st) (old_file_path d);
         old_created ← getitem (created_on st) (old_file_path d);
         Ok (<[new_file_path d := old_owners]> (owners st),
             <[new_file_path d := old_created]> (created_on st))
       else
         Ok (owners st, created_on st));
    owners'' ← delitem owners' (old_file_path d);
    created_on'' ← delitem created_on' (old_file_path d);
    Ok {| owners := owners''; created_on := created_on'';
          all_contributors := all_contributors st;
          last_vijay_date := last_vijay_date st; first := first st |}
  else
    Err (RuntimeError ("You haven't handled: " +:+ get_git_type (status d))).

(** [for delta in diff.deltas: ...] *)
Fixpoint process_deltas (c : commit) (ds : list delta) (st : state)
  : result state :=
  match ds with
  | [] => Ok st
  | d :: ds' => st' ← process_delta c d st; process_deltas c ds' st'
  end.

(** [first = False] *)
Definition handled_first (st : state) : state :=
  {| owners := owners st; created_on := created_on st;
     all_contributors := all_contributors st;
     last_vijay_date := last_vijay_date st; first := false |}.

(** One round of [for commit in repo.walk(...)]. *)
Definition process_commit (c : commit) (st : state) : result state :=
  st' ← process_deltas c (deltas c) st;
  Ok (handled_first st').

Fixpoint walk (history : list commit) (st : state) : result state :=
  match history with
  | [] => Ok st
  | c :: history' => st' ← process_commit c st; walk history' st'
  end.

(** ** The report *)

Inductive ownership : Type :=
  | Complete
  | Partial
  | Inherited
  | NoOwnership.

Definition ownership_label (o : ownership) : string :=
  match o with
  | Complete => "Complete"
  | Partial => "Partial"
  | Inherited => "Inherited"
  | NoOwnership => "None"
  end.

(** The [if]/[elif] chain of the report loop. *)
Definition classify (file_owners : gset string)
    (added_date last_vijay_date : datetime) : ownership :=
  let vijay_set := transform_name VIJAY_NAME in
  let before_last_date := datetime_lt added_date last_vijay_date in
  if bool_decide (file_owners = vijay_set) then Complete
  else if negb (bool_decide (vijay_set ∩ file_owners = ∅)) then Partial
  else if before_last_date then Inherited
  else NoOwnership.

(** One printed line: label, file name, date the file was first added. *)
Record row : Type := Row {
  row_ownership : ownership;
  row_name : string;
  row_date : datetime
}.

(** [for fname, owners in owners.items(): ...].  [on_disk] stands for
    [os.path.exists(os.path.join(path_to_repo, fname))]. *)
Fixpoint report_rows (on_disk : string → bool)
    (created_on : gmap string datetime) (last_vijay_date : datetime)
    (items : list (string * gset string)) : result (list row) :=
  match items with
  | [] => Ok []
  | (fname, file_owners) :: items' =>
      assert (on_disk fname) LivePathOnDisk ;;
      added_date ← getitem created_on fname;
      rows ← report_rows on_disk created_on last_vijay_date items';
      Ok (Row (classify file_owners added_date last_vijay_date) fname added_date
            :: rows)
  end.

(** [repo.head.peel()], from which the walk starts: the commit [HEAD]
    names, the last of the history.  A repository without a commit has no
    such commit, and pygit2 raises. *)
Definition peel_head (history : list commit) : result commit :=
  match history with
  | [] => Err GitError
  | c :: history' => Ok (List.last history' c)
  end.

(** What [calculate_stats] prints: the summary line's date and one row per
    live file.  The rows follow [map_to_list], whose order is not the
    dict's; lines printed before an exception are not kept. *)
Definition calculate_stats (on_disk : string → bool) (history : list commit)
  : result (datetime * list row) :=
  peel_head history;;
  st ← walk history initial_state;
  match last_vijay_date st with
  | None =>
      Err (AttributeError "'NoneType' object has no attribute 'strftime'")
  | Some last =>
      rows ← report_rows on_disk (created_on st) last (map_to_list (owners st));
      Ok (last, rows)
  end.

(** [main]: the exit status, when [calculate_stats] returns.  [on_disk] and
    [history] stand for what the repository at the fixed path holds. *)
Definition main (on_disk : string → bool) (history : list commit) : result Z :=
  calculate_stats on_disk history;; Ok 0.

(** ** Vocabulary of the statements *)

(** The identity the loop body attributes a change of commit [c] to. *)
Definition contributor_of (st : state) (c : commit) : gset string :=
  if first st then transform_name VIJAY_NAME
  else transform_name (name (author c)).

(** The value the loop body leaves in [last_vijay_date] after an added or
    modified file. *)
Definition stamp (st : state) (c : commit) : option datetime :=
  if bool_decide (VIJAY_NAME ∈ contributor_of st c) then Some (commit_time_of c)
  else last_vijay_date st.

(** The marker occurs in [name] up to the case of its letters. *)
Definition occurs_ignoring_case (marker name : string) : Prop :=
  ∃ pre mid post, name = pre +:+ mid +:+ post ∧ PyStr.lower mid = PyStr.lower marker.

(** A path is live when [owners] has it; [owners] and [created_on] are in
    lock-step when they have the same keys. *)
Definition live (p : string) (st : state) : Prop := is_Some (owners st !! p).

Definition lockstep (st : state) : Prop :=
  dom (owners st) = dom (created_on st).

(** The change kinds the loop body has a branch for. *)
Definition handled (s : delta_status) : Prop :=
  s ∈ [GIT_DELTA_ADDED; GIT_DELTA_MODIFIED; GIT_DELTA_RENAMED; GIT_DELTA_DELETED].

(** The exceptions that report a violated path invariant. *)
Definition invariant_violation (e : exn) : Prop :=
  match e with
  | AssertionError _ | KeyError _ => True
  | _ => False
  end.

(** The walk and the report loop raise nothing but assertion, key and
    runtime errors. *)
Definition loop_error (e : exn) : Prop :=
  match e with
  | AttributeError _ | GitError => False
  | _ => True
  end.

(** Commits arrive in non-decreasing order of author time. *)
Fixpoint chronological (history : list commit) : bool :=
  match history with
  | [] => true
  | c :: history' =>
      match history' with
      | [] => true
      | c' :: _ => (time (author c) <=? time (author c')) && chronological history'
      end
  end.

(** [last_vijay_date], when set, is no later than [t]. *)
Definition last_no_later_than (t : Z) (st : state) : Prop :=
  ∀ last, last_vijay_date st = Some last → timestamp last ≤ t.

(** The change is one the loop body dates: an added or modified file
    attributed to an identity that holds [VIJAY_NAME]. *)
Definition dates_vijay (st : state) (c : commit) (d : delta) : bool :=
  bool_decide (status d ∈ [GIT_DELTA_ADDED; GIT_DELTA_MODIFIED]) &&
  bool_decide (VIJAY_NAME ∈ contributor_of st c).

(** The name a file known as [p] goes by after a change, a commit's
    changes, a history. *)
Definition track (p : string) (d : delta) : string :=
  if bool_decide (status d = GIT_DELTA_RENAMED ∧ old_file_path d = p)
  then new_file_path d else p.

Definition track_deltas (p : string) (ds : list delta) : string :=
  foldl track p ds.

Definition track_history (p : string) (history : list commit) : string :=
  foldl (λ q c, track_deltas q (deltas c)) p history.

(** No change of the list deletes a file. *)
Definition no_deletion (ds : list delta) : Prop :=
  Forall (λ d, status d ≠ GIT_DELTA_DELETED) ds.

(** No change of the list deletes the file that starts under the path [p],
    followed through the renames; other files may be deleted. *)
Fixpoint kept (p : string) (ds : list delta) : bool :=
  match ds with
  | [] => true
  | d :: ds' =>
      negb (bool_decide (status d = GIT_DELTA_DELETED ∧ old_file_path d = p))
      && kept (track p d) ds'
  end.

Fixpoint kept_history (p : string) (history : list commit) : bool :=
  match history with
  | [] => true
  | c :: history' =>
      kept p (deltas c) && kept_history (track_deltas p (deltas c)) history'
  end.

(** The identities recorded for the path [p], in the order the walk meets
    them; [fi] tells whether [history] starts at the first commit. *)
Fixpoint identities (fi : bool) (p : string) (history : list commit)
  : list (gset string) :=
  match history with
  | [] => []
  | c :: history' =>
      ((λ _, if fi then transform_name VIJAY_NAME
             else transform_name (name (author c)))
         <$> filter (λ d, new_file_path d = p) (deltas c))
      ++ identities false p history'
  end.

(** The owners of a path after the identities [ids] have been recorded for
    it, one after the other. *)
Definition record_identities (o : option (gset string))
    (ids : list (gset string)) : option (gset string) :=
  foldl (λ o who, Some (default ∅ o ∪ who)) o ids.

(** Every change of the list adds or modifies a file. *)
Definition additions_and_modifications (ds : list delta) : Prop :=
  Forall (λ d, status d ∈ [GIT_DELTA_ADDED; GIT_DELTA_MODIFIED]) ds.

(** The change records of a history, each with the author of its commit. *)
Definition events (history : list commit) : list (signature * delta) :=
  c ← history; (λ d, (author c, d)) <$> deltas c.

(** The change record modifies a file. *)
Definition modification (e : signature * delta) : Prop :=
  status e.2 = GIT_DELTA_MODIFIED.

(** The loop body run over change records. *)
Fixpoint process_events (evs : list (signature * delta)) (st : state)
  : result state :=
  match evs with
  | [] => Ok st
  | e :: evs' =>
      st' ← process_delta (Commit e.1 []) e.2 st; process_events evs' st'
  end.

(** Two states that differ at most in [last_vijay_date]. *)
Definition same_files (s1 s2 : state) : Prop :=
  owners s1 = owners s2 ∧ created_on s1 = created_on s2 ∧
  all_contributors s1 = all_contributors s2 ∧ first s1 = first s2.

(** Every owner set is non-empty and within [all_contributors]. *)
Definition owners_accounted (st : state) : Prop :=
  ∀ p s, owners st !! p = Some s → s ≠ ∅ ∧ s ⊆ all_contributors st.

(** [last_vijay_date] is set exactly when [VIJAY_NAME] is a contributor. *)
Definition dated_iff_vijay (st : state) : Prop :=
  is_Some (last_vijay_date st) ↔ VIJAY_NAME ∈ all_contributors st.

(** The dates the state holds are times of commits that satisfy [seen]. *)
Definition dates_from (seen : commit → Prop) (st : state) : Prop :=
  (∀ p t, created_on st !! p = Some t → ∃ c, seen c ∧ t = commit_time_of c) ∧
  (∀ t, last_vijay_date st = Some t → ∃ c, seen c ∧ t = commit_time_of c).

(** The identities of the records of a history that add or modify a file,
    in the order the walk meets them; [fi] tells whether [history] starts at
    the first commit. *)
Fixpoint contributions (fi : bool) (history : list commit)
  : list (gset string) :=
  match history with
  | [] => []
  | c :: history' =>
      ((λ _, if fi then transform_name VIJAY_NAME
             else transform_name (name (author c)))
         <$> filter (λ d, status d ∈ [GIT_DELTA_ADDED; GIT_DELTA_MODIFIED])
               (deltas c))
      ++ contributions false history'
  end.

(** The number of records of a history with status [s]. *)
Definition count_status (s : delta_status) (history : list commit) : nat :=
  length (filter (λ d, status d = s) (history ≫= deltas)).

(** Every character of [s] satisfies [P]. *)
Fixpoint all_chars (P : ascii → bool) (s : string) : bool :=
  match s with
  | EmptyString => true
  | String c s' => P c && all_chars P s'
  end.

(** The letters of the lowered marker, and the characters of [VIJAY_NAME],
    as bytes and as code points. *)
Definition marker_letter (b : ascii) : bool :=
  Ascii7.is_ascii_char b &&
  existsb (Ascii.eqb b) (list_ascii_of_string "ganesh").

Definition vijay_letter (b : ascii) : bool :=
  Ascii7.is_ascii_char b &&
  existsb (Ascii.eqb b) (list_ascii_of_string "Vijay Ganesh").

Definition marker_code_point (c : N) : bool :=
  existsb (N.eqb c) (N_of_ascii <$> list_ascii_of_string "ganesh").

Definition vijay_code_point (c : N) : bool :=
  existsb (N.eqb c) (N_of_ascii <$> list_ascii_of_string "Vijay Ganesh").

(** Two strings that agree character by character, except that a run of
    characters none of which satisfies [L] may stand where the other has
    another such run. *)
Inductive alike (L : ascii → bool) : string → string → Prop :=
  | alike_nil : alike L EmptyString EmptyString
  | alike_same a u v : alike L u v → alike L (String a u) (String a v)
  | alike_other b1 b2 u v :
      b1 ≠ EmptyString → b2 ≠ EmptyString →
      all_chars (λ c, negb (L c)) b1 = true →
      all_chars (λ c, negb (L c)) b2 = true →
      alike L u v → alike L (b1 +:+ u) (b2 +:+ v).

Ltac unfold_step :=
  unfold process_delta, contributor_of, stamp, mbind, result_bind, assert,
    getitem, delitem, has_key in *.

(** Evaluates the tests on a known status. *)
Ltac eval_status_tests :=
  repeat match goal with
    | |- context [bool_decide (@elem_of delta_status ?L ?I ?a ?l)] =>
        let b := eval vm_compute in (bool_decide (@elem_of delta_status L I a l)) in
        change (bool_decide (@elem_of delta_status L I a l)) with b
    | |- context [bool_decide (@eq delta_status ?a ?a')] =>
        let b := eval vm_compute in (bool_decide (@eq delta_status a a')) in
        change (bool_decide (@eq delta_status a a')) with b
    end.

(** ** Histories used as examples *)

Module Scenarios.

Definition by_ (who : string) (t : Z) (ds : list delta) : commit :=
  Commit (Signature who t 0) ds.
Definition add (p : string) : delta := Delta GIT_DELTA_ADDED p p.
Definition modify (p : string) : delta := Delta GIT_DELTA_MODIFIED p p.
Definition rename (p q : string) : delta := Delta GIT_DELTA_RENAMED p q.
Definition remove (p : string) : delta := Delta GIT_DELTA_DELETED p p.

Definition history_1 : list commit :=
  [by_ "importer" 10 [add "a.txt"]; by_ "alice" 20 [modify "a.txt"]].
Definition history_2 : list commit :=
  [by_ "importer" 10 [add "b.txt"]].
Definition history_3 : list commit :=
  [by_ "importer" 10 [add "c.txt"]; by_ "carol" 20 [rename "c.txt" "d.txt"];
   by_ "bob" 30 [modify "d.txt"]].
Definition history_4 : list commit :=
  [by_ "importer" 10 [add "e.txt"]; by_ "carol" 20 [remove "e.txt"]].
Definition history_5 : list commit :=
  [by_ "importer" 10 [add "c.txt"; add "x.txt"];
   by_ "carol" 20 [remove "x.txt"; rename "c.txt" "d.txt"];
   by_ "bob" 30 [modify "d.txt"]].

(** The state after [add "a.txt"] in a first commit at time 10. *)
Definition state_first : state :=
  {| owners := {[ "a.txt" := {[ VIJAY_NAME; "David L. Dill" ]} ]};
     created_on := {[ "a.txt" := Datetime 10 0 ]};
     all_contributors := {[ VIJAY_NAME; "David L. Dill" ]};
     last_vijay_date := Some (Datetime 10 0); first := true |}.

(** The state [history_1] ends in, and the state after a further change
    of "a.txt" by "bob". *)
Definition state_1 : state :=
  {| owners := {[ "a.txt" := {[ VIJAY_NAME; "David L. Dill"; "Alice" ]} ]};
     created_on := {[ "a.txt" := Datetime 10 0 ]};
     all_contributors := {[ VIJAY_NAME; "David L. Dill"; "Alice" ]};
     last_vijay_date := Some (Datetime 10 0); first := false |}.

Definition state_1_bob : state :=
  {| owners :=
       {[ "a.txt" := {[ VIJAY_NAME; "David L. Dill"; "Alice"; "Bob" ]} ]};
     created_on := {[ "a.txt" := Datetime 10 0 ]};
     all_contributors := {[ VIJAY_NAME; "David L. Dill"; "Alice"; "Bob" ]};
     last_vijay_date := Some (Datetime 10 0); first := false |}.

(** The state after the first two commits of [history_3], and after a
    further change of "d.txt" by "vijay ganesh" at time 30. *)
Definition state_2 : state :=
  {| owners := {[ "d.txt" := {[ VIJAY_NAME; "David L. Dill" ]} ]};
     created_on := {[ "d.txt" := Datetime 10 0 ]};
     all_contributors := {[ VIJAY_NAME; "David L. Dill" ]};
     last_vijay_date := Some (Datetime 10 0); first := false |}.

Definition state_2_dated : state :=
  {| owners := {[ "d.txt" := {[ VIJAY_NAME; "David L. Dill" ]} ]};
     created_on := {[ "d.txt" := Datetime 10 0 ]};
     all_contributors := {[ VIJAY_NAME; "David L. Dill" ]};
     last_vijay_date := Some (Datetime 30 0); first := false |}.

(** The state [history_3] ends in. *)
Definition state_3 : state :=
  {| owners := {[ "d.txt" := {[ VIJAY_NAME; "David L. Dill"; "Bob" ]} ]};
     created_on := {[ "d.txt" := Datetime 10 0 ]};
     all_contributors := {[ VIJAY_NAME; "David L. Dill"; "Bob" ]};
     last_vijay_date := Some (Datetime 10 0); first := false |}.

End Scenarios.

(** * Lemmas *)

(** ** Strings: containment *)

Lemma append_cons c (s t : string) : String c s +:+ t = String c (s +:+ t).
Proof. reflexivity. Qed.

Lemma append_assoc_s (a b c : string) : (a +:+ b) +:+ c = a +:+ b +:+ c.
Proof. induction a as [|x a IH]; [done|]. by rewrite !append_cons, IH. Qed.

Lemma startswith_spec p s :
  PyStr.startswith p s = true ↔ ∃ post, s = p +:+ post.
Proof.
  revert s; induction p as [|a p IH]; intros s; simpl.
  - split; eauto.
  - destruct s as [|b s]; simpl.
    + split; [done | intros [? ?]; done].
    + rewrite andb_true_iff, Ascii.eqb_eq, IH. split.
      * intros [-> [post ->]]. eauto.
      * intros [post H]. rewrite append_cons in H. injection H as -> ->. eauto.
Qed.

Lemma contains_spec sub s :
  PyStr.contains sub s = true ↔ ∃ pre post, s = pre +:+ sub +:+ post.
Proof.
  induction s as [|b s IH].
  - simpl. rewrite orb_false_r, startswith_spec. split.
    + intros [post H]. exists EmptyString, post. done.
    + intros [[|? pre] [post H]]; [eauto | done].
  - cbn [PyStr.contains]. rewrite orb_true_iff, IH, startswith_spec. split.
    + intros [[post H] | (pre & post & H)].
      * exists EmptyString, post. done.
      * exists (String b pre), post. by rewrite append_cons, H.
    + intros ([|a pre] & post & H).
      * left. eauto.
      * right. rewrite append_cons in H. injection H as -> ->. eauto.
Qed.

(** ** Strings: case on ASCII *)

Lemma lower_append a b :
  Ascii7.lower (a +:+ b) = Ascii7.lower a +:+ Ascii7.lower b.
Proof.
  induction a as [|x a IH]; [done|].
  rewrite append_cons. simpl. by rewrite IH.
Qed.

Lemma lower_split s a b :
  Ascii7.lower s = a +:+ b →
  ∃ a' b', s = a' +:+ b' ∧ Ascii7.lower a' = a ∧ Ascii7.lower b' = b.
Proof.
  revert s; induction a as [|x a IH]; intros s H.
  - exists EmptyString, s. done.
  - destruct s as [|y s]; [done|].
    rewrite append_cons in H. simpl in H. injection H as Hx H.
    destruct (IH _ H) as (a' & b' & -> & <- & <-).
    exists (String y a'), b'. simpl. by rewrite Hx.
Qed.

Lemma contains_lower_ascii marker name :
  PyStr.contains (Ascii7.lower marker) (Ascii7.lower name) = true ↔
  ∃ pre mid post,
    name = pre +:+ mid +:+ post ∧ Ascii7.lower mid = Ascii7.lower marker.
Proof.
  rewrite contains_spec. split.
  - intros (pre & post & H).
    apply lower_split in H as (pre' & rest & -> & _ & H).
    apply lower_split in H as (mid & post' & -> & H & _).
    by exists pre', mid, post'.
  - intros (pre & mid & post & -> & H).
    exists (Ascii7.lower pre), (Ascii7.lower post).
    by rewrite !lower_append, H.
Qed.

Lemma lower_char_idemp c :
  Ascii7.lower_char (Ascii7.lower_char c) = Ascii7.lower_char c.
Proof. by destruct c as [[] [] [] [] [] [] [] []]. Qed.

Lemma lower_char_upper_char c :
  Ascii7.lower_char (Ascii7.upper_char c) = Ascii7.lower_char c.
Proof. by destruct c as [[] [] [] [] [] [] [] []]. Qed.

Lemma upper_char_lower_char c :
  Ascii7.upper_char (Ascii7.lower_char c) = Ascii7.upper_char c.
Proof. by destruct c as [[] [] [] [] [] [] [] []]. Qed.

Lemma is_cased_lower_char c :
  Ascii7.is_cased (Ascii7.lower_char c) = Ascii7.is_cased c.
Proof. by destruct c as [[] [] [] [] [] [] [] []]. Qed.

Lemma lower_title_from b s :
  Ascii7.lower (Ascii7.title_from b s) = Ascii7.lower s.
Proof.
  revert b; induction s as [|c s IH]; intros b; simpl; [done|].
  rewrite IH. by destruct b; rewrite ?lower_char_idemp, ?lower_char_upper_char.
Qed.

Lemma title_from_lower_eq b s1 s2 :
  Ascii7.lower s1 = Ascii7.lower s2 →
  Ascii7.title_from b s1 = Ascii7.title_from b s2.
Proof.
  revert b s2; induction s1 as [|x s1 IH]; intros b [|y s2]; simpl; try done.
  intros [= Hc Hs].
  assert (Hu : Ascii7.upper_char x = Ascii7.upper_char y).
  { by rewrite <- (upper_char_lower_char x), Hc, upper_char_lower_char. }
  assert (Hk : Ascii7.is_cased x = Ascii7.is_cased y).
  { by rewrite <- (is_cased_lower_char x), Hc, is_cased_lower_char. }
  rewrite Hc, Hu, Hk. f_equal. by apply IH.
Qed.

(** ** Strings: runs of other characters *)

Lemma all_chars_append P a b :
  all_chars P (a +:+ b) = all_chars P a && all_chars P b.
Proof.
  induction a as [|x a IH]; [done|].
  rewrite append_cons. simpl. by rewrite IH, andb_assoc.
Qed.

Lemma startswith_other L w b u :
  w ≠ EmptyString → all_chars L w = true →
  b ≠ EmptyString → all_chars (λ c, negb (L c)) b = true →
  PyStr.startswith w (b +:+ u) = false.
Proof.
  destruct w as [|x w]; [done|]. destruct b as [|y b]; [done|].
  intros _ [Hx _]%andb_true_iff _ [Hy _]%andb_true_iff.
  rewrite append_cons. simpl. apply andb_false_iff. left.
  apply Ascii.eqb_neq. intros ->. rewrite Hx in Hy. discriminate.
Qed.

Lemma contains_other L w b u :
  w ≠ EmptyString → all_chars L w = true →
  all_chars (λ c, negb (L c)) b = true →
  PyStr.contains w (b +:+ u) = PyStr.contains w u.
Proof.
  intros Hw HL. induction b as [|y b IH]; [done|].
  intros Hb. pose proof Hb as [_ Hb']%andb_true_iff.
  rewrite append_cons. cbn [PyStr.contains]. rewrite (IH Hb').
  change (String y (b +:+ u)) with (String y b +:+ u).
  by rewrite (startswith_other L w (String y b) u).
Qed.

Lemma alike_startswith L u v w :
  alike L u v → all_chars L w = true →
  PyStr.startswith w u = PyStr.startswith w v.
Proof.
  intros H. revert w.
  induction H as [|a u v _ IH|b1 b2 u v H1 H2 Hb1 Hb2 _ _]; intros w Hw.
  - done.
  - destruct w as [|x w]; [done|]. simpl.
    apply andb_true_iff in Hw as [_ Hw]. by rewrite (IH _ Hw).
  - destruct w as [|x w]; [done|].
    by rewrite !(startswith_other L).
Qed.

Lemma alike_contains L u v w :
  alike L u v → all_chars L w = true →
  PyStr.contains w u = PyStr.contains w v.
Proof.
  intros H Hw. destruct w as [|x w].
  { by destruct u, v. }
  induction H as [|a u v H IH|b1 b2 u v H1 H2 Hb1 Hb2 _ IH].
  - done.
  - cbn [PyStr.contains]. rewrite IH.
    by rewrite (alike_startswith L _ _ _ (alike_same L a u v H) Hw).
  - by rewrite !(contains_other L), IH.
Qed.

Lemma alike_eq_l L u v : alike L u v → all_chars L u = true → u = v.
Proof.
  induction 1 as [|a u v _ IH|b1 b2 u v H1 H2 Hb1 Hb2 _ _]; [done| |].
  - simpl. intros [_ Hu]%andb_true_iff. by rewrite IH.
  - destruct b1 as [|y b1]; [done|]. rewrite append_cons. simpl.
    apply andb_true_iff in Hb1 as [Hy _].
    intros [Hy' _]%andb_true_iff. rewrite Hy' in Hy. discriminate.
Qed.

Lemma alike_eq_r L u v : alike L u v → all_chars L v = true → u = v.
Proof.
  induction 1 as [|a u v _ IH|b1 b2 u v H1 H2 Hb1 Hb2 _ _]; [done| |].
  - simpl. intros [_ Hu]%andb_true_iff. by rewrite IH.
  - destruct b2 as [|y b2]; [done|]. rewrite append_cons. simpl.
    apply andb_true_iff in Hb2 as [Hy _].
    intros [Hy' _]%andb_true_iff. rewrite Hy' in Hy. discriminate.
Qed.
(** ** Strings: UTF-8 *)

Lemma encode_app l1 l2 :
  PyStr.encode (l1 ++ l2) = PyStr.encode l1 +:+ PyStr.encode l2.
Proof.
  induction l1 as [|c l1 IH]; [done|]. simpl. by rewrite IH, append_assoc_s.
Qed.

Lemma encode_code_point_nonempty c : PyStr.encode_code_point c ≠ EmptyString.
Proof. unfold PyStr.encode_code_point. by repeat case_match. Qed.

(** A property that holds of the numbers below [n], by checking them. *)
Lemma check_below (p : N → bool) (n : nat) :
  forallb p (N.of_nat <$> seq 0 n) = true →
  ∀ x, (x < N.of_nat n)%N → p x = true.
Proof.
  intros H x Hx. rewrite forallb_forall in H. apply H.
  apply list_elem_of_In, list_elem_of_fmap. exists (N.to_nat x).
  split; [by rewrite N2Nat.id|]. apply list_elem_of_In, in_seq. lia.
Qed.

Lemma assoc_Some c table mapped :
  PyStr.assoc c table = Some mapped → In (c, mapped) table.
Proof.
  induction table as [|[k v] table IH]; simpl; [done|].
  destruct (N.eqb_spec k c) as [->|_].
  - intros [= ->]. by left.
  - intros H. right. by apply IH.
Qed.

Lemma decode_ascii b s :
  Ascii7.is_ascii_char b = true →
  PyStr.decode (String b s) = N_of_ascii b :: PyStr.decode s.
Proof.
  destruct b as [x0 x1 x2 x3 x4 x5 x6 []]; [done|]. intros _.
  cbn [PyStr.decode]. f_equal.
  by destruct x0, x1, x2, x3, x4, x5, x6.
Qed.

Lemma N_of_ascii_below_128 b :
  Ascii7.is_ascii_char b = true → (N_of_ascii b < 128)%N.
Proof. by destruct b as [[] [] [] [] [] [] [] []]. Qed.

(** What [decode] does with a byte that is not ASCII: it takes a run of
    such bytes for one code point, which is not ASCII either. *)
Lemma decode_high b s :
  Ascii7.is_ascii_char b = false →
  ∃ c chunk rest,
    String b s = chunk +:+ rest ∧
    chunk ≠ EmptyString ∧
    all_chars (λ x, negb (Ascii7.is_ascii_char x)) chunk = true ∧
    (128 ≤ c)%N ∧
    PyStr.decode (String b s) = c :: PyStr.decode rest ∧
    (String.length rest ≤ String.length s)%nat.
Proof.
  destruct b as [x0 x1 x2 x3 x4 x5 x6 []]; [|done]. intros _.
  cbn [PyStr.decode].
  repeat case_match; subst.
  all: repeat match goal with
         | H : _ && _ = true |- _ => apply andb_true_iff in H as [? ?]
         | H : (_ <=? _)%N = true |- _ => apply N.leb_le in H
         end.
  all: first
    [ eexists _, (String _ EmptyString), _;
      split_and!;
        [reflexivity|done|done| |reflexivity|simpl; lia];
      unfold PyStr.escaped; lia
    | eexists _, (String _ (String _ EmptyString)), _;
      split_and!; [reflexivity|done|done| |reflexivity|simpl; lia]; lia
    | eexists _, (String _ (String _ (String _ EmptyString))), _;
      split_and!; [reflexivity|done|done| |reflexivity|simpl; lia]; lia
    | eexists _, (String _ (String _ (String _ (String _ EmptyString)))), _;
      split_and!; [reflexivity|done|done| |reflexivity|simpl; lia]; lia ].
Qed.

(** ** Strings: what the case tables never produce *)

Lemma high_byte_no_letter (L : ascii → bool) chunk :
  (∀ b, L b = true → Ascii7.is_ascii_char b = true) →
  all_chars (λ x, negb (Ascii7.is_ascii_char x)) chunk = true →
  all_chars (λ x, negb (L x)) chunk = true.
Proof.
  intros HL. induction chunk as [|b chunk IH]; [done|]. simpl.
  intros [Hb Hc]%andb_true_iff. rewrite (IH Hc), andb_true_r.
  destruct (L b) eqn:E; [|done]. by rewrite (HL _ E) in Hb.
Qed.

Lemma marker_letter_ascii b :
  marker_letter b = true → Ascii7.is_ascii_char b = true.
Proof. unfold marker_letter. by intros [? _]%andb_true_iff. Qed.

Lemma vijay_letter_ascii b :
  vijay_letter b = true → Ascii7.is_ascii_char b = true.
Proof. unfold vijay_letter. by intros [? _]%andb_true_iff. Qed.

(** The bytes of a code point that is not a letter of the marker are not
    letters of the marker. *)
Lemma encode_no_marker_letter c :
  marker_code_point c = false →
  all_chars (λ x, negb (marker_letter x)) (PyStr.encode_code_point c) = true.
Proof.
  intros Hc. destruct (N.ltb_spec c 128) as [Hlt|Hge].
  - revert Hc.
    pose proof (check_below
      (λ c, implb (negb (marker_code_point c))
              (all_chars (λ x, negb (marker_letter x))
                 (PyStr.encode_code_point c))) 128) as H.
    specialize (H ltac:(vm_compute; reflexivity) c Hlt). simpl in H.
    intros Hc. by rewrite Hc in H.
  - apply (high_byte_no_letter _ _ marker_letter_ascii).
    unfold PyStr.encode_code_point.
    destruct (N.ltb_spec c 128); [lia|]. by repeat case_match.
Qed.

(** The bytes of a code point that is not a character of [VIJAY_NAME] are
    not all characters of [VIJAY_NAME]. *)
Lemma encode_not_vijay c :
  vijay_code_point c = false →
  all_chars vijay_letter (PyStr.encode_code_point c) = false.
Proof.
  intros Hc. destruct (N.ltb_spec c 128) as [Hlt|Hge].
  - revert Hc.
    pose proof (check_below
      (λ c, implb (negb (vijay_code_point c))
              (negb (all_chars vijay_letter (PyStr.encode_code_point c))))
      128) as H.
    specialize (H ltac:(vm_compute; reflexivity) c Hlt). simpl in H.
    intros Hc. rewrite Hc in H. by apply negb_true_iff in H.
  - unfold PyStr.encode_code_point.
    destruct (N.ltb_spec c 128); [lia|]. by repeat case_match.
Qed.

Lemma encode_block_no_marker_letter block :
  forallb (λ c, negb (marker_code_point c)) block = true →
  all_chars (λ x, negb (marker_letter x)) (PyStr.encode block) = true.
Proof.
  induction block as [|c block IH]; [done|]. simpl.
  intros [Hc Hb]%andb_true_iff. apply negb_true_iff in Hc.
  by rewrite all_chars_append, (encode_no_marker_letter _ Hc), (IH Hb).
Qed.

Lemma encode_block_not_vijay block :
  existsb (λ c, negb (vijay_code_point c)) block = true →
  all_chars vijay_letter (PyStr.encode block) = false.
Proof.
  induction block as [|c block IH]; [done|]. simpl.
  rewrite all_chars_append. intros [Hc|Hb]%orb_true_iff.
  - apply negb_true_iff in Hc. by rewrite (encode_not_vijay _ Hc).
  - rewrite (IH Hb). apply andb_false_r.
Qed.

Lemma encode_block_nonempty block :
  block ≠ [] → PyStr.encode block ≠ EmptyString.
Proof.
  destruct block as [|c block]; [done|]. intros _. simpl.
  pose proof (encode_code_point_nonempty c).
  by destruct (PyStr.encode_code_point c).
Qed.

Lemma high_code_point_no_marker c :
  (128 ≤ c)%N → marker_code_point c = false.
Proof.
  intros Hc. destruct (marker_code_point c) eqn:E; [|done].
  unfold marker_code_point in E. apply existsb_exists in E as (x & Hx & ->%N.eqb_eq).
  exfalso. simpl in Hx. lia.
Qed.

Lemma high_code_point_not_vijay c :
  (128 ≤ c)%N → vijay_code_point c = false.
Proof.
  intros Hc. destruct (vijay_code_point c) eqn:E; [|done].
  unfold vijay_code_point in E. apply existsb_exists in E as (x & Hx & ->%N.eqb_eq).
  exfalso. simpl in Hx. lia.
Qed.

(** No code point above ASCII lowers to a letter of the marker. *)
Lemma lower_table_no_marker :
  forallb (λ e, negb (if e.2 is [] then true else false) &&
                forallb (λ c, negb (marker_code_point c)) e.2)
    PyStr.lower_table = true.
Proof. vm_compute. reflexivity. Qed.

(** No code point above ASCII lowers or title-cases to characters of
    [VIJAY_NAME] alone. *)
Lemma tables_not_vijay :
  forallb (λ e, existsb (λ c, negb (vijay_code_point c)) e.2)
    (PyStr.lower_table ++ PyStr.title_table) = true.
Proof. vm_compute. reflexivity. Qed.

Lemma lower_ucs4_high after_cased c rest :
  (128 ≤ c)%N →
  PyStr.lower_ucs4 after_cased c rest ≠ [] ∧
  forallb (λ c, negb (marker_code_point c))
    (PyStr.lower_ucs4 after_cased c rest) = true ∧
  existsb (λ c, negb (vijay_code_point c))
    (PyStr.lower_ucs4 after_cased c rest) = true.
Proof.
  intros Hc. unfold PyStr.lower_ucs4.
  destruct (N.eqb_spec c 931) as [->|_].
  { by destruct (after_cased && PyStr.final_after rest). }
  unfold PyStr.to_lower_full. destruct (N.ltb_spec c 128); [lia|].
  destruct (PyStr.assoc c PyStr.lower_table) as [mapped|] eqn:E.
  - apply assoc_Some in E.
    pose proof lower_table_no_marker as H1. rewrite forallb_forall in H1.
    apply H1 in E as H1'. simpl in H1'. apply andb_true_iff in H1' as [Hne Hm].
    pose proof tables_not_vijay as H2. rewrite forallb_forall in H2.
    specialize (H2 (c, mapped) ltac:(apply in_or_app; by left)). simpl in H2.
    split_and!; [|done..]. by destruct mapped.
  - simpl. by rewrite high_code_point_no_marker, high_code_point_not_vijay.
Qed.

Lemma to_title_full_high c :
  (128 ≤ c)%N →
  existsb (λ c, negb (vijay_code_point c)) (PyStr.to_title_full c) = true.
Proof.
  intros Hc. unfold PyStr.to_title_full. destruct (N.ltb_spec c 128); [lia|].
  destruct (PyStr.assoc c PyStr.title_table) as [mapped|] eqn:E.
  - apply assoc_Some in E.
    pose proof tables_not_vijay as H2. rewrite forallb_forall in H2.
    by specialize (H2 (c, mapped) ltac:(apply in_or_app; by right)).
  - simpl. by rewrite high_code_point_not_vijay.
Qed.

(** ** Strings: ASCII, byte by byte *)

Lemma lower_block_ascii after_cased b rest :
  Ascii7.is_ascii_char b = true →
  PyStr.encode (PyStr.lower_ucs4 after_cased (N_of_ascii b) rest)
  = String (Ascii7.lower_char b) EmptyString.
Proof.
  destruct b as [x0 x1 x2 x3 x4 x5 x6 []]; [done|]. intros _.
  by destruct x0, x1, x2, x3, x4, x5, x6.
Qed.

Lemma title_block_ascii b :
  Ascii7.is_ascii_char b = true →
  PyStr.encode (PyStr.to_title_full (N_of_ascii b))
  = String (Ascii7.upper_char b) EmptyString.
Proof.
  destruct b as [x0 x1 x2 x3 x4 x5 x6 []]; [done|]. intros _.
  by destruct x0, x1, x2, x3, x4, x5, x6.
Qed.

Lemma is_cased_ascii b :
  Ascii7.is_ascii_char b = true →
  PyStr.is_cased (N_of_ascii b) = Ascii7.is_cased b.
Proof.
  destruct b as [x0 x1 x2 x3 x4 x5 x6 []]; [done|]. intros _.
  by destruct x0, x1, x2, x3, x4, x5, x6.
Qed.

Lemma lower_char_high b :
  Ascii7.is_ascii_char b = false → Ascii7.lower_char b = b.
Proof.
  destruct b as [x0 x1 x2 x3 x4 x5 x6 []]; [|done]. intros _.
  by destruct x0, x1, x2, x3, x4, x5, x6.
Qed.

Lemma lower_high chunk :
  all_chars (λ x, negb (Ascii7.is_ascii_char x)) chunk = true →
  Ascii7.lower chunk = chunk.
Proof.
  induction chunk as [|b chunk IH]; [done|]. simpl.
  intros [Hb Hc]%andb_true_iff. apply negb_true_iff in Hb.
  by rewrite (lower_char_high _ Hb), (IH Hc).
Qed.

(** On a name of ASCII characters [str.lower] and [str.title] work byte by
    byte. *)
Lemma lower_from_ascii after_cased s :
  Ascii7.is_ascii s = true →
  PyStr.encode (PyStr.lower_from after_cased (PyStr.decode s))
  = Ascii7.lower s.
Proof.
  revert after_cased; induction s as [|b s IH]; intros ac; [done|].
  cbn [Ascii7.is_ascii Ascii7.lower].
  intros [Hb Hs]%andb_true_iff. rewrite (decode_ascii _ _ Hb).
  cbn [PyStr.lower_from]. rewrite encode_app, (lower_block_ascii _ _ _ Hb).
  by rewrite (IH _ Hs).
Qed.

Lemma title_from_ascii previous_is_cased after_cased s :
  Ascii7.is_ascii s = true →
  PyStr.encode
    (PyStr.title_from previous_is_cased after_cased (PyStr.decode s))
  = Ascii7.title_from previous_is_cased s.
Proof.
  revert previous_is_cased after_cased; induction s as [|b s IH];
    intros pc ac; [done|]. cbn [Ascii7.is_ascii Ascii7.title_from].
  intros [Hb Hs]%andb_true_iff. rewrite (decode_ascii _ _ Hb).
  cbn [PyStr.title_from]. rewrite encode_app, (is_cased_ascii _ Hb).
  rewrite (IH _ _ Hs).
  by destruct pc; rewrite ?(lower_block_ascii _ _ _ Hb), ?(title_block_ascii _ Hb).
Qed.

Lemma lower_ascii s :
  Ascii7.is_ascii s = true → PyStr.lower s = Ascii7.lower s.
Proof. apply lower_from_ascii. Qed.

Lemma title_ascii s :
  Ascii7.is_ascii s = true → PyStr.title s = Ascii7.title s.
Proof. apply title_from_ascii. Qed.

(** ** Strings: the marker in a lowered name *)

Lemma lower_from_alike n : ∀ s after_cased,
  (String.length s ≤ n)%nat →
  alike marker_letter
    (PyStr.encode (PyStr.lower_from after_cased (PyStr.decode s)))
    (Ascii7.lower s).
Proof.
  induction n as [|n IH]; intros [|b s] ac Hn; try (simpl in Hn; lia).
  - constructor.
  - constructor.
  - destruct (Ascii7.is_ascii_char b) eqn:Hb.
    + rewrite (decode_ascii _ _ Hb). cbn [PyStr.lower_from Ascii7.lower].
      rewrite encode_app, (lower_block_ascii _ _ _ Hb), append_cons.
      constructor. apply IH. simpl in Hn. lia.
    + destruct (decode_high b s Hb)
        as (c & chunk & rest & Hs & Hne & Hhigh & Hc & Hd & Hlen).
      rewrite Hd, Hs, lower_append, (lower_high _ Hhigh).
      cbn [PyStr.lower_from]. rewrite encode_app.
      destruct (lower_ucs4_high ac c (PyStr.decode rest) Hc) as (Hb1 & Hb2 & _).
      apply alike_other.
      * by apply encode_block_nonempty.
      * done.
      * by apply encode_block_no_marker_letter.
      * by apply (high_byte_no_letter _ _ marker_letter_ascii).
      * apply IH. simpl in Hn. lia.
Qed.

Lemma lower_alike s :
  alike marker_letter (PyStr.lower s) (Ascii7.lower s).
Proof. by apply (lower_from_alike (String.length s)). Qed.

(** A name title-cased into characters of [VIJAY_NAME] alone is ASCII. *)
Lemma title_from_vijay_ascii n : ∀ s previous_is_cased after_cased,
  (String.length s ≤ n)%nat →
  all_chars vijay_letter
    (PyStr.encode
       (PyStr.title_from previous_is_cased after_cased (PyStr.decode s)))
  = true →
  Ascii7.is_ascii s = true.
Proof.
  induction n as [|n IH]; intros [|b s] pc ac Hn; try (simpl in Hn; lia);
    try done.
  destruct (Ascii7.is_ascii_char b) eqn:Hb.
  - rewrite (decode_ascii _ _ Hb). cbn [PyStr.title_from Ascii7.is_ascii].
    rewrite encode_app, all_chars_append, Hb.
    intros [_ H]%andb_true_iff. simpl in Hn.
    apply (IH s (PyStr.is_cased (N_of_ascii b))
             (PyStr.after_cased_next ac (N_of_ascii b))); [lia|done].
  - destruct (decode_high b s Hb)
      as (c & chunk & rest & Hs & Hne & Hhigh & Hc & Hd & Hlen).
    rewrite Hd. cbn [PyStr.title_from].
    rewrite encode_app, all_chars_append.
    intros [H _]%andb_true_iff. exfalso.
    destruct pc.
    + destruct (lower_ucs4_high ac c (PyStr.decode rest) Hc) as (_ & _ & Hv).
      by rewrite (encode_block_not_vijay _ Hv) in H.
    + by rewrite (encode_block_not_vijay _ (to_title_full_high c Hc)) in H.
Qed.

Lemma title_vijay_ascii s :
  PyStr.title s = VIJAY_NAME → Ascii7.is_ascii s = true.
Proof.
  intros H. apply (title_from_vijay_ascii (String.length s) s false false);
    [done|]. fold (PyStr.title s). by rewrite H.
Qed.

(** The test of [transform_name] is an occurrence of the marker up to the
    case of its six letters. *)
Lemma lower_marker : PyStr.lower "Ganesh" = Ascii7.lower "Ganesh".
Proof. vm_compute. reflexivity. Qed.

Lemma lower_eq_marker mid :
  PyStr.lower mid = PyStr.lower "Ganesh" ↔
  Ascii7.lower mid = Ascii7.lower "Ganesh".
Proof.
  rewrite lower_marker. split; intros H.
  - rewrite <- H. symmetry. apply (alike_eq_l marker_letter).
    + apply lower_alike.
    + rewrite H. vm_compute. reflexivity.
  - rewrite <- H. apply (alike_eq_r marker_letter).
    + apply lower_alike.
    + rewrite H. vm_compute. reflexivity.
Qed.

Lemma contains_marker_spec name :
  PyStr.contains (PyStr.lower "Ganesh") (PyStr.lower name) = true ↔
  occurs_ignoring_case "Ganesh" name.
Proof.
  rewrite lower_marker.
  rewrite (alike_contains marker_letter _ _ _ (lower_alike name))
    by (vm_compute; reflexivity).
  rewrite contains_lower_ascii. unfold occurs_ignoring_case.
  split; intros (pre & mid & post & Hn & Hl); exists pre, mid, post;
    (split; [done|]); by apply lower_eq_marker.
Qed.

(** The two-name set is never a one-name set. *)
Lemma pair_not_singleton (x : string) :
  ({[ VIJAY_NAME; "David L. Dill" ]} : gset string) ≠ {[ x ]}.
Proof.
  intros H.
  assert (H1 : VIJAY_NAME ∈ ({[ x ]} : gset string)) by (rewrite <- H; set_solver).
  assert (H2 : "David L. Dill" ∈ ({[ x ]} : gset string)) by (rewrite <- H; set_solver).
  apply elem_of_singleton in H1, H2. rewrite <- H1 in H2. discriminate H2.
Qed.

(** C8: [transform_name] returns the two-name set exactly when the marker
    "Ganesh" occurs in the raw name up to case, that is when the name holds
    its six letters in a row, each in either case, and otherwise the set
    holding only the title-cased raw name.  Title-casing is that of
    [str.title]: on a name of ASCII characters every letter that follows a
    letter is lowered and every other letter is upper-cased, and beyond
    ASCII it follows the Unicode case data.  "VIJAY ganesh" gives the same
    set as the canonical name. *)
Theorem transform_name_spec (name : string) :
  (occurs_ignoring_case "Ganesh" name ↔
     transform_name name = {[ VIJAY_NAME; "David L. Dill" ]}) ∧
  (occurs_ignoring_case "Ganesh" name ↔
     ∃ pre mid post,
       name = pre +:+ mid +:+ post ∧ Ascii7.lower mid = "ganesh") ∧
  (¬ occurs_ignoring_case "Ganesh" name →
     transform_name name = {[ PyStr.title name ]}) ∧
  (Ascii7.is_ascii name = true →
     PyStr.title name = Ascii7.title name ∧
     PyStr.lower name = Ascii7.lower name) ∧
  transform_name "alice" = {[ "Alice" ]} ∧
  transform_name "josé maría" = {[ "José María" ]} ∧
  transform_name "o'neil mcGEE" = {[ "O'Neil Mcgee" ]} ∧
  transform_name "VIJAY ganesh" = transform_name VIJAY_NAME ∧
  transform_name VIJAY_NAME = {[ VIJAY_NAME; "David L. Dill" ]}.
Proof.
  split_and!; [| | | |vm_compute; reflexivity..].
  - rewrite <- contains_marker_spec. unfold transform_name.
    destruct (PyStr.contains (PyStr.lower "Ganesh") (PyStr.lower name)).
    + done.
    + split; [done|]. intros H. symmetry in H.
      by apply pair_not_singleton in H.
  - unfold occurs_ignoring_case.
    split; intros (pre & mid & post & Hn & Hl); exists pre, mid, post;
      (split; [done|]); by apply lower_eq_marker.
  - rewrite <- contains_marker_spec. unfold transform_name.
    by destruct (PyStr.contains (PyStr.lower "Ganesh") (PyStr.lower name)).
  - intros H. by rewrite title_ascii, lower_ascii.
Qed.

Example transform_name_alice : transform_name "alice" = {[ "Alice" ]}.
Proof. vm_compute. reflexivity. Qed.

Example transform_name_vijay :
  transform_name "VIJAY ganesh" = {[ VIJAY_NAME; "David L. Dill" ]}.
Proof. vm_compute. reflexivity. Qed.

Example title_apostrophe : PyStr.title "o'neil mcGEE" = "O'Neil Mcgee".
Proof. vm_compute. reflexivity. Qed.

(** Beyond ASCII: a lowered letter may be longer than the letter, a small
    letter may title-case into two, and capital sigma lowers by its place in
    the word. *)
Example title_sharp_s : PyStr.title "ßa straße" = "Ssa Straße".
Proof. vm_compute. reflexivity. Qed.

Example lower_final_sigma : PyStr.lower "ΟΔΥΣΣΕΥΣ Σ" = "οδυσσευς σ".
Proof. vm_compute. reflexivity. Qed.

Example lower_dotted_capital_i : PyStr.lower "İ" = "i̇".
Proof. vm_compute. reflexivity. Qed.

(** ** What a successful step does *)

Lemma process_delta_Ok c d st st' :
  process_delta c d st = Ok st' →
  first st' = first st ∧
  match status d with
  | GIT_DELTA_ADDED =>
      old_file_path d = new_file_path d ∧
      owners st !! new_file_path d = None ∧
      owners st' = <[new_file_path d := contributor_of st c]> (owners st) ∧
      created_on st' = <[new_file_path d := commit_time_of c]> (created_on st) ∧
      all_contributors st' = all_contributors st ∪ contributor_of st c ∧
      last_vijay_date st' = stamp st c
  | GIT_DELTA_MODIFIED =>
      first st = false ∧
      old_file_path d = new_file_path d ∧
      (∃ current, owners st !! new_file_path d = Some current ∧
         owners st' =
           <[new_file_path d := current ∪ contributor_of st c]> (owners st)) ∧
      created_on st' = created_on st ∧
      all_contributors st' = all_contributors st ∪ contributor_of st c ∧
      last_vijay_date st' = stamp st c
  | GIT_DELTA_RENAMED =>
      first st = false ∧
      owners st !! new_file_path d = None ∧
      (∃ old_owners old_created,
         owners st !! old_file_path d = Some old_owners ∧
         created_on st !! old_file_path d = Some old_created ∧
         owners st' =
           delete (old_file_path d) (<[new_file_path d := old_owners]> (owners st)) ∧
         created_on st' =
           delete (old_file_path d)
             (<[new_file_path d := old_created]> (created_on st))) ∧
      all_contributors st' = all_contributors st ∧
      last_vijay_date st' = last_vijay_date st
  | GIT_DELTA_DELETED =>
      first st = false ∧
      is_Some (owners st !! old_file_path d) ∧
      is_Some (created_on st !! old_file_path d) ∧
      owners st' = delete (old_file_path d) (owners st) ∧
      created_on st' = delete (old_file_path d) (created_on st) ∧
      all_contributors st' = all_contributors st ∧
      last_vijay_date st' = last_vijay_date st
  | _ => False
  end.
Proof.
  destruct d as [s o n], st as [ow cr al lv fi]; simpl.
  unfold_step; simpl.
  destruct s, fi; simpl; intros H;
    repeat (case_bool_decide || case_match || simplify_eq/= );
    try done; simpl; eauto 12.
Qed.

(** ** The error monad and the two loops *)

Lemma bind_Ok {A B} (r : result A) (k : A → result B) b :
  r ≫= k = Ok b ↔ ∃ a, r = Ok a ∧ k a = Ok b.
Proof.
  destruct r as [a|e]; simpl.
  - split; [eauto | by intros (? & [= <-] & ?)].
  - split; [done | by intros (? & ? & ?)].
Qed.

Lemma process_deltas_app c ds1 ds2 st :
  process_deltas c (ds1 ++ ds2) st =
  process_deltas c ds1 st ≫= process_deltas c ds2.
Proof.
  revert st; induction ds1 as [|d ds1 IH]; intros st; simpl; [done|].
  destruct (process_delta c d st); simpl; [apply IH | done].
Qed.

Lemma walk_app cs1 cs2 st :
  walk (cs1 ++ cs2) st = walk cs1 st ≫= walk cs2.
Proof.
  revert st; induction cs1 as [|c cs1 IH]; intros st; simpl; [done|].
  destruct (process_commit c st); simpl; [apply IH | done].
Qed.

(** A property kept by every successful step is kept by both loops. *)
Section Invariants.
Variable P : state → Prop.
Hypothesis P_step :
  ∀ c d st st', P st → process_delta c d st = Ok st' → P st'.
Hypothesis P_handled_first : ∀ st, P st → P (handled_first st).

Lemma process_deltas_invariant c ds st st' :
  P st → process_deltas c ds st = Ok st' → P st'.
Proof.
  revert st; induction ds as [|d ds IH]; intros st HP; simpl.
  - by intros [= <-].
  - intros (st1 & H1 & H2)%bind_Ok. eauto.
Qed.

Lemma process_commit_invariant c st st' :
  P st → process_commit c st = Ok st' → P st'.
Proof.
  intros HP (st1 & H1 & [= <-])%bind_Ok.
  eauto using process_deltas_invariant.
Qed.

Lemma walk_invariant cs st st' :
  P st → walk cs st = Ok st' → P st'.
Proof.
  revert st; induction cs as [|c cs IH]; intros st HP; simpl.
  - by intros [= <-].
  - intros (st1 & H1 & H2)%bind_Ok. eauto using process_commit_invariant.
Qed.
End Invariants.

(** An exception in the loop body ends the whole walk. *)
Lemma walk_aborts c ds1 d ds2 cs st0 st e :
  process_deltas c ds1 st0 = Ok st →
  process_delta c d st = Err e →
  deltas c = ds1 ++ d :: ds2 →
  walk (c :: cs) st0 = Err e.
Proof.
  intros H1 H2 Hc. simpl. unfold process_commit.
  rewrite Hc, process_deltas_app, H1. simpl. by rewrite H2.
Qed.

Lemma calculate_stats_nil on_disk : calculate_stats on_disk [] = Err GitError.
Proof. reflexivity. Qed.

Lemma calculate_stats_cons on_disk c after :
  calculate_stats on_disk (c :: after) =
    (st ← walk (c :: after) initial_state;
     match last_vijay_date st with
     | None =>
         Err (AttributeError "'NoneType' object has no attribute 'strftime'")
     | Some last =>
         rows ← report_rows on_disk (created_on st) last
                  (map_to_list (owners st));
         Ok (last, rows)
     end).
Proof. reflexivity. Qed.

Lemma calculate_stats_aborts on_disk history e :
  walk history initial_state = Err e → calculate_stats on_disk history = Err e.
Proof.
  destruct history as [|c after]; [done|].
  rewrite calculate_stats_cons. by intros ->.
Qed.

(** ** Lock-step of the two dicts *)

Lemma process_delta_lockstep c d st st' :
  lockstep st → process_delta c d st = Ok st' → lockstep st'.
Proof.
  unfold lockstep. intros HL H0. destruct (process_delta_Ok _ _ _ _ H0) as [_ H].
  destruct (status d); try done.
  - destruct H as (_ & _ & -> & -> & _). by rewrite !dom_insert_L, HL.
  - destruct H as (_ & _ & _ & -> & -> & _).
    by rewrite !dom_delete_L, HL.
  - destruct H as (_ & _ & (cur & Hcur & ->) & -> & _).
    rewrite dom_insert_lookup_L by eauto. done.
  - destruct H as (_ & _ & (o & t & _ & _ & -> & ->) & _).
    by rewrite !dom_delete_L, !dom_insert_L, HL.
Qed.

Lemma lockstep_handled_first st : lockstep st → lockstep (handled_first st).
Proof. done. Qed.

Lemma lockstep_initial : lockstep initial_state.
Proof. unfold lockstep. simpl. by rewrite !dom_empty_L. Qed.

Lemma walk_lockstep cs st :
  walk cs initial_state = Ok st → lockstep st.
Proof.
  apply (walk_invariant lockstep); auto using lockstep_initial.
  intros; eauto using process_delta_lockstep.
Qed.

(** C3: at every point of the walk, that is after any number of whole
    commits and any further changes of the next one, [owners] and
    [created_on] have the same keys, and neither holds a path twice. *)
Theorem owners_created_on_lockstep cs c ds st0 st :
  walk cs initial_state = Ok st0 →
  process_deltas c ds st0 = Ok st →
  dom (owners st) = dom (created_on st) ∧
  NoDup (map_to_list (owners st)).*1 ∧
  NoDup (map_to_list (created_on st)).*1.
Proof.
  intros H0 H. split_and!; [| apply NoDup_fst_map_to_list ..].
  apply walk_lockstep in H0.
  eapply (process_deltas_invariant lockstep); eauto using process_delta_lockstep.
Qed.

Lemma owners_created_on_lockstep_witness :
  dom (owners Scenarios.state_3) = dom (created_on Scenarios.state_3) ∧
  NoDup (map_to_list (owners Scenarios.state_3)).*1 ∧
  NoDup (map_to_list (created_on Scenarios.state_3)).*1.
Proof.
  apply (owners_created_on_lockstep
           (take 2 Scenarios.history_3) (Scenarios.by_ "bob" 30 [])
           [Scenarios.modify "d.txt"] Scenarios.state_2).
  - vm_compute. reflexivity.
  - vm_compute. reflexivity.
Defined.

(** ** Failures of the loop body *)

Lemma vijay_in_vijay_set : VIJAY_NAME ∈ transform_name VIJAY_NAME.
Proof. vm_compute. reflexivity. Qed.

Lemma transform_name_vijay_name :
  transform_name VIJAY_NAME = {[ VIJAY_NAME; "David L. Dill" ]}.
Proof. reflexivity. Qed.

Lemma process_delta_first_not_added c d st :
  first st = true → status d ≠ GIT_DELTA_ADDED →
  ∃ a, process_delta c d st = Err (AssertionError a).
Proof.
  intros Hf Hs. unfold_step. rewrite Hf. simpl.
  case_bool_decide; simpl; [|eauto].
  case_bool_decide; simpl; [done | eauto].
Qed.

Lemma handled_dec (s : delta_status) :
  handled s ↔
  bool_decide (s ∈ [GIT_DELTA_ADDED; GIT_DELTA_MODIFIED]) ||
  bool_decide (s ∈ [GIT_DELTA_RENAMED; GIT_DELTA_DELETED]) = true.
Proof.
  rewrite <- (bool_decide_eq_true (handled s)). unfold handled.
  by destruct s.
Qed.

(** The only other exception the loop body raises is the one of its
    last branch. *)
Lemma process_delta_Err c d st e :
  process_delta c d st = Err e →
  invariant_violation e ∨
  (first st = false ∧ ¬ handled (status d) ∧
   e = RuntimeError ("You haven't handled: " +:+ get_git_type (status d))).
Proof.
  rewrite handled_dec.
  destruct d as [s o n], st as [ow cr al lv fi]; simpl.
  unfold_step; simpl.
  destruct s, fi; simpl;
    repeat first
      [ progress simpl
      | case_bool_decide
      | match goal with
        | |- context [?m !! ?k] => destruct (m !! k) eqn:?
        end ];
    first [ discriminate | intros [= <-]; simpl; auto ].
Qed.

Lemma process_delta_violation c d st :
  (status d = GIT_DELTA_ADDED ∧ live (new_file_path d) st) ∨
  (status d = GIT_DELTA_MODIFIED ∧ ¬ live (new_file_path d) st) ∨
  (status d = GIT_DELTA_RENAMED ∧
     (live (new_file_path d) st ∨ ¬ live (old_file_path d) st)) ∨
  (status d = GIT_DELTA_DELETED ∧ ¬ live (old_file_path d) st) →
  ∃ e, process_delta c d st = Err e ∧ invariant_violation e.
Proof.
  unfold live. intros H.
  destruct (process_delta c d st) as [st'|e] eqn:E.
  - exfalso. destruct (process_delta_Ok _ _ _ _ E) as [_ H'].
    destruct H as [[Hs H]|[[Hs H]|[[Hs H]|[Hs H]]]]; rewrite Hs in H'.
    + destruct H' as (_ & Hn & _). rewrite Hn in H. by destruct H.
    + destruct H' as (_ & _ & (cur & Hc & _) & _). rewrite Hc in H. by apply H.
    + destruct H' as (_ & Hn & (o & t & Ho & _) & _).
      destruct H as [H|H]; [rewrite Hn in H; by destruct H|].
      rewrite Ho in H. by apply H.
    + destruct H' as (_ & Ho & _). done.
  - exists e. split; [done|].
    destruct (process_delta_Err _ _ _ _ E) as [?|(_ & Hh & _)]; [done|].
    exfalso. apply Hh. unfold handled.
    destruct H as [[-> _]|[[-> _]|[[-> _]|[-> _]]]];
      repeat (constructor; try done).
Qed.

(** C6: an added path that is live, a modified path that is not, a rename
    onto a live path or from a path that is not live, and a deleted path
    that is not live each raise an assertion or key error, and the error
    ends [calculate_stats] wherever in the history the change stands. *)
Theorem path_invariant_violation_aborts c d st :
  (status d = GIT_DELTA_ADDED ∧ live (new_file_path d) st) ∨
  (status d = GIT_DELTA_MODIFIED ∧ ¬ live (new_file_path d) st) ∨
  (status d = GIT_DELTA_RENAMED ∧
     (live (new_file_path d) st ∨ ¬ live (old_file_path d) st)) ∨
  (status d = GIT_DELTA_DELETED ∧ ¬ live (old_file_path d) st) →
  ∃ e, process_delta c d st = Err e ∧ invariant_violation e ∧
    ∀ on_disk before st0 ds1 ds2 after,
      walk before initial_state = Ok st0 →
      process_deltas c ds1 st0 = Ok st →
      deltas c = ds1 ++ d :: ds2 →
      calculate_stats on_disk (before ++ c :: after) = Err e.
Proof.
  intros H. destruct (process_delta_violation c d st H) as (e & He & Hv).
  exists e. split_and!; [done..|].
  intros on_disk before st0 ds1 ds2 after H0 H1 Hc.
  apply calculate_stats_aborts. rewrite walk_app, H0. simpl.
  eauto using walk_aborts.
Qed.

Lemma path_invariant_violation_aborts_witness :
  ∃ e,
    process_delta (Scenarios.by_ "bob" 30 [Scenarios.add "d.txt"])
      (Scenarios.add "d.txt") Scenarios.state_3 = Err e ∧
    invariant_violation e ∧
    ∀ on_disk before st0 ds1 ds2 after,
      walk before initial_state = Ok st0 →
      process_deltas (Scenarios.by_ "bob" 30 [Scenarios.add "d.txt"]) ds1 st0
        = Ok Scenarios.state_3 →
      deltas (Scenarios.by_ "bob" 30 [Scenarios.add "d.txt"])
        = ds1 ++ Scenarios.add "d.txt" :: ds2 →
      calculate_stats on_disk
        (before ++ Scenarios.by_ "bob" 30 [Scenarios.add "d.txt"] :: after)
        = Err e.
Proof.
  apply (path_invariant_violation_aborts
           (Scenarios.by_ "bob" 30 [Scenarios.add "d.txt"])
           (Scenarios.add "d.txt") Scenarios.state_3).
  left. split; [reflexivity|]. vm_compute. eauto.
Defined.

Lemma get_git_type_inj s1 s2 : get_git_type s1 = get_git_type s2 → s1 = s2.
Proof. by destruct s1, s2. Qed.

(** C7: a change of a kind other than added, modified, renamed or deleted
    is never processed: past the first commit it raises the runtime error
    whose message ends in the name of the kind, in the first commit it fails
    the asserts that admit only added files; either way [calculate_stats]
    ends with that error. *)
Theorem unhandled_kind_raises c d st :
  ¬ handled (status d) →
  (∀ st', process_delta c d st ≠ Ok st') ∧
  (first st = false →
     process_delta c d st =
       Err (RuntimeError ("You haven't handled: " +:+ get_git_type (status d))) ∧
     ∀ s, get_git_type s = get_git_type (status d) → s = status d) ∧
  (first st = true → ∃ a, process_delta c d st = Err (AssertionError a)) ∧
  ∀ e on_disk before st0 ds1 ds2 after,
    process_delta c d st = Err e →
    walk before initial_state = Ok st0 →
    process_deltas c ds1 st0 = Ok st →
    deltas c = ds1 ++ d :: ds2 →
    calculate_stats on_disk (before ++ c :: after) = Err e.
Proof.
  intros Hh. split_and!.
  - intros st' H. destruct (process_delta_Ok _ _ _ _ H) as [_ H'].
    apply Hh. unfold handled. destruct (status d); try done;
      repeat (constructor; try done).
  - intros Hf. split; [|intros s; apply get_git_type_inj].
    pose proof Hh as Hb. rewrite handled_dec in Hb. apply not_true_is_false in Hb.
    apply orb_false_iff in Hb as [Hb1 Hb2].
    unfold process_delta. by rewrite Hf, Hb1, Hb2.
  - intros Hf. apply process_delta_first_not_added; [done|].
    intros Hs. apply Hh. unfold handled. rewrite Hs. constructor.
  - intros e on_disk before st0 ds1 ds2 after He H0 H1 Hc.
    apply calculate_stats_aborts. rewrite walk_app, H0. simpl.
    eauto using walk_aborts.
Qed.

Lemma unhandled_kind_raises_witness :
  process_delta (Scenarios.by_ "bob" 30 [])
    (Delta GIT_DELTA_TYPECHANGE "d.txt" "d.txt") Scenarios.state_3
  = Err (RuntimeError "You haven't handled: GIT_DELTA_TYPECHANGE").
Proof.
  refine (proj1 (proj1 (proj2 (unhandled_kind_raises
            (Scenarios.by_ "bob" 30 [])
            (Delta GIT_DELTA_TYPECHANGE "d.txt" "d.txt") Scenarios.state_3 _))
          _)).
  - apply (bool_decide_unpack (¬ handled GIT_DELTA_TYPECHANGE)).
    vm_compute. exact I.
  - reflexivity.
Defined.

(** ** The first commit *)

Lemma process_deltas_first c ds st st' :
  process_deltas c ds st = Ok st' → first st' = first st.
Proof.
  revert st; induction ds as [|d ds IH]; intros st; simpl.
  - by intros [= <-].
  - intros (st1 & H1 & H2)%bind_Ok.
    destruct (process_delta_Ok _ _ _ _ H1) as [<- _]. eauto.
Qed.

Lemma process_delta_first_Ok c d st st' :
  first st = true → process_delta c d st = Ok st' →
  status d = GIT_DELTA_ADDED ∧
  owners st' !! new_file_path d = Some (transform_name VIJAY_NAME) ∧
  created_on st' !! new_file_path d = Some (commit_time_of c) ∧
  all_contributors st' = all_contributors st ∪ transform_name VIJAY_NAME ∧
  last_vijay_date st' = Some (commit_time_of c).
Proof.
  intros Hf H.
  destruct (decide (status d = GIT_DELTA_ADDED)) as [Hs|Hs].
  - destruct (process_delta_Ok _ _ _ _ H) as [_ H']. rewrite Hs in H'.
    destruct H' as (_ & _ & -> & -> & -> & ->).
    unfold stamp, contributor_of. rewrite Hf, !lookup_insert_eq.
    rewrite (bool_decide_eq_true_2 _ vijay_in_vijay_set). done.
  - destruct (process_delta_first_not_added c d st Hf Hs) as [a Ha]. congruence.
Qed.

Lemma process_delta_author c c' d st :
  author c = author c' → process_delta c d st = process_delta c' d st.
Proof. intros H. unfold process_delta, commit_time_of. by rewrite H. Qed.

Lemma process_delta_first_any_author c c' d st :
  first st = true → commit_time_of c = commit_time_of c' →
  process_delta c d st = process_delta c' d st.
Proof. intros Hf Ht. unfold process_delta. by rewrite Hf, Ht. Qed.

Lemma process_delta_added c d st :
  status d = GIT_DELTA_ADDED →
  old_file_path d = new_file_path d →
  owners st !! new_file_path d = None →
  process_delta c d st =
    Ok {| owners := <[new_file_path d := contributor_of st c]> (owners st);
          created_on := <[new_file_path d := commit_time_of c]> (created_on st);
          all_contributors := all_contributors st ∪ contributor_of st c;
          last_vijay_date := stamp st c;
          first := first st |}.
Proof.
  intros Hs Hp Hn. unfold_step. rewrite Hs, Hp, Hn.
  rewrite (bool_decide_eq_true_2 (new_file_path d = new_file_path d)) by done.
  rewrite !(bool_decide_eq_true_2 (GIT_DELTA_ADDED = GIT_DELTA_ADDED)) by done.
  rewrite (bool_decide_eq_true_2 (GIT_DELTA_ADDED ∈ _)) by constructor.
  unfold contributor_of. by destruct (first st).
Qed.

(** C5: every change of the first commit is attributed to the identity of
    [VIJAY_NAME], whoever the recorded author is, and has to be an added
    file: an added file that is not live yet gets that identity as its
    owners and the time of the commit as its creation date and as
    [last_vijay_date], and any other kind fails an assert, which ends the
    walk. *)
Theorem first_commit_bootstrap c ds1 d st :
  process_deltas c ds1 initial_state = Ok st →
  first st = true ∧
  contributor_of st c = {[ VIJAY_NAME; "David L. Dill" ]} ∧
  (∀ who, process_delta
            (Commit (Signature who (time (author c)) (offset (author c)))
                    (deltas c)) d st
          = process_delta c d st) ∧
  (status d = GIT_DELTA_ADDED →
   old_file_path d = new_file_path d →
   owners st !! new_file_path d = None →
     ∃ st', process_delta c d st = Ok st' ∧
       owners st' = <[new_file_path d := {[ VIJAY_NAME; "David L. Dill" ]}]>
                      (owners st) ∧
       created_on st' = <[new_file_path d := commit_time_of c]>
                          (created_on st) ∧
       all_contributors st' =
         all_contributors st ∪ {[ VIJAY_NAME; "David L. Dill" ]} ∧
       last_vijay_date st' = Some (commit_time_of c) ∧
       first st' = true) ∧
  (∀ st', process_delta c d st = Ok st' →
     status d = GIT_DELTA_ADDED ∧
     owners st' !! new_file_path d = Some {[ VIJAY_NAME; "David L. Dill" ]} ∧
     created_on st' !! new_file_path d = Some (commit_time_of c) ∧
     all_contributors st' =
       all_contributors st ∪ {[ VIJAY_NAME; "David L. Dill" ]} ∧
     last_vijay_date st' = Some (commit_time_of c)) ∧
  (status d ≠ GIT_DELTA_ADDED →
     ∃ a, process_delta c d st = Err (AssertionError a) ∧
       ∀ ds2 after, deltas c = ds1 ++ d :: ds2 →
         walk (c :: after) initial_state = Err (AssertionError a)).
Proof.
  intros H. pose proof (process_deltas_first _ _ _ _ H) as Hf. simpl in Hf.
  assert (Hwho : contributor_of st c = {[ VIJAY_NAME; "David L. Dill" ]}).
  { unfold contributor_of. by rewrite Hf. }
  split_and!.
  - done.
  - done.
  - intros who. by apply process_delta_first_any_author.
  - intros Hs Hp Hn. eexists. split; [by apply process_delta_added|]. simpl.
    rewrite Hwho. split_and!; try done.
    unfold stamp. rewrite Hwho.
    by rewrite bool_decide_eq_true_2
      by (apply elem_of_union_l; by apply elem_of_singleton).
  - intros st' H'.
    destruct (process_delta_first_Ok _ _ _ _ Hf H') as (? & ? & ? & ? & ?).
    by rewrite <- transform_name_vijay_name.
  - intros Hs. destruct (process_delta_first_not_added c d st Hf Hs) as [a Ha].
    exists a. split; [done|]. intros ds2 after Hc. eauto using walk_aborts.
Qed.

Lemma first_commit_bootstrap_witness :
  contributor_of initial_state
    (Scenarios.by_ "importer" 10 [Scenarios.add "c.txt"])
  = {[ VIJAY_NAME; "David L. Dill" ]} ∧
  ∃ st', process_delta (Scenarios.by_ "importer" 10 [Scenarios.add "c.txt"])
           (Scenarios.add "c.txt") initial_state = Ok st' ∧
    owners st' = {[ "c.txt" := {[ VIJAY_NAME; "David L. Dill" ]} ]} ∧
    created_on st' = {[ "c.txt" := Datetime 10 0 ]} ∧
    all_contributors st' = {[ VIJAY_NAME; "David L. Dill" ]} ∧
    last_vijay_date st' = Some (Datetime 10 0) ∧
    first st' = true.
Proof.
  destruct (first_commit_bootstrap
              (Scenarios.by_ "importer" 10 [Scenarios.add "c.txt"]) []
              (Scenarios.add "c.txt") initial_state eq_refl)
    as (_ & Hwho & _ & Hadd & _).
  split; [exact Hwho|].
  destruct Hadd as (st' & H & Ho & Hc & Ha & Hl & Hf);
    [reflexivity| reflexivity| reflexivity|].
  exists st'. split_and!; [exact H| | | |exact Hl|exact Hf].
  - rewrite Ho. vm_compute. reflexivity.
  - rewrite Hc. vm_compute. reflexivity.
  - rewrite Ha. vm_compute. reflexivity.
Defined.

(** The importer of the first commit is not among the contributors: the
    first change is recorded for [VIJAY_NAME]. *)
Example first_commit_ignores_author :
  process_delta (Scenarios.by_ "importer" 10 [Scenarios.add "a.txt"])
    (Scenarios.add "a.txt") initial_state = Ok Scenarios.state_first.
Proof. vm_compute. reflexivity. Qed.

(** ** The date of the last commit of [VIJAY_NAME] *)

Lemma process_delta_last_is_Some c d st st' :
  is_Some (last_vijay_date st) → process_delta c d st = Ok st' →
  is_Some (last_vijay_date st').
Proof.
  intros Hl H. destruct (process_delta_Ok _ _ _ _ H) as [_ H'].
  assert (is_Some (stamp st c)) by (unfold stamp; case_bool_decide; eauto).
  destruct (status d); try done.
  - by destruct H' as (_ & _ & _ & _ & _ & ->).
  - by destruct H' as (_ & _ & _ & _ & _ & _ & ->).
  - by destruct H' as (_ & _ & _ & _ & _ & ->).
  - by destruct H' as (_ & _ & _ & _ & ->).
Qed.

Lemma walk_last_is_Some cs st st' :
  is_Some (last_vijay_date st) → walk cs st = Ok st' →
  is_Some (last_vijay_date st').
Proof.
  apply (walk_invariant (λ st, is_Some (last_vijay_date st))); [|done].
  intros; eauto using process_delta_last_is_Some.
Qed.

Lemma process_deltas_first_last c ds st st' :
  first st = true → ds ≠ [] → process_deltas c ds st = Ok st' →
  last_vijay_date st' = Some (commit_time_of c).
Proof.
  revert st; induction ds as [|d ds IH]; intros st Hf Hne; [done|]. simpl.
  intros (st1 & H1 & H2)%bind_Ok.
  destruct (process_delta_first_Ok _ _ _ _ Hf H1) as (_ & _ & _ & _ & Hl).
  destruct (process_delta_Ok _ _ _ _ H1) as [Hf1 _]. rewrite Hf in Hf1.
  destruct ds as [|d' ds]; [simpl in H2; congruence|].
  by apply (IH st1).
Qed.

Lemma process_delta_loop_error c d st e :
  process_delta c d st = Err e → loop_error e.
Proof.
  intros H. destruct (process_delta_Err _ _ _ _ H) as [?|(_ & _ & ->)];
    [by destruct e | done].
Qed.

Lemma process_deltas_loop_error c ds st e :
  process_deltas c ds st = Err e → loop_error e.
Proof.
  revert st; induction ds as [|d ds IH]; intros st; simpl; [done|].
  destruct (process_delta c d st) as [st1|e1] eqn:E1; simpl; [apply IH|].
  intros [= <-]. eauto using process_delta_loop_error.
Qed.

Lemma walk_loop_error cs st e : walk cs st = Err e → loop_error e.
Proof.
  revert st; induction cs as [|c cs IH]; intros st; simpl; [done|].
  unfold process_commit.
  destruct (process_deltas c (deltas c) st) as [st1|e1] eqn:E1; simpl;
    [apply IH|].
  intros [= <-]. eauto using process_deltas_loop_error.
Qed.

Lemma report_rows_loop_error on_disk cr last items e :
  report_rows on_disk cr last items = Err e → loop_error e.
Proof.
  induction items as [|[fname o] items IH]; simpl; [done|].
  unfold assert, getitem.
  destruct (on_disk fname); simpl; [|by intros [= <-]].
  destruct (cr !! fname); simpl; [|by intros [= <-]].
  destruct (report_rows on_disk cr last items); simpl; [done|].
  intros [= <-]. by apply IH.
Qed.

(** C10: when the first commit of a history changes at least one file and
    the walk goes through, [last_vijay_date] is set (after the first commit,
    to that commit's time), so the summary line does not fail on an unset
    date; that failure is left to an empty history or an empty first
    commit. *)
Theorem last_vijay_date_set_by_first_commit c after :
  deltas c ≠ [] →
  (∀ st1, process_commit c initial_state = Ok st1 →
     last_vijay_date st1 = Some (commit_time_of c)) ∧
  (∀ st, walk (c :: after) initial_state = Ok st →
     is_Some (last_vijay_date st)) ∧
  (∀ on_disk msg,
     calculate_stats on_disk (c :: after) ≠ Err (AttributeError msg)).
Proof.
  intros Hne.
  assert (H1 : ∀ st1, process_commit c initial_state = Ok st1 →
                 last_vijay_date st1 = Some (commit_time_of c)).
  { intros st1 (st0 & H0 & [= <-])%bind_Ok. simpl.
    by apply (process_deltas_first_last c (deltas c) initial_state). }
  assert (H2 : ∀ st, walk (c :: after) initial_state = Ok st →
                 is_Some (last_vijay_date st)).
  { intros st (st1 & Hc & Hw)%bind_Ok.
    eapply walk_last_is_Some; [|done]. rewrite (H1 _ Hc). eauto. }
  split_and!; [done..|].
  intros on_disk msg. rewrite calculate_stats_cons.
  destruct (walk (c :: after) initial_state) as [st|e] eqn:E.
  - destruct (H2 st eq_refl) as [t Ht]. cbn [mbind result_bind]. rewrite Ht.
    destruct (report_rows on_disk (created_on st) t (map_to_list (owners st)))
      as [rows|e] eqn:Er; simpl; [done|].
    intros [= ->]. by apply report_rows_loop_error in Er.
  - simpl. intros [= ->]. by apply walk_loop_error in E.
Qed.

Lemma last_vijay_date_set_by_first_commit_witness :
  is_Some (last_vijay_date Scenarios.state_3).
Proof.
  refine (proj1 (proj2 (last_vijay_date_set_by_first_commit
            (Scenarios.by_ "importer" 10 [Scenarios.add "c.txt"])
            (tail Scenarios.history_3) _)) Scenarios.state_3 _).
  - discriminate.
  - vm_compute. reflexivity.
Defined.

Lemma chronological_app_le cs c :
  chronological (cs ++ [c]) = true →
  Forall (λ c', time (author c') ≤ time (author c)) cs.
Proof.
  induction cs as [|c1 cs IH]; [by constructor|].
  intros H. assert (Ht : chronological (cs ++ [c]) = true).
  { simpl in H. destruct (cs ++ [c]) eqn:E; [done|].
    by apply andb_true_iff in H as [_ H]. }
  specialize (IH Ht). constructor; [|done].
  destruct cs as [|c2 cs]; simpl in H.
  - apply andb_true_iff in H as [H _]. by apply Z.leb_le in H.
  - apply andb_true_iff in H as [H _]. apply Z.leb_le in H.
    apply Forall_cons_1 in IH as [IH _]. lia.
Qed.

Lemma process_delta_last c d st st' :
  process_delta c d st = Ok st' →
  last_vijay_date st' =
    if dates_vijay st c d then Some (commit_time_of c) else last_vijay_date st.
Proof.
  intros H. destruct (process_delta_Ok _ _ _ _ H) as [_ H'].
  unfold dates_vijay. unfold stamp in H'.
  destruct (status d); try done.
  - by destruct H' as (_ & _ & _ & _ & _ & ->).
  - by destruct H' as (_ & _ & _ & _ & _ & _ & ->).
  - by destruct H' as (_ & _ & _ & _ & _ & ->).
  - by destruct H' as (_ & _ & _ & _ & ->).
Qed.

Lemma process_delta_all_contributors c d st st' :
  process_delta c d st = Ok st' →
  all_contributors st ⊆ all_contributors st'.
Proof.
  intros H. destruct (process_delta_Ok _ _ _ _ H) as [_ H'].
  destruct (status d); try done.
  - destruct H' as (_ & _ & _ & _ & -> & _). apply union_subseteq_l.
  - by destruct H' as (_ & _ & _ & _ & _ & -> & _).
  - destruct H' as (_ & _ & _ & _ & -> & _). apply union_subseteq_l.
  - by destruct H' as (_ & _ & _ & -> & _).
Qed.

Lemma process_delta_no_later_than t c d st st' :
  time (author c) ≤ t → last_no_later_than t st →
  process_delta c d st = Ok st' → last_no_later_than t st'.
Proof.
  intros Ht Hl H last. rewrite (process_delta_last _ _ _ _ H).
  destruct (dates_vijay st c d); [|apply Hl]. by intros [= <-].
Qed.

Lemma process_deltas_no_later_than t c ds st st' :
  time (author c) ≤ t → last_no_later_than t st →
  process_deltas c ds st = Ok st' → last_no_later_than t st'.
Proof.
  intros Ht. revert st; induction ds as [|d ds IH]; intros st Hl; simpl.
  - by intros [= <-].
  - intros (st1 & H1 & H2)%bind_Ok. eauto using process_delta_no_later_than.
Qed.

Lemma walk_no_later_than t cs st st' :
  Forall (λ c, time (author c) ≤ t) cs → last_no_later_than t st →
  walk cs st = Ok st' → last_no_later_than t st'.
Proof.
  intros Hcs. revert st; induction Hcs as [|c cs Hc Hcs IH]; intros st Hl; simpl.
  - by intros [= <-].
  - intros (st1 & (st0 & H0 & [= <-])%bind_Ok & H2)%bind_Ok.
    apply (IH (handled_first st0)); [|done].
    change (last_no_later_than t st0).
    by apply (process_deltas_no_later_than t c (deltas c) st).
Qed.

(** C9: at every point of the walk a processed change leaves
    [all_contributors] a superset of what it was; it sets [last_vijay_date]
    to the commit's time exactly when it is an added or modified file
    attributed to an identity that holds [VIJAY_NAME], and leaves it alone
    otherwise; and when the commits so far came in non-decreasing order of
    time, a date that was set is followed by one that is not earlier. *)
Theorem contributors_grow_and_last_date_advances before c ds d st0 st st' :
  walk before initial_state = Ok st0 →
  process_deltas c ds st0 = Ok st →
  process_delta c d st = Ok st' →
  all_contributors st ⊆ all_contributors st' ∧
  last_vijay_date st' =
    (if dates_vijay st c d then Some (commit_time_of c)
     else last_vijay_date st) ∧
  (chronological (before ++ [c]) = true →
   ∀ last, last_vijay_date st = Some last →
     ∃ last', last_vijay_date st' = Some last' ∧
              timestamp last ≤ timestamp last').
Proof.
  intros H0 H1 H. split_and!.
  - eauto using process_delta_all_contributors.
  - eauto using process_delta_last.
  - intros Hc last Hl. rewrite (process_delta_last _ _ _ _ H).
    destruct (dates_vijay st c d); [|exists last; split; [done|lia]].
    eexists; split; [done|]. simpl.
    assert (Hb : last_no_later_than (time (author c)) st); [|by apply Hb].
    apply (process_deltas_no_later_than _ c ds st0); [lia| |done].
    apply (walk_no_later_than _ before initial_state);
      [by apply chronological_app_le| |done].
    intros ? [=].
Qed.

Lemma contributors_grow_and_last_date_advances_witness :
  ∃ last', last_vijay_date Scenarios.state_2_dated = Some last' ∧
           timestamp (Datetime 10 0) ≤ timestamp last'.
Proof.
  refine (proj2 (proj2 (contributors_grow_and_last_date_advances
            (take 2 Scenarios.history_3)
            (Scenarios.by_ "vijay ganesh" 30 [])
            [] (Scenarios.modify "d.txt")
            Scenarios.state_2 Scenarios.state_2 Scenarios.state_2_dated
            _ _ _)) _ (Datetime 10 0) _).
  - vm_compute. reflexivity.
  - reflexivity.
  - vm_compute. reflexivity.
  - reflexivity.
  - reflexivity.
Defined.

(** ** The report *)

Lemma classify_cases (file_owners : gset string) added_date last :
  let vijay_set : gset string := {[ VIJAY_NAME; "David L. Dill" ]} in
  (file_owners = vijay_set → classify file_owners added_date last = Complete) ∧
  (file_owners ≠ vijay_set → file_owners ∩ vijay_set ≠ ∅ →
     classify file_owners added_date last = Partial) ∧
  (file_owners ∩ vijay_set = ∅ → timestamp added_date < timestamp last →
     classify file_owners added_date last = Inherited) ∧
  (file_owners ∩ vijay_set = ∅ → ¬ timestamp added_date < timestamp last →
     classify file_owners added_date last = NoOwnership).
Proof.
  intros vijay_set. unfold classify, datetime_lt.
  rewrite transform_name_vijay_name. fold vijay_set.
  assert (Hne : vijay_set ≠ ∅).
  { intros H. assert (VIJAY_NAME ∈ vijay_set) as Hin by (apply elem_of_union_l, elem_of_singleton; done).
    rewrite H in Hin. by apply not_elem_of_empty in Hin. }
  rewrite (comm_L (∩) vijay_set file_owners).
  split_and!.
  - intros ->. by rewrite bool_decide_eq_true_2.
  - intros H1 H2. by rewrite bool_decide_eq_false_2, bool_decide_eq_false_2.
  - intros H1 H2.
    rewrite bool_decide_eq_false_2, (bool_decide_eq_true_2 _ H1); simpl.
    + by rewrite (proj2 (Z.ltb_lt _ _) H2).
    + intros ->. apply Hne. by rewrite <- H1, intersection_idemp_L.
  - intros H1 H2.
    rewrite bool_decide_eq_false_2, (bool_decide_eq_true_2 _ H1); simpl.
    + by rewrite (proj2 (Z.ltb_nlt _ _) H2).
    + intros ->. apply Hne. by rewrite <- H1, intersection_idemp_L.
Qed.

Lemma report_rows_Ok on_disk cr last items :
  Forall (λ item, on_disk item.1 = true ∧ is_Some (cr !! item.1)) items →
  ∃ rows, report_rows on_disk cr last items = Ok rows ∧
    ∀ fname file_owners, (fname, file_owners) ∈ items →
      ∃ added_date, cr !! fname = Some added_date ∧
        Row (classify file_owners added_date last) fname added_date ∈ rows.
Proof.
  induction 1 as [|[fname o] items [Hd [t Ht]] _ (rows & Hr & IH)]; simpl in *.
  - exists []. split; [done|]. intros ? ? H. by apply elem_of_nil in H.
  - unfold assert, getitem. rewrite Hd, Ht. simpl. rewrite Hr. simpl.
    eexists. split; [done|].
    intros fname' o' [[= -> ->]|Hin]%elem_of_cons.
    + exists t. split; [done|]. constructor.
    + destruct (IH _ _ Hin) as (t' & ? & ?). exists t'. split; [done|].
      by constructor.
Qed.

(** C1: for every live path of the state the walk ends in, provided
    [last_vijay_date] is set, the report (which goes through when the live
    files are on disk) holds a row for the path whose label is decided in
    this order: Complete when the owners are exactly the identity of
    [VIJAY_NAME]; else Partial when they share a name with it; else
    Inherited when the path was created strictly before [last_vijay_date];
    else None. *)
Theorem classify_precedence history st last p file_owners :
  walk history initial_state = Ok st →
  last_vijay_date st = Some last →
  owners st !! p = Some file_owners →
  ∃ added_date,
    created_on st !! p = Some added_date ∧
    (∀ on_disk, (∀ q, live q st → on_disk q = true) →
       ∃ rows, calculate_stats on_disk history = Ok (last, rows) ∧
               Row (classify file_owners added_date last) p added_date ∈ rows) ∧
    let vijay_set : gset string := {[ VIJAY_NAME; "David L. Dill" ]} in
    (file_owners = vijay_set →
       ownership_label (classify file_owners added_date last) = "Complete") ∧
    (file_owners ≠ vijay_set → file_owners ∩ vijay_set ≠ ∅ →
       ownership_label (classify file_owners added_date last) = "Partial") ∧
    (file_owners ∩ vijay_set = ∅ → timestamp added_date < timestamp last →
       ownership_label (classify file_owners added_date last) = "Inherited") ∧
    (file_owners ∩ vijay_set = ∅ → ¬ timestamp added_date < timestamp last →
       ownership_label (classify file_owners added_date last) = "None").
Proof.
  intros Hw Hl Hp. pose proof (walk_lockstep _ _ Hw) as Hk.
  assert (is_Some (created_on st !! p)) as [added_date Ht].
  { apply elem_of_dom. rewrite <- Hk. apply elem_of_dom. eauto. }
  exists added_date. split_and!; [done| |].
  - intros on_disk Hd.
    destruct history as [|c0 after]; [by simplify_eq/=|].
    rewrite calculate_stats_cons, Hw. simpl. rewrite Hl.
    destruct (report_rows_Ok on_disk (created_on st) last
                (map_to_list (owners st))) as (rows & Hr & Hrows).
    { apply Forall_forall. intros [q o] Hq%elem_of_map_to_list. simpl. split.
      - apply Hd. unfold live. eauto.
      - apply elem_of_dom. rewrite <- Hk. apply elem_of_dom. eauto. }
    rewrite Hr. simpl. exists rows. split; [done|].
    destruct (Hrows p file_owners) as (t & Ht' & Hin).
    { by apply elem_of_map_to_list. }
    congruence.
  - destruct (classify_cases file_owners added_date last) as (H1 & H2 & H3 & H4).
    simpl. split_and!.
    + intros H. by rewrite H1.
    + intros Ha Hb. by rewrite H2.
    + intros Ha Hb. by rewrite H3.
    + intros Ha Hb. by rewrite H4.
Qed.

Lemma classify_precedence_witness :
  ∃ added_date,
    created_on Scenarios.state_3 !! "d.txt" = Some added_date ∧
    ∃ rows, calculate_stats (λ _, true) Scenarios.history_3
              = Ok (Datetime 10 0, rows) ∧
      Row (classify {[ VIJAY_NAME; "David L. Dill"; "Bob" ]} added_date
             (Datetime 10 0)) "d.txt" added_date ∈ rows.
Proof.
  destruct (classify_precedence Scenarios.history_3 Scenarios.state_3
              (Datetime 10 0) "d.txt" {[ VIJAY_NAME; "David L. Dill"; "Bob" ]})
    as (added_date & Ht & Hrows & _).
  - vm_compute. reflexivity.
  - reflexivity.
  - vm_compute. reflexivity.
  - exists added_date. split; [exact Ht|]. apply (Hrows (λ _, true)). reflexivity.
Defined.

(** ** Renames *)

Lemma process_delta_renamed c d st file_owners added_date :
  first st = false →
  status d = GIT_DELTA_RENAMED →
  owners st !! old_file_path d = Some file_owners →
  created_on st !! old_file_path d = Some added_date →
  owners st !! new_file_path d = None →
  process_delta c d st =
    Ok {| owners :=
            delete (old_file_path d)
              (<[new_file_path d := file_owners]> (owners st));
          created_on :=
            delete (old_file_path d)
              (<[new_file_path d := added_date]> (created_on st));
          all_contributors := all_contributors st;
          last_vijay_date := last_vijay_date st;
          first := first st |}.
Proof.
  intros Hf Hs Ho Hc Hn.
  assert (Hne : new_file_path d ≠ old_file_path d) by congruence.
  unfold_step. rewrite Hf, Hs, Hn, Ho, Hc. simpl.
  by rewrite !lookup_insert_ne, Ho, Hc by done.
Qed.

Lemma process_delta_track c d st st' p added_date :
  lockstep st →
  process_delta c d st = Ok st' →
  ¬ (status d = GIT_DELTA_DELETED ∧ old_file_path d = p) →
  created_on st !! p = Some added_date →
  created_on st' !! track p d = Some added_date.
Proof.
  unfold lockstep, track. intros Hk H Hs Hp.
  assert (Hlive : is_Some (owners st !! p)).
  { apply elem_of_dom. rewrite Hk. apply elem_of_dom. eauto. }
  destruct (process_delta_Ok _ _ _ _ H) as [_ H'].
  destruct (status d) eqn:E; try done.
  - destruct H' as (_ & Hn & _ & -> & _).
    rewrite bool_decide_eq_false_2 by (by intros [? _]).
    rewrite lookup_insert_ne; [done|]. intros <-. rewrite Hn in Hlive.
    by destruct Hlive.
  - destruct H' as (_ & _ & _ & _ & -> & _).
    rewrite bool_decide_eq_false_2 by (by intros [? _]).
    rewrite lookup_delete_ne; [done|]. intros ?. by apply Hs.
  - destruct H' as (_ & _ & _ & -> & _).
    by rewrite bool_decide_eq_false_2 by (by intros [? _]).
  - destruct H' as (_ & Hn & (o & t & Ho & Ht & _ & ->) & _).
    assert (Hne : new_file_path d ≠ old_file_path d) by congruence.
    case_bool_decide as Hb.
    + destruct Hb as [_ <-]. rewrite lookup_delete_ne, lookup_insert_eq by done.
      congruence.
    + assert (old_file_path d ≠ p) by (intros ?; by apply Hb).
      rewrite lookup_delete_ne, lookup_insert_ne; [done| |done].
      intros <-. rewrite Hn in Hlive. by destruct Hlive.
Qed.

Lemma process_deltas_kept c ds st st' p added_date :
  lockstep st →
  process_deltas c ds st = Ok st' →
  kept p ds = true →
  created_on st !! p = Some added_date →
  created_on st' !! track_deltas p ds = Some added_date.
Proof.
  revert st p. induction ds as [|d ds IH]; intros st p Hk; simpl.
  - by intros [= <-].
  - intros (st1 & H1 & H2)%bind_Ok [Hd Hds]%andb_true_iff Hp.
    apply (IH st1 (track p d)); [eauto using process_delta_lockstep|done..|].
    eapply process_delta_track; [done..| |done].
    by apply negb_true_iff, bool_decide_eq_false in Hd.
Qed.

Lemma walk_kept history st st' p added_date :
  lockstep st →
  walk history st = Ok st' →
  kept_history p history = true →
  created_on st !! p = Some added_date →
  created_on st' !! track_history p history = Some added_date.
Proof.
  revert st p. induction history as [|c history IH]; intros st p Hk; simpl.
  - by intros [= <-].
  - intros (st1 & (st0 & H0 & [= <-])%bind_Ok & H2)%bind_Ok
      [Hc Hh]%andb_true_iff Hp.
    apply (IH (handled_first st0) (track_deltas p (deltas c))); [|done..|].
    + apply lockstep_handled_first.
      eapply (process_deltas_invariant lockstep);
        eauto using process_delta_lockstep.
    + simpl. eauto using process_deltas_kept.
Qed.

Lemma no_deletion_kept p ds : no_deletion ds → kept p ds = true.
Proof.
  intros H. revert p. induction H as [|d ds Hd _ IH]; intros p; simpl; [done|].
  rewrite IH, andb_true_r.
  apply negb_true_iff, bool_decide_eq_false. by intros [? _].
Qed.

Lemma no_deletion_kept_history p history :
  Forall (λ c, no_deletion (deltas c)) history →
  kept_history p history = true.
Proof.
  intros H. revert p. induction H as [|c history Hc _ IH]; intros p; simpl.
  - done.
  - by rewrite IH, no_deletion_kept.
Qed.

Lemma process_deltas_track c ds st st' p added_date :
  lockstep st →
  process_deltas c ds st = Ok st' →
  no_deletion ds →
  created_on st !! p = Some added_date →
  created_on st' !! track_deltas p ds = Some added_date.
Proof. eauto using process_deltas_kept, no_deletion_kept. Qed.

Lemma walk_track history st st' p added_date :
  lockstep st →
  walk history st = Ok st' →
  Forall (λ c, no_deletion (deltas c)) history →
  created_on st !! p = Some added_date →
  created_on st' !! track_history p history = Some added_date.
Proof. eauto using walk_kept, no_deletion_kept_history. Qed.

(** C2, as the code has it: past the first commit, renaming a live path
    to a path that is not live moves the owners and the creation date of the
    old path to the new one unchanged, removes the old path from both dicts,
    and leaves every other path, [all_contributors] and [last_vijay_date]
    alone.  And in a walk that goes through, a file added by commit [c] and
    not deleted since ends with the creation date [c] gave it, under the
    name the renames lead to, whatever is changed, renamed or deleted
    beside it. *)
Theorem rename_keeps_owners_and_creation_date :
  (∀ c d st file_owners added_date,
     first st = false →
     status d = GIT_DELTA_RENAMED →
     owners st !! old_file_path d = Some file_owners →
     created_on st !! old_file_path d = Some added_date →
     owners st !! new_file_path d = None →
     ∃ st', process_delta c d st = Ok st' ∧
       owners st' !! new_file_path d = Some file_owners ∧
       created_on st' !! new_file_path d = Some added_date ∧
       owners st' !! old_file_path d = None ∧
       created_on st' !! old_file_path d = None ∧
       (∀ q, q ≠ old_file_path d → q ≠ new_file_path d →
          owners st' !! q = owners st !! q ∧
          created_on st' !! q = created_on st !! q) ∧
       all_contributors st' = all_contributors st ∧
       last_vijay_date st' = last_vijay_date st) ∧
  (∀ before c ds1 d ds2 after st,
     deltas c = ds1 ++ d :: ds2 →
     status d = GIT_DELTA_ADDED →
     kept (new_file_path d) ds2 = true →
     kept_history (track_deltas (new_file_path d) ds2) after = true →
     walk (before ++ c :: after) initial_state = Ok st →
     created_on st
       !! track_history (track_deltas (new_file_path d) ds2) after
     = Some (commit_time_of c)).
Proof.
  split.
  - intros c d st file_owners added_date Hf Hs Ho Hc Hn.
    assert (Hne : new_file_path d ≠ old_file_path d) by congruence.
    eexists. split; [by apply process_delta_renamed|]. simpl.
    rewrite !lookup_delete_eq, !lookup_delete_ne, !lookup_insert_eq by done.
    split_and!; try done.
    intros q H1 H2. by rewrite !lookup_delete_ne, !lookup_insert_ne by done.
  - intros before c ds1 d ds2 after st Hc Hs Hds2 Hafter.
    rewrite walk_app. intros (st0 & H0 & H)%bind_Ok. simpl in H.
    apply bind_Ok in H as (st4 & (st3 & H3 & [= <-])%bind_Ok & H4).
    rewrite Hc, process_deltas_app in H3.
    apply bind_Ok in H3 as (st1 & H1 & H3). simpl in H3.
    apply bind_Ok in H3 as (st2 & H2 & H3).
    assert (Hk1 : lockstep st1).
    { eapply (process_deltas_invariant lockstep);
        eauto using process_delta_lockstep, walk_lockstep. }
    assert (Hk2 : lockstep st2) by eauto using process_delta_lockstep.
    assert (Hk3 : lockstep st3).
    { eapply (process_deltas_invariant lockstep);
        eauto using process_delta_lockstep. }
    destruct (process_delta_Ok _ _ _ _ H2) as [_ H']. rewrite Hs in H'.
    destruct H' as (_ & _ & _ & Hcr & _).
    apply (walk_kept after (handled_first st3)); [done..|]. simpl.
    apply (process_deltas_kept c ds2 st2); [done..|].
    by rewrite Hcr, lookup_insert_eq.
Qed.

Lemma rename_keeps_owners_and_creation_date_witness :
  (∃ st', process_delta (Scenarios.by_ "carol" 20 [])
            (Scenarios.rename "a.txt" "b.txt")
            (handled_first Scenarios.state_first) = Ok st' ∧
          owners st' !! "b.txt" = Some {[ VIJAY_NAME; "David L. Dill" ]} ∧
          created_on st' !! "b.txt" = Some (Datetime 10 0) ∧
          owners st' !! "a.txt" = None ∧
          created_on st' !! "a.txt" = None) ∧
  walk Scenarios.history_5 initial_state = Ok Scenarios.state_3 ∧
  created_on Scenarios.state_3 !! "d.txt" = Some (Datetime 10 0).
Proof.
  split.
  - destruct (proj1 rename_keeps_owners_and_creation_date
                (Scenarios.by_ "carol" 20 [])
                (Scenarios.rename "a.txt" "b.txt")
                (handled_first Scenarios.state_first)
                {[ VIJAY_NAME; "David L. Dill" ]} (Datetime 10 0))
      as (st' & H & Ho & Hc & Ho' & Hc' & _).
    + reflexivity.
    + reflexivity.
    + vm_compute. reflexivity.
    + vm_compute. reflexivity.
    + vm_compute. reflexivity.
    + exists st'. repeat split; assumption.
  - assert (Hw : walk Scenarios.history_5 initial_state = Ok Scenarios.state_3)
      by (vm_compute; reflexivity).
    split; [exact Hw|].
    refine (proj2 rename_keeps_owners_and_creation_date
              [] (Scenarios.by_ "importer" 10
                    [Scenarios.add "c.txt"; Scenarios.add "x.txt"])
              [] (Scenarios.add "c.txt") [Scenarios.add "x.txt"]
              (tail Scenarios.history_5)
              Scenarios.state_3 _ _ _ _ _).
    + reflexivity.
    + reflexivity.
    + vm_compute. reflexivity.
    + vm_compute. reflexivity.
    + exact Hw.
Defined.

(** C2 as stated fails in the first commit: with "a.txt" live and "b.txt"
    not, the rename fails the assert on unchanged paths. *)
Lemma rename_in_first_commit_fails :
  process_deltas (Scenarios.by_ "importer" 10 []) [Scenarios.add "a.txt"]
    initial_state = Ok Scenarios.state_first ∧
  owners Scenarios.state_first !! "a.txt"
    = Some {[ VIJAY_NAME; "David L. Dill" ]} ∧
  owners Scenarios.state_first !! "b.txt" = None ∧
  process_delta (Scenarios.by_ "importer" 10 [])
    (Scenarios.rename "a.txt" "b.txt") Scenarios.state_first
  = Err (AssertionError PathsUnchanged).
Proof. split_and!; vm_compute; reflexivity. Qed.

(** ** Owners as the union of the recorded identities *)

Lemma record_identities_Some s ids :
  record_identities (Some s) ids = Some (s ∪ ⋃ ids).
Proof.
  unfold record_identities. revert s; induction ids as [|who ids IH]; intros s.
  - cbn [foldl]. by rewrite union_list_nil, (right_id_L ∅ (∪)).
  - cbn [foldl default]. by rewrite IH, union_list_cons, (assoc_L (∪)).
Qed.

Lemma record_identities_None ids :
  record_identities None ids =
    match ids with [] => None | _ => Some (⋃ ids) end.
Proof.
  destruct ids as [|who ids]; [done|].
  change (record_identities None (who :: ids))
    with (record_identities (Some (∅ ∪ who)) ids).
  by rewrite record_identities_Some, union_list_cons, (left_id_L ∅ (∪)).
Qed.

Lemma record_identities_app o ids1 ids2 :
  record_identities o (ids1 ++ ids2) =
  record_identities (record_identities o ids1) ids2.
Proof. apply foldl_app. Qed.

Lemma process_delta_owners_lookup c d st st' p :
  process_delta c d st = Ok st' →
  status d ∈ [GIT_DELTA_ADDED; GIT_DELTA_MODIFIED] →
  owners st' !! p =
    if bool_decide (new_file_path d = p)
    then Some (default ∅ (owners st !! p) ∪ contributor_of st c)
    else owners st !! p.
Proof.
  intros H Hs. destruct (process_delta_Ok _ _ _ _ H) as [_ H'].
  destruct (status d) eqn:E; try done.
  - destruct H' as (_ & Hn & -> & _). case_bool_decide as Hp.
    + subst p. rewrite lookup_insert_eq, Hn. simpl.
      by rewrite (left_id_L ∅ (∪)).
    + by rewrite lookup_insert_ne.
  - exfalso. by repeat (apply elem_of_cons in Hs as [?|Hs]; [done|]);
      apply elem_of_nil in Hs.
  - destruct H' as (_ & _ & (cur & Hcur & ->) & _). case_bool_decide as Hp.
    + subst p. by rewrite lookup_insert_eq, Hcur.
    + by rewrite lookup_insert_ne.
  - exfalso. by repeat (apply elem_of_cons in Hs as [?|Hs]; [done|]);
      apply elem_of_nil in Hs.
Qed.

Lemma process_deltas_owners_lookup c ds st st' p :
  process_deltas c ds st = Ok st' →
  additions_and_modifications ds →
  owners st' !! p =
    record_identities (owners st !! p)
      ((λ _, contributor_of st c) <$> filter (λ d, new_file_path d = p) ds).
Proof.
  intros H Hds. revert st H.
  induction Hds as [|d ds Hd Hds IH]; intros st; simpl.
  - by intros [= <-].
  - intros (st1 & H1 & H2)%bind_Ok.
    rewrite (IH _ H2), (process_delta_owners_lookup _ _ _ _ p H1 Hd).
    destruct (process_delta_Ok _ _ _ _ H1) as [Hf _].
    unfold contributor_of. rewrite Hf, filter_cons.
    case_bool_decide as Hp; destruct (decide (new_file_path d = p)); done.
Qed.

Lemma walk_owners_lookup history st st' p :
  walk history st = Ok st' →
  Forall (λ c, additions_and_modifications (deltas c)) history →
  owners st' !! p =
    record_identities (owners st !! p) (identities (first st) p history).
Proof.
  intros H Hh. revert st H.
  induction Hh as [|c history Hc Hh IH]; intros st; simpl.
  - by intros [= <-].
  - intros (st1 & (st0 & H0 & [= <-])%bind_Ok & H2)%bind_Ok.
    rewrite (IH _ H2), record_identities_app. simpl.
    by rewrite (process_deltas_owners_lookup _ _ _ _ p H0 Hc).
Qed.

(** ** Reordering modifications *)

Lemma process_events_app evs1 evs2 st :
  process_events (evs1 ++ evs2) st =
  process_events evs1 st ≫= process_events evs2.
Proof.
  revert st; induction evs1 as [|e evs1 IH]; intros st; simpl; [done|].
  destruct (process_delta _ _ st); simpl; [apply IH | done].
Qed.

Lemma process_deltas_events c ds st :
  process_deltas c ds st = process_events ((λ d, (author c, d)) <$> ds) st.
Proof.
  revert st; induction ds as [|d ds IH]; intros st; simpl; [done|].
  rewrite (process_delta_author c (Commit (author c) []) d st) by done.
  destruct (process_delta _ _ st); simpl; [apply IH | done].
Qed.

Lemma process_events_first evs st st' :
  process_events evs st = Ok st' → first st' = first st.
Proof.
  revert st; induction evs as [|e evs IH]; intros st; simpl.
  - by intros [= <-].
  - intros (st1 & H1 & H2)%bind_Ok.
    destruct (process_delta_Ok _ _ _ _ H1) as [<- _]. eauto.
Qed.

Lemma handled_first_id st : first st = false → handled_first st = st.
Proof. destruct st; simpl. by intros ->. Qed.

(** Past the first commit the walk is the loop body run over the change
    records of the history. *)
Lemma walk_events history st :
  first st = false → walk history st = process_events (events history) st.
Proof.
  revert st; induction history as [|c history IH]; intros st Hf; [done|].
  unfold events in *. simpl. rewrite process_events_app. unfold process_commit.
  rewrite process_deltas_events.
  destruct (process_events _ st) as [st1|e] eqn:E; simpl; [|done].
  apply process_events_first in E. rewrite Hf in E.
  rewrite handled_first_id by done. by apply IH.
Qed.

Lemma process_delta_modified c d st current :
  first st = false →
  status d = GIT_DELTA_MODIFIED →
  old_file_path d = new_file_path d →
  owners st !! new_file_path d = Some current →
  process_delta c d st =
    Ok {| owners :=
            <[new_file_path d := current ∪ transform_name (name (author c))]>
              (owners st);
          created_on := created_on st;
          all_contributors :=
            all_contributors st ∪ transform_name (name (author c));
          last_vijay_date :=
            (if bool_decide (VIJAY_NAME ∈ transform_name (name (author c)))
             then Some (commit_time_of c) else last_vijay_date st);
          first := first st |}.
Proof.
  intros Hf Hs Hp Hc. unfold_step. rewrite Hf, Hs, Hp, Hc. simpl.
  by rewrite bool_decide_eq_true_2.
Qed.

Lemma process_delta_modified_Ok c d st st' :
  first st = false →
  status d = GIT_DELTA_MODIFIED →
  process_delta c d st = Ok st' →
  old_file_path d = new_file_path d ∧
  ∃ current, owners st !! new_file_path d = Some current ∧
    owners st' =
      <[new_file_path d := current ∪ transform_name (name (author c))]>
        (owners st) ∧
    created_on st' = created_on st ∧
    all_contributors st' =
      all_contributors st ∪ transform_name (name (author c)) ∧
    first st' = false.
Proof.
  intros Hf Hs H. destruct (process_delta_Ok _ _ _ _ H) as [Hf' H'].
  rewrite Hs in H'. unfold contributor_of in H'. rewrite Hf in *.
  destruct H' as (_ & Hp & (cur & Hc & Ho) & Hcr & Ha & _). eauto 10.
Qed.

Lemma same_files_refl st : same_files st st.
Proof. by unfold same_files. Qed.

Lemma process_delta_same_files c d s1 s2 s1' :
  first s1 = false → status d = GIT_DELTA_MODIFIED →
  same_files s1 s2 →
  process_delta c d s1 = Ok s1' →
  ∃ s2', process_delta c d s2 = Ok s2' ∧ same_files s1' s2'.
Proof.
  intros Hf Hs (Ho & Hc & Ha & Hfi) H.
  destruct (process_delta_modified_Ok _ _ _ _ Hf Hs H)
    as (Hp & cur & Hcur & Ho' & Hc' & Ha' & Hf').
  eexists. split.
  - apply (process_delta_modified c d s2 cur); congruence.
  - unfold same_files. simpl. rewrite Ho', Hc', Ha', Hf'. split_and!; congruence.
Qed.

Lemma process_events_same_files evs s1 s2 r1 :
  first s1 = false → Forall modification evs →
  same_files s1 s2 →
  process_events evs s1 = Ok r1 →
  ∃ r2, process_events evs s2 = Ok r2 ∧ same_files r1 r2.
Proof.
  intros Hf Hm. revert s1 s2 Hf.
  induction Hm as [|e evs He Hm IH]; intros s1 s2 Hf Hs; simpl.
  - intros [= <-]. eauto.
  - intros (s1' & H1 & H2)%bind_Ok.
    destruct (process_delta_same_files _ _ _ _ _ Hf He Hs H1) as (s2' & -> & Hs').
    simpl. apply (IH s1'); [|done..].
    by destruct (process_delta_modified_Ok _ _ _ _ Hf He H1) as (_&_&_&_&_&_&?).
Qed.

(** Two modifications next to each other can change places. *)
Lemma process_delta_swap c1 d1 c2 d2 st s1 s2 :
  first st = false →
  status d1 = GIT_DELTA_MODIFIED → status d2 = GIT_DELTA_MODIFIED →
  process_delta c1 d1 st = Ok s1 → process_delta c2 d2 s1 = Ok s2 →
  ∃ s1' s2', process_delta c2 d2 st = Ok s1' ∧
             process_delta c1 d1 s1' = Ok s2' ∧ same_files s2 s2'.
Proof.
  intros Hf Hd1 Hd2 H1 H2.
  destruct (process_delta_modified_Ok _ _ _ _ Hf Hd1 H1)
    as (Hp1 & cur1 & Hcur1 & Ho1 & Hc1 & Ha1 & Hf1).
  destruct (process_delta_modified_Ok _ _ _ _ Hf1 Hd2 H2)
    as (Hp2 & cur2 & Hcur2 & Ho2 & Hc2 & Ha2 & Hf2).
  set (w1 := transform_name (name (author c1))) in *.
  set (w2 := transform_name (name (author c2))) in *.
  destruct (decide (new_file_path d1 = new_file_path d2)) as [Heq|Hne].
  - rewrite Ho1, <- Heq, lookup_insert_eq in Hcur2. injection Hcur2 as <-.
    eexists _, _. split_and!.
    + apply (process_delta_modified c2 d2 st cur1); congruence.
    + apply (process_delta_modified c1 d1 _ (cur1 ∪ w2)); simpl; [done..|].
      by rewrite <- Heq, lookup_insert_eq.
    + unfold same_files. simpl. rewrite Ho2, Ho1, Hc2, Hc1, Ha2, Ha1, Hf2, Hf.
      rewrite <- Heq, !insert_insert_eq. fold w1 w2.
      split_and!; [|done| |done].
      * f_equal. by rewrite <- !(assoc_L (∪)), (comm_L (∪) w1 w2).
      * by rewrite <- !(assoc_L (∪)), (comm_L (∪) w1 w2).
  - rewrite Ho1, lookup_insert_ne in Hcur2 by done.
    eexists _, _. split_and!.
    + apply (process_delta_modified c2 d2 st cur2); congruence.
    + apply (process_delta_modified c1 d1 _ cur1); simpl; [done..|].
      by rewrite lookup_insert_ne.
    + unfold same_files. simpl. rewrite Ho2, Ho1, Hc2, Hc1, Ha2, Ha1, Hf2, Hf.
      fold w1 w2. split_and!; [|done| |done].
      * by apply insert_insert_ne.
      * by rewrite <- !(assoc_L (∪)), (comm_L (∪) w1 w2).
Qed.

Lemma process_events_permutation evs evs' :
  evs ≡ₚ evs' →
  Forall modification evs →
  ∀ s1 s2 r1, first s1 = false → same_files s1 s2 →
    process_events evs s1 = Ok r1 →
    ∃ r2, process_events evs' s2 = Ok r2 ∧ same_files r1 r2.
Proof.
  induction 1 as [|e evs evs' Hp IH|e2 e1 evs|evs1 evs2 evs3 Hp1 IH1 Hp2 IH2];
    intros Hm s1 s2 r1 Hf Hs.
  - simpl. intros [= <-]. eauto.
  - apply Forall_cons_1 in Hm as [He Hm]. simpl.
    intros (s1' & H1 & H2)%bind_Ok.
    destruct (process_delta_same_files _ _ _ _ _ Hf He Hs H1) as (s2' & -> & Hs').
    simpl. apply (IH Hm s1'); [|done..].
    by destruct (process_delta_modified_Ok _ _ _ _ Hf He H1) as (_&_&_&_&_&_&?).
  - apply Forall_cons_1 in Hm as [He1 Hm].
    apply Forall_cons_1 in Hm as [He2 Hm]. simpl.
    intros (sa & Ha & (sb & Hb & Hr)%bind_Ok)%bind_Ok.
    destruct (process_delta_swap _ _ _ _ _ _ _ Hf He1 He2 Ha Hb)
      as (sa' & sb' & Ha' & Hb' & Hsb).
    destruct (process_delta_same_files _ _ _ _ _ Hf He2 Hs Ha') as (ta & -> & Hta).
    cbn [mbind result_bind].
    assert (Hfa : first sa' = false).
    { by destruct (process_delta_modified_Ok _ _ _ _ Hf He2 Ha') as (_&_&_&_&_&_&?). }
    destruct (process_delta_same_files _ _ _ _ _ Hfa He1 Hta Hb') as (tb & -> & Htb).
    simpl. apply (process_events_same_files evs sb); [|done| |done].
    + apply process_delta_Ok in Hb as [-> _]. by apply process_delta_Ok in Ha as [-> _].
    + destruct Hsb as (?&?&?&?), Htb as (?&?&?&?). unfold same_files.
      split_and!; congruence.
  - intros H1. destruct (IH1 Hm s1 s1 r1 Hf (same_files_refl _) H1) as (r & Hr & Hsr).
    assert (Hm2 : Forall modification evs2) by (by rewrite <- Hp1).
    destruct (IH2 Hm2 s1 s2 r Hf Hs Hr) as (r2 & Hr2 & Hsr2).
    exists r2. split; [done|].
    destruct Hsr as (?&?&?&?), Hsr2 as (?&?&?&?). unfold same_files.
    split_and!; congruence.
Qed.

(** C4: in a walk of added and modified files that goes through, the owners
    of a path are the union of the identities recorded for it, taken in the
    order the walk meets them (and the path is not live when none was);
    and past the first commit, two histories of modifications whose change
    records are a permutation of each other end with the same owners. *)
Theorem owners_are_union_of_identities :
  (∀ history st p,
     Forall (λ c, additions_and_modifications (deltas c)) history →
     walk history initial_state = Ok st →
     owners st !! p = record_identities None (identities true p history) ∧
     owners st !! p =
       match identities true p history with
       | [] => None
       | ids => Some (⋃ ids)
       end) ∧
  (∀ history history' st st',
     first st = false →
     Forall modification (events history) →
     events history ≡ₚ events history' →
     walk history st = Ok st' →
     ∃ st'', walk history' st = Ok st'' ∧ owners st'' = owners st').
Proof.
  split.
  - intros history st p Hh Hw.
    rewrite (walk_owners_lookup _ _ _ p Hw Hh).
    change (first initial_state) with true.
    replace (owners initial_state !! p) with (@None (gset string)) by done.
    split; [done|]. rewrite record_identities_None.
    by destruct (identities true p history).
  - intros history history' st st' Hf Hm Hp.
    rewrite !walk_events by done. intros H.
    destruct (process_events_permutation _ _ Hp Hm st st st' Hf
                (same_files_refl _) H) as (st'' & H' & Hs).
    exists st''. split; [done|]. by destruct Hs as (-> & _).
Qed.

Lemma owners_are_union_of_identities_witness :
  owners Scenarios.state_1 !! "a.txt"
  = Some (⋃ [ {[ VIJAY_NAME; "David L. Dill" ]}; {[ "Alice" ]} ]) ∧
  ∃ st'', walk [Scenarios.by_ "bob" 30 [Scenarios.modify "a.txt"];
                Scenarios.by_ "alice" 20 [Scenarios.modify "a.txt"]]
            (handled_first Scenarios.state_first) = Ok st'' ∧
          owners st'' = owners Scenarios.state_1_bob.
Proof.
  split.
  - refine (proj2 (proj1 owners_are_union_of_identities
              Scenarios.history_1 Scenarios.state_1 "a.txt" _ _)).
    + repeat constructor.
    + vm_compute. reflexivity.
  - refine (proj2 owners_are_union_of_identities
              [Scenarios.by_ "alice" 20 [Scenarios.modify "a.txt"];
               Scenarios.by_ "bob" 30 [Scenarios.modify "a.txt"]]
              _ (handled_first Scenarios.state_first) Scenarios.state_1_bob
              _ _ _ _).
    + reflexivity.
    + repeat constructor.
    + apply perm_swap.
    + vm_compute. reflexivity.
Defined.

(** ** The end-to-end scenarios *)

Example scenario_1 :
  calculate_stats (λ _, true) Scenarios.history_1
  = Ok (Datetime 10 0, [Row Partial "a.txt" (Datetime 10 0)]).
Proof. vm_compute. reflexivity. Qed.

Example scenario_2 :
  calculate_stats (λ _, true) Scenarios.history_2
  = Ok (Datetime 10 0, [Row Complete "b.txt" (Datetime 10 0)]).
Proof. vm_compute. reflexivity. Qed.

Example scenario_3 :
  walk Scenarios.history_3 initial_state = Ok Scenarios.state_3 ∧
  calculate_stats (λ _, true) Scenarios.history_3
  = Ok (Datetime 10 0, [Row Partial "d.txt" (Datetime 10 0)]).
Proof. split; vm_compute; reflexivity. Qed.

Example scenario_4 :
  calculate_stats (λ _, true) Scenarios.history_4 = Ok (Datetime 10 0, []).
Proof. vm_compute. reflexivity. Qed.

Example scenario_5 :
  transform_name "VIJAY ganesh" = transform_name "Vijay Ganesh".
Proof. reflexivity. Qed.
(** * Further properties *)

(** ** Names and case *)

(** X1: names of ASCII characters that differ only in the case of their
    letters are given the same identity; names of any characters that lower
    to the same string agree on whether they hold the marker, but may be
    title-cased apart, as the two sharp s. *)
Theorem transform_name_ignores_case :
  (∀ name1 name2,
     Ascii7.is_ascii name1 = true → Ascii7.is_ascii name2 = true →
     PyStr.lower name1 = PyStr.lower name2 →
     transform_name name1 = transform_name name2) ∧
  (∀ name1 name2,
     PyStr.lower name1 = PyStr.lower name2 →
     (transform_name name1 = {[ VIJAY_NAME; "David L. Dill" ]} ↔
      transform_name name2 = {[ VIJAY_NAME; "David L. Dill" ]})) ∧
  PyStr.lower "ß" = PyStr.lower "ẞ" ∧
  transform_name "ß" = {[ "Ss" ]} ∧
  transform_name "ẞ" = {[ "ẞ" ]} ∧
  transform_name "ß" ≠ transform_name "ẞ".
Proof.
  split_and!.
  - intros name1 name2 H1 H2 H. unfold transform_name. rewrite H.
    rewrite !title_ascii by done. unfold Ascii7.title.
    rewrite (title_from_lower_eq false name1 name2); [done|].
    by rewrite <- !lower_ascii.
  - intros name1 name2 H. unfold transform_name. rewrite H.
    destruct (PyStr.contains (PyStr.lower "Ganesh") (PyStr.lower name2)).
    + done.
    + split; intros Hp; symmetry in Hp; by apply pair_not_singleton in Hp.
  - vm_compute. reflexivity.
  - vm_compute. reflexivity.
  - vm_compute. reflexivity.
  - apply (bool_decide_unpack _). vm_compute. exact I.
Qed.

Lemma transform_name_ignores_case_witness :
  transform_name "aLiCe o'NEIL" = transform_name "Alice O'Neil".
Proof.
  apply (proj1 transform_name_ignores_case); vm_compute; reflexivity.
Defined.

(** X2: an identity is never empty, and it holds [VIJAY_NAME] exactly when
    the marker occurs in the raw name up to case: a name without the marker
    is never title-cased into [VIJAY_NAME]. *)
Theorem vijay_in_identity_iff_marker (name : string) :
  transform_name name ≠ ∅ ∧
  (VIJAY_NAME ∈ transform_name name ↔ occurs_ignoring_case "Ganesh" name) ∧
  (VIJAY_NAME ∈ transform_name name → "David L. Dill" ∈ transform_name name).
Proof.
  rewrite <- contains_marker_spec. unfold transform_name.
  destruct (PyStr.contains (PyStr.lower "Ganesh") (PyStr.lower name)) eqn:E.
  - split_and!.
    + intros H. apply (not_elem_of_empty (C:=gset string) VIJAY_NAME).
      rewrite <- H. apply elem_of_union_l. by apply elem_of_singleton.
    + split; [done|]. intros _. apply elem_of_union_l. by apply elem_of_singleton.
    + intros _. apply elem_of_union_r. by apply elem_of_singleton.
  - assert (Hn : VIJAY_NAME ∉ ({[ PyStr.title name ]} : gset string)).
    { intros Hin%elem_of_singleton. symmetry in Hin.
      pose proof (title_vijay_ascii _ Hin) as Ha.
      assert (Hl : PyStr.lower name = Ascii7.lower VIJAY_NAME).
      { rewrite (lower_ascii _ Ha). rewrite (title_ascii _ Ha) in Hin.
        rewrite <- Hin. unfold Ascii7.title.
        by rewrite lower_title_from. }
      rewrite Hl in E. vm_compute in E. discriminate E. }
    split_and!.
    + intros H. apply (not_elem_of_empty (C:=gset string) (PyStr.title name)).
      rewrite <- H. by apply elem_of_singleton.
    + split; [by intros ? | done].
    + by intros ?.
Qed.

(** ** What each kind of change does *)

Lemma process_delta_deleted c d st :
  first st = false →
  status d = GIT_DELTA_DELETED →
  is_Some (owners st !! old_file_path d) →
  is_Some (created_on st !! old_file_path d) →
  process_delta c d st =
    Ok {| owners := delete (old_file_path d) (owners st);
          created_on := delete (old_file_path d) (created_on st);
          all_contributors := all_contributors st;
          last_vijay_date := last_vijay_date st;
          first := first st |}.
Proof.
  intros Hf Hs [o Ho] [t Ht]. unfold_step. rewrite Hf, Hs. simpl.
  by rewrite Ho, Ht.
Qed.

(** X3: adding a path that is not live, in any commit, goes through: the
    path gets the identity of the change as owners and the commit's time as
    creation date, the identity joins [all_contributors], and no other path
    is touched. *)
Theorem added_sets_owners_and_creation_date c d st :
  status d = GIT_DELTA_ADDED →
  old_file_path d = new_file_path d →
  ¬ live (new_file_path d) st →
  ∃ st', process_delta c d st = Ok st' ∧
    owners st' !! new_file_path d = Some (contributor_of st c) ∧
    created_on st' !! new_file_path d = Some (commit_time_of c) ∧
    all_contributors st' = all_contributors st ∪ contributor_of st c ∧
    (∀ q, q ≠ new_file_path d →
       owners st' !! q = owners st !! q ∧
       created_on st' !! q = created_on st !! q).
Proof.
  intros Hs Hp Hn.
  assert (Hnone : owners st !! new_file_path d = None).
  { apply eq_None_not_Some. exact Hn. }
  eexists. split; [by apply process_delta_added|]. simpl.
  rewrite !lookup_insert_eq. split_and!; try done.
  intros q Hq. by rewrite !lookup_insert_ne.
Qed.

Lemma added_sets_owners_and_creation_date_witness :
  ∃ st', process_delta (Scenarios.by_ "alice" 20 [])
           (Scenarios.add "new.txt") Scenarios.state_2 = Ok st' ∧
    owners st' !! "new.txt" = Some {[ "Alice" ]} ∧
    created_on st' !! "new.txt" = Some (Datetime 20 0).
Proof.
  destruct (added_sets_owners_and_creation_date
              (Scenarios.by_ "alice" 20 [])
              (Scenarios.add "new.txt") Scenarios.state_2)
    as (st' & H & Ho & Hc & _).
  - reflexivity.
  - reflexivity.
  - vm_compute. intros [? [=]].
  - exists st'. repeat split; assumption.
Defined.

(** X4: past the first commit, modifying a live path goes through: the
    identity of the author is united into the owners of the path, which
    keeps every name it had, [created_on] is left as it was, and both dicts
    keep their keys. *)
Theorem modified_unites_owners_only c d st current :
  first st = false →
  status d = GIT_DELTA_MODIFIED →
  old_file_path d = new_file_path d →
  owners st !! new_file_path d = Some current →
  ∃ st', process_delta c d st = Ok st' ∧
    owners st' !! new_file_path d =
      Some (current ∪ transform_name (name (author c))) ∧
    (∀ q, q ≠ new_file_path d → owners st' !! q = owners st !! q) ∧
    created_on st' = created_on st ∧
    dom (owners st') = dom (owners st).
Proof.
  intros Hf Hs Hp Hc.
  eexists. split; [by apply (process_delta_modified c d st current)|]. simpl.
  rewrite lookup_insert_eq. split_and!; try done.
  - intros q Hq. by rewrite lookup_insert_ne.
  - apply dom_insert_lookup_L. eauto.
Qed.

Lemma modified_unites_owners_only_witness :
  ∃ st', process_delta (Scenarios.by_ "bob" 30 [])
           (Scenarios.modify "d.txt") Scenarios.state_2 = Ok st' ∧
    owners st' !! "d.txt"
      = Some ({[ VIJAY_NAME; "David L. Dill" ]} ∪ transform_name "bob") ∧
    created_on st' = created_on Scenarios.state_2.
Proof.
  destruct (modified_unites_owners_only
              (Scenarios.by_ "bob" 30 [])
              (Scenarios.modify "d.txt") Scenarios.state_2
              {[ VIJAY_NAME; "David L. Dill" ]})
    as (st' & H & Ho & _ & Hc & _).
  - reflexivity.
  - reflexivity.
  - reflexivity.
  - vm_compute. reflexivity.
  - exists st'. repeat split; assumption.
Defined.

(** X5: past the first commit, deleting a path that both dicts hold goes
    through: the path leaves both dicts, every other path keeps its
    entries, and [all_contributors] and [last_vijay_date] stay as they were
    (the names of a deleted file's owners are not forgotten).  The path
    deleted is the old path of the record; its new path is not looked at. *)
Theorem deleted_removes_path_only c d st :
  first st = false →
  status d = GIT_DELTA_DELETED →
  is_Some (owners st !! old_file_path d) →
  is_Some (created_on st !! old_file_path d) →
  ∃ st', process_delta c d st = Ok st' ∧
    owners st' !! old_file_path d = None ∧
    created_on st' !! old_file_path d = None ∧
    (∀ q, q ≠ old_file_path d →
       owners st' !! q = owners st !! q ∧
       created_on st' !! q = created_on st !! q) ∧
    all_contributors st' = all_contributors st ∧
    last_vijay_date st' = last_vijay_date st ∧
    (∀ other,
       process_delta c (Delta GIT_DELTA_DELETED (old_file_path d) other) st
       = Ok st').
Proof.
  intros Hf Hs Ho Hc.
  eexists. split; [by apply process_delta_deleted|]. simpl.
  rewrite !lookup_delete_eq. split_and!; try done.
  - intros q Hq. by rewrite !lookup_delete_ne.
  - intros other. by rewrite process_delta_deleted.
Qed.

Lemma deleted_removes_path_only_witness :
  ∃ st', process_delta (Scenarios.by_ "carol" 40 [])
           (Scenarios.remove "d.txt") Scenarios.state_3 = Ok st' ∧
    owners st' !! "d.txt" = None ∧
    created_on st' !! "d.txt" = None ∧
    all_contributors st' = all_contributors Scenarios.state_3.
Proof.
  destruct (deleted_removes_path_only
              (Scenarios.by_ "carol" 40 [])
              (Scenarios.remove "d.txt") Scenarios.state_3)
    as (st' & H & Ho & Hc & _ & Ha & _).
  - reflexivity.
  - reflexivity.
  - apply (bool_decide_unpack _). vm_compute. exact I.
  - apply (bool_decide_unpack _). vm_compute. exact I.
  - exists st'. repeat split; assumption.
Defined.

(** ** How changes compose *)

Lemma delete_insert_delete_insert {V} (m : gmap string V) a b v :
  m !! a = Some v → m !! b = None →
  delete b (<[a:=v]> (delete a (<[b:=v]> m))) = m.
Proof.
  intros Ha Hb. assert (a ≠ b) by congruence.
  apply map_eq. intros k.
  destruct (decide (k = b)) as [->|Hkb].
  - by rewrite lookup_delete_eq.
  - rewrite lookup_delete_ne by done.
    destruct (decide (k = a)) as [->|Hka].
    + by rewrite lookup_insert_eq.
    + by rewrite lookup_insert_ne, lookup_delete_ne, lookup_insert_ne.
Qed.

(** X6: past the first commit, renaming a live path to a path that neither
    dict holds and then renaming it back gives the state the walk was in
    before the two renames. *)
Theorem rename_there_and_back c1 c2 a b st :
  first st = false →
  is_Some (owners st !! a) →
  is_Some (created_on st !! a) →
  owners st !! b = None →
  created_on st !! b = None →
  process_deltas c1 [Delta GIT_DELTA_RENAMED a b] st
    ≫= process_deltas c2 [Delta GIT_DELTA_RENAMED b a] = Ok st.
Proof.
  intros Hf [o Ho] [t Ht] Hob Hcb. assert (a ≠ b) by congruence.
  cbn [process_deltas].
  rewrite (process_delta_renamed c1 _ st o t) by done.
  cbn [mbind result_bind old_file_path new_file_path].
  rewrite (process_delta_renamed c2 _ _ o t); cbn [owners created_on first
    old_file_path new_file_path mbind result_bind all_contributors
    last_vijay_date]; try done.
  - rewrite !delete_insert_delete_insert by done.
    f_equal. by destruct st.
  - by rewrite lookup_delete_ne, lookup_insert_eq.
  - by rewrite lookup_delete_ne, lookup_insert_eq.
  - by rewrite lookup_delete_eq.
Qed.

Lemma rename_there_and_back_witness :
  process_deltas (Scenarios.by_ "carol" 40 [])
    [Delta GIT_DELTA_RENAMED "d.txt" "e.txt"] Scenarios.state_3
    ≫= process_deltas (Scenarios.by_ "bob" 50 [])
         [Delta GIT_DELTA_RENAMED "e.txt" "d.txt"]
  = Ok Scenarios.state_3.
Proof.
  apply rename_there_and_back.
  - reflexivity.
  - apply (bool_decide_unpack _). vm_compute. exact I.
  - apply (bool_decide_unpack _). vm_compute. exact I.
  - vm_compute. reflexivity.
  - vm_compute. reflexivity.
Defined.

(** X7: a path that is deleted and later added again starts afresh: past
    the first commit, its owners are the identity of the author who added it
    again and its creation date is the time of that commit, whatever they
    were before the deletion. *)
Theorem deleted_then_added_starts_afresh c1 c2 p st :
  first st = false →
  is_Some (owners st !! p) →
  is_Some (created_on st !! p) →
  ∃ st', process_deltas c1 [Delta GIT_DELTA_DELETED p p] st
           ≫= process_deltas c2 [Delta GIT_DELTA_ADDED p p] = Ok st' ∧
    owners st' !! p = Some (transform_name (name (author c2))) ∧
    created_on st' !! p = Some (commit_time_of c2) ∧
    (∀ q, q ≠ p →
       owners st' !! q = owners st !! q ∧
       created_on st' !! q = created_on st !! q).
Proof.
  intros Hf Ho Hc. cbn [process_deltas].
  rewrite (process_delta_deleted c1 _ st) by done.
  cbn [mbind result_bind old_file_path].
  rewrite process_delta_added; cbn [status old_file_path new_file_path owners];
    [|done|done|by rewrite lookup_delete_eq].
  eexists. split; [done|]. unfold contributor_of. simpl. rewrite Hf.
  rewrite !lookup_insert_eq. split_and!; try done.
  intros q Hq. by rewrite !lookup_insert_ne, !lookup_delete_ne.
Qed.

Lemma deleted_then_added_starts_afresh_witness :
  ∃ st', process_deltas (Scenarios.by_ "carol" 40 [])
           [Delta GIT_DELTA_DELETED "d.txt" "d.txt"] Scenarios.state_3
           ≫= process_deltas (Scenarios.by_ "erin" 50 [])
                [Delta GIT_DELTA_ADDED "d.txt" "d.txt"] = Ok st' ∧
    owners st' !! "d.txt" = Some (transform_name "erin") ∧
    created_on st' !! "d.txt" = Some (Datetime 50 0).
Proof.
  destruct (deleted_then_added_starts_afresh
              (Scenarios.by_ "carol" 40 []) (Scenarios.by_ "erin" 50 [])
              "d.txt" Scenarios.state_3)
    as (st' & H & Ho & Hc & _).
  - reflexivity.
  - apply (bool_decide_unpack _). vm_compute. exact I.
  - apply (bool_decide_unpack _). vm_compute. exact I.
  - exists st'. repeat split; assumption.
Defined.

(** ** Invariants of the walk *)

Lemma transform_name_nonempty name : transform_name name ≠ ∅.
Proof.
  unfold transform_name. intros H.
  destruct (PyStr.contains _ _).
  - apply (not_elem_of_empty (C:=gset string) VIJAY_NAME).
    rewrite <- H. apply elem_of_union_l. by apply elem_of_singleton.
  - apply (not_elem_of_empty (C:=gset string) (PyStr.title name)).
    rewrite <- H. by apply elem_of_singleton.
Qed.

Lemma contributor_of_nonempty st c : contributor_of st c ≠ ∅.
Proof. unfold contributor_of. destruct (first st); apply transform_name_nonempty. Qed.

Lemma process_delta_owners_accounted c d st st' :
  owners_accounted st → process_delta c d st = Ok st' → owners_accounted st'.
Proof.
  unfold owners_accounted. intros Ha H p s.
  destruct (process_delta_Ok _ _ _ _ H) as [_ H'].
  destruct (status d); try done.
  - destruct H' as (_ & _ & -> & _ & -> & _).
    destruct (decide (p = new_file_path d)) as [->|Hp].
    + rewrite lookup_insert_eq. intros [= <-].
      split; [apply contributor_of_nonempty | apply union_subseteq_r].
    + rewrite lookup_insert_ne by done. intros Hs.
      destruct (Ha _ _ Hs) as [? ?]. split; [done|].
      by apply union_subseteq_l'.
  - destruct H' as (_ & _ & _ & -> & _ & -> & _).
    destruct (decide (p = old_file_path d)) as [->|Hp].
    + by rewrite lookup_delete_eq.
    + rewrite lookup_delete_ne by done. apply Ha.
  - destruct H' as (_ & _ & (cur & Hcur & ->) & _ & -> & _).
    destruct (Ha _ _ Hcur) as [Hne Hsub].
    destruct (decide (p = new_file_path d)) as [->|Hp].
    + rewrite lookup_insert_eq. intros [= <-]. split.
      * intros He. apply Hne. apply empty_union_L in He. by destruct He.
      * by apply union_mono_r.
    + rewrite lookup_insert_ne by done. intros Hs.
      destruct (Ha _ _ Hs) as [? ?]. split; [done|].
      by apply union_subseteq_l'.
  - destruct H' as (_ & _ & (o & t & Ho & _ & -> & _) & -> & _).
    destruct (decide (p = old_file_path d)) as [->|Hp].
    + by rewrite lookup_delete_eq.
    + rewrite lookup_delete_ne by done.
      destruct (decide (p = new_file_path d)) as [->|Hq].
      * rewrite lookup_insert_eq. intros [= <-]. by apply (Ha (old_file_path d)).
      * rewrite lookup_insert_ne by done. apply Ha.
Qed.

(** X8: at every point of the walk, every live path has at least one owner
    and each of its owners is in [all_contributors]. *)
Theorem owners_are_contributors before c ds st0 st p file_owners :
  walk before initial_state = Ok st0 →
  process_deltas c ds st0 = Ok st →
  owners st !! p = Some file_owners →
  file_owners ≠ ∅ ∧ file_owners ⊆ all_contributors st.
Proof.
  intros H0 H. revert p file_owners. change (owners_accounted st).
  apply (process_deltas_invariant owners_accounted
           process_delta_owners_accounted c ds st0); [|done].
  apply (walk_invariant owners_accounted process_delta_owners_accounted
           (λ _ H, H) before initial_state); [|done].
  intros p s. simpl. by rewrite lookup_empty.
Qed.

Lemma owners_are_contributors_witness :
  ({[ VIJAY_NAME; "David L. Dill"; "Bob" ]} : gset string) ≠ ∅ ∧
  ({[ VIJAY_NAME; "David L. Dill"; "Bob" ]} : gset string)
    ⊆ all_contributors Scenarios.state_3.
Proof.
  apply (owners_are_contributors
           (take 2 Scenarios.history_3) (Scenarios.by_ "bob" 30 [])
           [Scenarios.modify "d.txt"] Scenarios.state_2 Scenarios.state_3
           "d.txt").
  - vm_compute. reflexivity.
  - vm_compute. reflexivity.
  - vm_compute. reflexivity.
Defined.

Lemma process_delta_dated_iff_vijay c d st st' :
  dated_iff_vijay st → process_delta c d st = Ok st' → dated_iff_vijay st'.
Proof.
  unfold dated_iff_vijay. intros Hi H.
  assert (Hstamp : is_Some (stamp st c) ↔
            VIJAY_NAME ∈ all_contributors st ∪ contributor_of st c).
  { unfold stamp. rewrite elem_of_union, <- Hi. case_bool_decide as Hv.
    - split; eauto.
    - split; [by left | by intros [?|?]]. }
  destruct (process_delta_Ok _ _ _ _ H) as [_ H'].
  destruct (status d); try done.
  - by destruct H' as (_ & _ & _ & _ & -> & ->).
  - by destruct H' as (_ & _ & _ & _ & _ & -> & ->).
  - by destruct H' as (_ & _ & _ & _ & -> & ->).
  - by destruct H' as (_ & _ & _ & -> & ->).
Qed.

(** X9: at every point of the walk, [last_vijay_date] is set exactly when
    [VIJAY_NAME] is among [all_contributors]. *)
Theorem last_vijay_date_set_iff_vijay_contributed before c ds st0 st :
  walk before initial_state = Ok st0 →
  process_deltas c ds st0 = Ok st →
  (is_Some (last_vijay_date st) ↔ VIJAY_NAME ∈ all_contributors st).
Proof.
  intros H0 H. change (dated_iff_vijay st).
  apply (process_deltas_invariant dated_iff_vijay
           process_delta_dated_iff_vijay c ds st0); [|done].
  apply (walk_invariant dated_iff_vijay process_delta_dated_iff_vijay
           (λ _ H, H) before initial_state); [|done].
  unfold dated_iff_vijay. simpl. split.
  - by intros [? ?].
  - by intros ?%not_elem_of_empty.
Qed.

Lemma last_vijay_date_set_iff_vijay_contributed_witness :
  is_Some (last_vijay_date Scenarios.state_3) ↔
  VIJAY_NAME ∈ all_contributors Scenarios.state_3.
Proof.
  apply (last_vijay_date_set_iff_vijay_contributed
           (take 2 Scenarios.history_3) (Scenarios.by_ "bob" 30 [])
           [Scenarios.modify "d.txt"] Scenarios.state_2 Scenarios.state_3).
  - vm_compute. reflexivity.
  - vm_compute. reflexivity.
Defined.

(** ** Owners along the life of a file *)

Lemma process_delta_owners_track c d st st' p s :
  process_delta c d st = Ok st' →
  status d ≠ GIT_DELTA_DELETED →
  owners st !! p = Some s →
  ∃ s', owners st' !! track p d = Some s' ∧ s ⊆ s'.
Proof.
  unfold track. intros H Hs Hp.
  destruct (process_delta_Ok _ _ _ _ H) as [_ H'].
  destruct (status d) eqn:E; try done.
  - destruct H' as (_ & Hn & -> & _).
    rewrite bool_decide_eq_false_2 by (by intros [? _]).
    exists s. split; [|done]. rewrite lookup_insert_ne; [done|]. congruence.
  - destruct H' as (_ & _ & (cur & Hcur & ->) & _).
    rewrite bool_decide_eq_false_2 by (by intros [? _]).
    destruct (decide (new_file_path d = p)) as [Hq|Hq].
    + rewrite Hq in *. rewrite lookup_insert_eq. eexists. split; [done|].
      assert (cur = s) as -> by congruence. apply union_subseteq_l.
    + rewrite lookup_insert_ne by done. eauto.
  - destruct H' as (_ & Hn & (o & t & Ho & _ & -> & _) & _).
    assert (Hne : new_file_path d ≠ old_file_path d) by congruence.
    exists s. split; [|done]. case_bool_decide as Hb.
    + destruct Hb as [_ <-]. rewrite lookup_delete_ne, lookup_insert_eq by done.
      congruence.
    + assert (old_file_path d ≠ p) by (intros ?; by apply Hb).
      rewrite lookup_delete_ne, lookup_insert_ne; [done| |done]. congruence.
Qed.

Lemma process_deltas_owners_track c ds st st' p s :
  process_deltas c ds st = Ok st' →
  no_deletion ds →
  owners st !! p = Some s →
  ∃ s', owners st' !! track_deltas p ds = Some s' ∧ s ⊆ s'.
Proof.
  intros H Hds. revert st p s H.
  induction Hds as [|d ds Hd Hds IH]; intros st p s; simpl.
  - intros [= <-]. eauto.
  - intros (st1 & H1 & H2)%bind_Ok Hp.
    destruct (process_delta_owners_track _ _ _ _ _ _ H1 Hd Hp) as (s1 & Hs1 & ?).
    destruct (IH _ _ _ H2 Hs1) as (s' & ? & ?).
    exists s'. split; [done|]. by transitivity s1.
Qed.

Lemma walk_owners_track history st st' p s :
  walk history st = Ok st' →
  Forall (λ c, no_deletion (deltas c)) history →
  owners st !! p = Some s →
  ∃ s', owners st' !! track_history p history = Some s' ∧ s ⊆ s'.
Proof.
  intros H Hh. revert st p s H.
  induction Hh as [|c history Hc Hh IH]; intros st p s; simpl.
  - intros [= <-]. eauto.
  - intros (st1 & (st0 & H0 & [= <-])%bind_Ok & H2)%bind_Ok Hp.
    destruct (process_deltas_owners_track _ _ _ _ _ _ H0 Hc Hp) as (s1 & Hs1 & ?).
    destruct (IH (handled_first st0) _ s1 H2 Hs1) as (s' & ? & ?).
    exists s'. split; [done|]. by transitivity s1.
Qed.

(** X10: along a walk with no deletion, a file keeps every owner it has:
    under the name the renames lead to, its owners at the end include its
    owners at the start. *)
Theorem owners_never_lose_a_name history st st' p file_owners :
  walk history st = Ok st' →
  Forall (λ c, no_deletion (deltas c)) history →
  owners st !! p = Some file_owners →
  ∃ file_owners', owners st' !! track_history p history = Some file_owners' ∧
                  file_owners ⊆ file_owners'.
Proof. apply walk_owners_track. Qed.

Lemma owners_never_lose_a_name_witness :
  ∃ file_owners',
    owners Scenarios.state_1 !! "a.txt" = Some file_owners' ∧
    {[ VIJAY_NAME; "David L. Dill" ]} ⊆ file_owners'.
Proof.
  apply (owners_never_lose_a_name (tail Scenarios.history_1)
           (handled_first Scenarios.state_first) Scenarios.state_1 "a.txt").
  - vm_compute. reflexivity.
  - repeat constructor; discriminate.
  - vm_compute. reflexivity.
Defined.

(** ** Where the dates come from *)

Lemma process_delta_dates_from (seen : commit → Prop) c d st st' :
  seen c → dates_from seen st → process_delta c d st = Ok st' →
  dates_from seen st'.
Proof.
  unfold dates_from. intros Hc [Hcr Hl] H.
  assert (Hstamp : ∀ t, stamp st c = Some t → ∃ c', seen c' ∧ t = commit_time_of c').
  { unfold stamp. intros t. case_bool_decide; [|apply Hl]. intros [= <-]. eauto. }
  destruct (process_delta_Ok _ _ _ _ H) as [_ H'].
  destruct (status d); try done.
  - destruct H' as (_ & _ & _ & -> & _ & ->). split; [|done].
    intros p t. destruct (decide (p = new_file_path d)) as [->|Hp].
    + rewrite lookup_insert_eq. intros [= <-]. eauto.
    + rewrite lookup_insert_ne by done. apply Hcr.
  - destruct H' as (_ & _ & _ & _ & -> & _ & ->). split; [|done].
    intros p t. destruct (decide (p = old_file_path d)) as [->|Hp].
    + by rewrite lookup_delete_eq.
    + rewrite lookup_delete_ne by done. apply Hcr.
  - by destruct H' as (_ & _ & _ & -> & _ & ->).
  - destruct H' as (_ & _ & (o & t0 & _ & Ht0 & _ & ->) & _ & ->).
    split; [|done]. intros p t.
    destruct (decide (p = old_file_path d)) as [->|Hp].
    + by rewrite lookup_delete_eq.
    + rewrite lookup_delete_ne by done.
      destruct (decide (p = new_file_path d)) as [->|Hq].
      * rewrite lookup_insert_eq. intros [= <-]. eauto.
      * rewrite lookup_insert_ne by done. apply Hcr.
Qed.

Lemma walk_dates_from (seen : commit → Prop) history st st' :
  Forall seen history → dates_from seen st → walk history st = Ok st' →
  dates_from seen st'.
Proof.
  intros Hh. revert st; induction Hh as [|c history Hc Hh IH]; intros st Hd; simpl.
  - by intros [= <-].
  - intros (st1 & (st0 & H0 & [= <-])%bind_Ok & H2)%bind_Ok.
    apply (IH (handled_first st0)); [|done].
    change (dates_from seen st0).
    clear H2 IH. revert st Hd H0.
    induction (deltas c) as [|d ds IHd]; intros st Hd; simpl.
    + by intros [= <-].
    + intros (st2 & H1 & H2)%bind_Ok.
      eauto using process_delta_dates_from.
Qed.

(** X11: the dates a walk ends with are times of commits of the history:
    the creation date of every live path, and [last_vijay_date] when set. *)
Theorem dates_are_commit_times history st :
  walk history initial_state = Ok st →
  (∀ p added_date, created_on st !! p = Some added_date →
     ∃ c, c ∈ history ∧ added_date = commit_time_of c) ∧
  (∀ last, last_vijay_date st = Some last →
     ∃ c, c ∈ history ∧ last = commit_time_of c).
Proof.
  intros H. change (dates_from (λ c, c ∈ history) st).
  apply (walk_dates_from _ history initial_state); [|split; [|done]|done].
  - by apply Forall_forall.
  - intros p t. simpl. by rewrite lookup_empty.
Qed.

Lemma dates_are_commit_times_witness :
  ∃ c, c ∈ Scenarios.history_3 ∧ Datetime 10 0 = commit_time_of c.
Proof.
  refine (proj1 (dates_are_commit_times Scenarios.history_3 Scenarios.state_3 _)
            "d.txt" (Datetime 10 0) _).
  - vm_compute. reflexivity.
  - vm_compute. reflexivity.
Defined.

(** ** Exceptions of the loop body, one by one *)

(** X12: a record that adds or modifies a file, or any record of the first
    commit, is rejected when its two paths differ, whatever the state. *)
Theorem differing_paths_are_rejected c d st :
  first st = true ∨ status d ∈ [GIT_DELTA_ADDED; GIT_DELTA_MODIFIED] →
  old_file_path d ≠ new_file_path d →
  process_delta c d st = Err (AssertionError PathsUnchanged).
Proof.
  intros H Hp. unfold process_delta.
  replace (first st || bool_decide (status d ∈ [GIT_DELTA_ADDED; GIT_DELTA_MODIFIED]))
    with true.
  - by rewrite (bool_decide_eq_false_2 _ Hp).
  - symmetry. destruct H as [->|H]; [done|].
    rewrite (bool_decide_eq_true_2 _ H). apply orb_true_r.
Qed.

Lemma differing_paths_are_rejected_witness :
  process_delta (Scenarios.by_ "bob" 30 [])
    (Delta GIT_DELTA_MODIFIED "d.txt" "e.txt") Scenarios.state_3
  = Err (AssertionError PathsUnchanged).
Proof.
  apply differing_paths_are_rejected.
  - right. apply (bool_decide_unpack _). vm_compute. exact I.
  - discriminate.
Defined.

(** X13: past the first commit each violated path invariant has its own
    exception: adding a live path and renaming onto a live path fail their
    asserts, modifying a path that is not live fails its assert, and
    renaming or deleting a path that is not live raises the key error of
    that path. *)
Theorem violations_have_their_own_exception c d st :
  first st = false →
  (status d = GIT_DELTA_ADDED → old_file_path d = new_file_path d →
   live (new_file_path d) st →
   process_delta c d st = Err (AssertionError AddedPathFresh)) ∧
  (status d = GIT_DELTA_MODIFIED → old_file_path d = new_file_path d →
   ¬ live (new_file_path d) st →
   process_delta c d st = Err (AssertionError ModifiedPathLive)) ∧
  (status d = GIT_DELTA_RENAMED → live (new_file_path d) st →
   process_delta c d st = Err (AssertionError RenamedPathFresh)) ∧
  (status d = GIT_DELTA_RENAMED → ¬ live (new_file_path d) st →
   ¬ live (old_file_path d) st →
   process_delta c d st = Err (KeyError (old_file_path d))) ∧
  (status d = GIT_DELTA_DELETED → ¬ live (old_file_path d) st →
   process_delta c d st = Err (KeyError (old_file_path d))).
Proof.
  unfold live. intros Hf. split_and!.
  - intros Hs Hp [o Ho]. unfold_step. rewrite Hf, Hs, Hp, Ho.
    eval_status_tests.
    by rewrite (bool_decide_eq_true_2 (new_file_path d = new_file_path d)).
  - intros Hs Hp Hn%eq_None_not_Some. unfold_step. rewrite Hf, Hs, Hp, Hn.
    eval_status_tests.
    by rewrite (bool_decide_eq_true_2 (new_file_path d = new_file_path d)).
  - intros Hs [o Ho]. unfold_step. rewrite Hf, Hs, Ho. by eval_status_tests.
  - intros Hs Hn%eq_None_not_Some Ho%eq_None_not_Some. unfold_step.
    rewrite Hf, Hs, Hn, Ho. by eval_status_tests.
  - intros Hs Ho%eq_None_not_Some. unfold_step. rewrite Hf, Hs.
    eval_status_tests. simpl. by rewrite Ho.
Qed.

Lemma violations_have_their_own_exception_witness :
  process_delta (Scenarios.by_ "bob" 30 [])
    (Scenarios.remove "gone.txt") Scenarios.state_3
  = Err (KeyError "gone.txt").
Proof.
  refine (proj2 (proj2 (proj2 (proj2 (violations_have_their_own_exception
            (Scenarios.by_ "bob" 30 []) (Scenarios.remove "gone.txt")
            Scenarios.state_3 _)))) _ _).
  - reflexivity.
  - reflexivity.
  - vm_compute. intros [? [=]].
Defined.

(** ** The report and [main] *)

Lemma report_rows_Forall2 on_disk cr last items rows :
  report_rows on_disk cr last items = Ok rows →
  Forall2 (λ item r,
      on_disk item.1 = true ∧ row_name r = item.1 ∧
      cr !! item.1 = Some (row_date r) ∧
      row_ownership r = classify item.2 (row_date r) last) items rows.
Proof.
  revert rows; induction items as [|[fname o] items IH]; intros rows; simpl.
  - intros [= <-]. constructor.
  - unfold assert, getitem.
    destruct (on_disk fname) eqn:Hd; simpl; [|done].
    destruct (cr !! fname) as [t|] eqn:Ht; simpl; [|done].
    destruct (report_rows on_disk cr last items) as [rows'|]; simpl; [|done].
    intros [= <-]. constructor; [done|]. by apply IH.
Qed.

Lemma report_rows_missing on_disk cr last items :
  Forall (λ item, is_Some (cr !! item.1)) items →
  Exists (λ item, on_disk item.1 = false) items →
  report_rows on_disk cr last items = Err (AssertionError LivePathOnDisk).
Proof.
  induction 1 as [|[fname o] items [t Ht] _ IH]; intros He; simpl in *.
  - by apply Exists_nil in He.
  - unfold assert, getitem. destruct (on_disk fname) eqn:Hd; simpl; [|done].
    rewrite Ht. simpl. apply Exists_cons in He as [He|He]; [simpl in He; congruence|].
    by rewrite (IH He).
Qed.

Lemma lockstep_created st p :
  lockstep st → is_Some (owners st !! p) → is_Some (created_on st !! p).
Proof.
  unfold lockstep. intros Hk H. apply elem_of_dom. rewrite <- Hk.
  by apply elem_of_dom.
Qed.

(** X14: a report that goes through has one row for each live path and no
    other: the rows name distinct paths, as many as [owners] holds, and each
    row names a live path that is on disk, with the creation date of that
    path and the label [classify] gives its owners. *)
Theorem report_has_one_row_per_live_path on_disk history last rows :
  calculate_stats on_disk history = Ok (last, rows) →
  ∃ st, walk history initial_state = Ok st ∧
    last_vijay_date st = Some last ∧
    NoDup (row_name <$> rows) ∧
    length rows = size (owners st) ∧
    ∀ r, r ∈ rows →
      ∃ file_owners, owners st !! row_name r = Some file_owners ∧
        created_on st !! row_name r = Some (row_date r) ∧
        row_ownership r = classify file_owners (row_date r) last ∧
        on_disk (row_name r) = true.
Proof.
  destruct history as [|c0 after]; [done|]. rewrite calculate_stats_cons.
  set (history := c0 :: after).
  destruct (walk history initial_state) as [st|] eqn:Hw; simpl; [|done].
  destruct (last_vijay_date st) as [l|] eqn:Hl; [|done].
  destruct (report_rows _ _ _ _) as [rows'|] eqn:Hr; simpl; [|done].
  intros [= <- <-]. exists st. split_and!; [done..| | |].
  - apply report_rows_Forall2 in Hr.
    assert (Hn : row_name <$> rows' = (map_to_list (owners st)).*1).
    { induction Hr as [|item r items rs (_ & Hname & _) _ IH]; [done|].
      rewrite !fmap_cons. by rewrite Hname, IH. }
    rewrite Hn. apply NoDup_fst_map_to_list.
  - apply report_rows_Forall2, Forall2_length in Hr.
    by rewrite <- Hr, length_map_to_list.
  - intros r Hin. apply report_rows_Forall2 in Hr.
    apply list_elem_of_lookup in Hin as [i Hi].
    destruct (Forall2_lookup_r _ _ _ _ _ Hr Hi)
      as ([fname o] & Hitem & Hd & Hname & Ht & Hc).
    simpl in *. exists o. rewrite Hname. split_and!; try done.
    apply elem_of_map_to_list. apply list_elem_of_lookup. eauto.
Qed.

Lemma report_has_one_row_per_live_path_witness :
  ∃ st, walk Scenarios.history_3 initial_state = Ok st ∧
        last_vijay_date st = Some (Datetime 10 0) ∧
        length [Row Partial "d.txt" (Datetime 10 0)] = size (owners st).
Proof.
  destruct (report_has_one_row_per_live_path (λ _, true) Scenarios.history_3
              (Datetime 10 0) [Row Partial "d.txt" (Datetime 10 0)])
    as (st & Hw & Hl & _ & Hn & _).
  - vm_compute. reflexivity.
  - exists st. repeat split; assumption.
Defined.

(** X15: [main] returns 0 exactly when the walk goes through, leaves
    [last_vijay_date] set, and every live path is on disk. *)
Theorem main_returns_zero_iff on_disk history :
  main on_disk history = Ok 0 ↔
  ∃ st, walk history initial_state = Ok st ∧
        is_Some (last_vijay_date st) ∧
        ∀ p, live p st → on_disk p = true.
Proof.
  destruct history as [|c0 after].
  { split; [done|]. by intros (st & [= <-] & [l Hl] & _). }
  unfold main. rewrite calculate_stats_cons. set (history := c0 :: after).
  unfold mbind, result_bind. split.
  - destruct (walk history initial_state) as [st|] eqn:Hw; [|done].
    destruct (last_vijay_date st) as [l|] eqn:Hl; [|done].
    destruct (report_rows _ _ _ _) as [rows|] eqn:Hr; [|done].
    intros _. exists st. split_and!; [done|eauto|].
    intros p [o Ho]. apply report_rows_Forall2 in Hr.
    apply elem_of_map_to_list, list_elem_of_lookup in Ho as [i Hi].
    by destruct (Forall2_lookup_l _ _ _ _ _ Hr Hi) as (r & _ & ? & _).
  - intros (st & Hw & [l Hl] & Hd). rewrite Hw, Hl.
    destruct (report_rows_Ok on_disk (created_on st) l (map_to_list (owners st)))
      as (rows & -> & _); [|done].
    apply Forall_forall. intros [q o] Hq%elem_of_map_to_list. simpl. split.
    + apply Hd. unfold live. eauto.
    + apply lockstep_created; eauto using walk_lockstep.
Qed.

(** X16: when the walk goes through with [last_vijay_date] set but a live
    path is missing on disk, the report fails its assert, and so does
    [main]. *)
Theorem missing_live_path_fails_the_report on_disk history st p :
  walk history initial_state = Ok st →
  is_Some (last_vijay_date st) →
  live p st →
  on_disk p = false →
  calculate_stats on_disk history = Err (AssertionError LivePathOnDisk) ∧
  main on_disk history = Err (AssertionError LivePathOnDisk).
Proof.
  intros Hw [l Hl] [o Ho] Hd.
  assert (calculate_stats on_disk history = Err (AssertionError LivePathOnDisk))
    as Hc; [|split; [done|unfold main; by rewrite Hc]].
  destruct history as [|c0 after]; [by simplify_eq/=|].
  rewrite calculate_stats_cons. unfold mbind, result_bind. rewrite Hw, Hl.
  rewrite report_rows_missing; [done| |].
  - apply Forall_forall. intros [q o'] Hq%elem_of_map_to_list. simpl.
    apply lockstep_created; eauto using walk_lockstep.
  - apply Exists_exists. exists (p, o). split; [|done].
    by apply elem_of_map_to_list.
Qed.

Lemma missing_live_path_fails_the_report_witness :
  calculate_stats (λ _, false) Scenarios.history_3
    = Err (AssertionError LivePathOnDisk) ∧
  main (λ _, false) Scenarios.history_3 = Err (AssertionError LivePathOnDisk).
Proof.
  apply (missing_live_path_fails_the_report (λ _, false) Scenarios.history_3
           Scenarios.state_3 "d.txt").
  - vm_compute. reflexivity.
  - apply (bool_decide_unpack _). vm_compute. exact I.
  - apply (bool_decide_unpack _). vm_compute. exact I.
  - reflexivity.
Defined.

Lemma walk_no_change history st :
  Forall (λ c, deltas c = []) history →
  ∃ st', walk history st = Ok st' ∧
         last_vijay_date st' = last_vijay_date st ∧
         owners st' = owners st.
Proof.
  intros Hh. revert st; induction Hh as [|c history Hc Hh IH]; intros st; simpl.
  - eauto.
  - unfold process_commit. rewrite Hc. simpl.
    destruct (IH (handled_first st)) as (st' & -> & ? & ?). eauto.
Qed.

(** X17: a history that has a commit, none of whose commits changes a
    file, leaves [last_vijay_date] unset, and [calculate_stats] ends in the
    attribute error of the summary line; the history of a repository without
    a commit ends before the walk, in the error of [repo.head]. *)
Theorem history_without_changes_has_no_date on_disk history :
  history ≠ [] →
  Forall (λ c, deltas c = []) history →
  (∃ msg, calculate_stats on_disk history = Err (AttributeError msg)) ∧
  calculate_stats on_disk [] = Err GitError.
Proof.
  intros Hne Hh. split; [|reflexivity].
  destruct (walk_no_change history initial_state Hh) as (st & Hw & Hl & _).
  destruct history as [|c after]; [done|].
  rewrite calculate_stats_cons. unfold mbind, result_bind. rewrite Hw, Hl.
  eauto.
Qed.

Lemma history_without_changes_has_no_date_witness :
  (∃ msg, calculate_stats (λ _, true)
            [Scenarios.by_ "importer" 10 []; Scenarios.by_ "vijay ganesh" 20 []]
          = Err (AttributeError msg)) ∧
  calculate_stats (λ _, true) [] = Err GitError.
Proof.
  apply history_without_changes_has_no_date.
  - discriminate.
  - repeat constructor.
Defined.

(** ** Files of the first commit *)

Lemma process_deltas_first_added c ds st st' :
  first st = true → process_deltas c ds st = Ok st' →
  Forall (λ d, status d = GIT_DELTA_ADDED) ds.
Proof.
  revert st; induction ds as [|d ds IH]; intros st Hf; simpl; [by constructor|].
  intros (st1 & H1 & H2)%bind_Ok.
  destruct (process_delta_first_Ok _ _ _ _ Hf H1) as (Hs & _).
  destruct (process_delta_Ok _ _ _ _ H1) as [Hf1 _]. rewrite Hf in Hf1.
  constructor; eauto.
Qed.

Lemma track_deltas_added p ds :
  Forall (λ d, status d = GIT_DELTA_ADDED) ds → track_deltas p ds = p.
Proof.
  induction 1 as [|d ds Hd _ IH]; [done|]. unfold track_deltas in *. simpl.
  unfold track at 2. rewrite bool_decide_eq_false_2; [done|].
  intros [? _]. congruence.
Qed.

Lemma classify_with_vijay (file_owners : gset string) added_date last :
  {[ VIJAY_NAME; "David L. Dill" ]} ⊆ file_owners →
  classify file_owners added_date last = Complete ∨
  classify file_owners added_date last = Partial.
Proof.
  intros Hsub.
  destruct (classify_cases file_owners added_date last) as (H1 & H2 & _).
  destruct (decide (file_owners = {[ VIJAY_NAME; "David L. Dill" ]})) as [He|He].
  - left. by apply H1.
  - right. apply H2; [done|]. intros Hi.
    apply (not_elem_of_empty (C:=gset string) VIJAY_NAME). rewrite <- Hi.
    apply elem_of_intersection. split.
    + apply Hsub. apply elem_of_union_l. by apply elem_of_singleton.
    + apply elem_of_union_l. by apply elem_of_singleton.
Qed.

(** X18: in a report that goes through, a file added by the first commit
    and never deleted has a row, under the name the renames lead to, dated
    by the first commit and labelled Complete or Partial, never Inherited
    or None. *)
Theorem first_commit_files_are_complete_or_partial
    on_disk c after ds1 d ds2 last rows :
  deltas c = ds1 ++ d :: ds2 →
  Forall (λ c', no_deletion (deltas c')) after →
  calculate_stats on_disk (c :: after) = Ok (last, rows) →
  ∃ r, r ∈ rows ∧
    row_name r = track_history (new_file_path d) after ∧
    row_date r = commit_time_of c ∧
    (row_ownership r = Complete ∨ row_ownership r = Partial).
Proof.
  intros Hc Hafter. rewrite calculate_stats_cons. unfold mbind, result_bind.
  destruct (walk (c :: after) initial_state) as [st|] eqn:Hw; [|done].
  destruct (last_vijay_date st) as [l|] eqn:Hl; [|done].
  destruct (report_rows _ _ _ _) as [rows'|] eqn:Hr; [|done].
  intros [= <- <-].
  pose proof Hw as Hw'. simpl in Hw'.
  apply bind_Ok in Hw' as (st4 & (st3 & H3 & [= <-])%bind_Ok & H4).
  rewrite Hc, process_deltas_app in H3.
  apply bind_Ok in H3 as (st1 & H1 & H3). simpl in H3.
  apply bind_Ok in H3 as (st2 & H2 & H3).
  pose proof (process_deltas_first _ _ _ _ H1) as Hf1. simpl in Hf1.
  destruct (process_delta_first_Ok _ _ _ _ Hf1 H2) as (_ & Ho2 & Hc2 & _).
  destruct (process_delta_Ok _ _ _ _ H2) as [Hf2 _]. rewrite Hf1 in Hf2.
  pose proof (process_deltas_first_added _ _ _ _ Hf2 H3) as Hadd.
  assert (Hnd : no_deletion ds2).
  { eapply Forall_impl; [exact Hadd|]. simpl. intros ? ->. discriminate. }
  assert (Hk2 : lockstep st2).
  { eapply process_delta_lockstep; [|exact H2].
    eapply (process_deltas_invariant lockstep);
      eauto using process_delta_lockstep, lockstep_initial. }
  assert (Hk3 : lockstep st3).
  { eapply (process_deltas_invariant lockstep);
      eauto using process_delta_lockstep. }
  destruct (process_deltas_owners_track _ _ _ _ _ _ H3 Hnd Ho2) as (s3 & Hs3 & Hsub3).
  pose proof (process_deltas_track _ _ _ _ _ _ Hk2 H3 Hnd Hc2) as Ht3.
  rewrite (track_deltas_added _ _ Hadd) in Hs3, Ht3.
  destruct (walk_owners_track after (handled_first st3) st _ s3 H4 Hafter Hs3)
    as (s & Hs & Hsub).
  pose proof (walk_track after (handled_first st3) st _ _ Hk3 H4 Hafter Ht3) as Ht.
  set (q := track_history (new_file_path d) after) in *.
  apply report_rows_Forall2 in Hr.
  apply elem_of_map_to_list, list_elem_of_lookup in Hs as [i Hi].
  destruct (Forall2_lookup_l _ _ _ _ _ Hr Hi) as (r & Hri & _ & Hname & Hdate & Hlab).
  simpl in *. exists r. split_and!.
  - apply list_elem_of_lookup. eauto.
  - done.
  - congruence.
  - rewrite Hlab. apply classify_with_vijay.
    rewrite transform_name_vijay_name in Hsub3. by transitivity s3.
Qed.

Lemma first_commit_files_are_complete_or_partial_witness :
  ∃ r, r ∈ [Row Partial "d.txt" (Datetime 10 0)] ∧
    row_name r = "d.txt" ∧
    row_date r = Datetime 10 0 ∧
    (row_ownership r = Complete ∨ row_ownership r = Partial).
Proof.
  apply (first_commit_files_are_complete_or_partial (λ _, true)
           (Scenarios.by_ "importer" 10 [Scenarios.add "c.txt"])
           (tail Scenarios.history_3) [] (Scenarios.add "c.txt") []
           (Datetime 10 0)).
  - reflexivity.
  - repeat constructor; discriminate.
  - vm_compute. reflexivity.
Defined.

(** ** Counting contributors and live paths *)

Lemma process_delta_all_contributors_eq c d st st' :
  process_delta c d st = Ok st' →
  all_contributors st' =
    all_contributors st ∪
    ⋃ ((λ _, contributor_of st c)
         <$> filter (λ d, status d ∈ [GIT_DELTA_ADDED; GIT_DELTA_MODIFIED]) [d]).
Proof.
  intros H. destruct (process_delta_Ok _ _ _ _ H) as [_ H'].
  rewrite filter_cons, filter_nil.
  destruct (status d) eqn:E; try done.
  - destruct H' as (_ & _ & _ & _ & -> & _).
    rewrite decide_True by constructor. simpl. by rewrite (right_id_L ∅ (∪)).
  - destruct H' as (_ & _ & _ & _ & _ & -> & _).
    rewrite decide_False; [simpl; by rewrite (right_id_L ∅ (∪))|].
    intros Hin. by repeat (apply elem_of_cons in Hin as [?|Hin]; [done|]);
      apply elem_of_nil in Hin.
  - destruct H' as (_ & _ & _ & _ & -> & _).
    rewrite decide_True by (repeat constructor). simpl.
    by rewrite (right_id_L ∅ (∪)).
  - destruct H' as (_ & _ & _ & -> & _).
    rewrite decide_False; [simpl; by rewrite (right_id_L ∅ (∪))|].
    intros Hin. by repeat (apply elem_of_cons in Hin as [?|Hin]; [done|]);
      apply elem_of_nil in Hin.
Qed.

Lemma process_deltas_all_contributors_eq c ds st st' :
  process_deltas c ds st = Ok st' →
  all_contributors st' =
    all_contributors st ∪
    ⋃ ((λ _, contributor_of st c)
         <$> filter (λ d, status d ∈ [GIT_DELTA_ADDED; GIT_DELTA_MODIFIED]) ds).
Proof.
  revert st; induction ds as [|d ds IH]; intros st; simpl.
  - intros [= <-]. by rewrite (right_id_L ∅ (∪)).
  - intros (st1 & H1 & H2)%bind_Ok.
    rewrite (IH _ H2), (process_delta_all_contributors_eq _ _ _ _ H1).
    destruct (process_delta_Ok _ _ _ _ H1) as [Hf _].
    unfold contributor_of. rewrite Hf.
    change (d :: ds) with ([d] ++ ds).
    by rewrite filter_app, fmap_app, union_list_app_L, (assoc_L (∪)).
Qed.

Lemma walk_all_contributors_eq history st st' :
  walk history st = Ok st' →
  all_contributors st' =
    all_contributors st ∪ ⋃ contributions (first st) history.
Proof.
  revert st; induction history as [|c history IH]; intros st.
  - simpl. intros [= <-]. by rewrite (right_id_L ∅ (∪)).
  - cbn [walk contributions].
    intros (st1 & (st0 & H0 & [= <-])%bind_Ok & H2)%bind_Ok.
    rewrite (IH _ H2). cbn [first all_contributors handled_first].
    rewrite (process_deltas_all_contributors_eq _ _ _ _ H0).
    by rewrite union_list_app_L, (assoc_L (∪)).
Qed.

(** X19: at the end of a walk [all_contributors] is the union of the
    identities of every record that added or modified a file, those of
    files renamed or deleted since among them. *)
Theorem all_contributors_is_union_of_contributions history st :
  walk history initial_state = Ok st →
  all_contributors st = ⋃ contributions true history.
Proof.
  intros H. rewrite (walk_all_contributors_eq _ _ _ H). simpl.
  by rewrite (left_id_L ∅ (∪)).
Qed.

Lemma all_contributors_is_union_of_contributions_witness :
  all_contributors Scenarios.state_3
  = ⋃ contributions true Scenarios.history_3.
Proof.
  apply all_contributors_is_union_of_contributions. vm_compute. reflexivity.
Defined.

Lemma process_delta_size c d st st' :
  process_delta c d st = Ok st' →
  (size (owners st')
   + length (filter (λ d, status d = GIT_DELTA_DELETED) [d])
   = size (owners st)
     + length (filter (λ d, status d = GIT_DELTA_ADDED) [d]))%nat.
Proof.
  intros H. destruct (process_delta_Ok _ _ _ _ H) as [_ H'].
  rewrite !filter_cons, !filter_nil.
  destruct (status d) eqn:E; try done; simpl.
  - destruct H' as (_ & Hn & -> & _). rewrite map_size_insert_None by done. lia.
  - destruct H' as (_ & Ho & _ & -> & _).
    pose proof (map_size_delete_Some _ _ Ho) as Hd.
    pose proof (map_size_ne_0_lookup_2 _ _ Ho). lia.
  - destruct H' as (_ & _ & (cur & Hcur & ->) & _).
    rewrite map_size_insert_Some by eauto. lia.
  - destruct H' as (_ & Hn & (o & t & Ho & _ & -> & _) & _).
    assert (Hne : new_file_path d ≠ old_file_path d) by congruence.
    assert (Hl : is_Some (<[new_file_path d:=o]> (owners st) !! old_file_path d)).
    { rewrite lookup_insert_ne by done. eauto. }
    pose proof (map_size_delete_Some _ _ Hl) as Hd.
    rewrite map_size_insert_None in Hd by done. simpl in Hd. lia.
Qed.

Lemma process_deltas_size c ds st st' :
  process_deltas c ds st = Ok st' →
  (size (owners st')
   + length (filter (λ d, status d = GIT_DELTA_DELETED) ds)
   = size (owners st)
     + length (filter (λ d, status d = GIT_DELTA_ADDED) ds))%nat.
Proof.
  revert st; induction ds as [|d ds IH]; intros st; simpl.
  - intros [= <-]. done.
  - intros (st1 & H1 & H2)%bind_Ok.
    pose proof (IH _ H2) as Hds. pose proof (process_delta_size _ _ _ _ H1) as Hd.
    change (d :: ds) with ([d] ++ ds). rewrite !filter_app, !length_app. lia.
Qed.

Lemma walk_size history st st' :
  walk history st = Ok st' →
  (size (owners st') + count_status GIT_DELTA_DELETED history
   = size (owners st) + count_status GIT_DELTA_ADDED history)%nat.
Proof.
  unfold count_status.
  revert st; induction history as [|c history IH]; intros st.
  - simpl. intros [= <-]. done.
  - cbn [walk].
    intros (st1 & (st0 & H0 & [= <-])%bind_Ok & H2)%bind_Ok.
    pose proof (IH _ H2) as Hh. pose proof (process_deltas_size _ _ _ _ H0) as Hc.
    cbn [owners handled_first] in Hh.
    rewrite !bind_cons, !filter_app, !length_app. lia.
Qed.

(** X20: at the end of a walk the number of live paths is the number of
    records that added a file less the number of records that deleted one;
    renames and modifications do not change it. *)
Theorem live_paths_are_additions_less_deletions history st :
  walk history initial_state = Ok st →
  (size (owners st) + count_status GIT_DELTA_DELETED history
   = count_status GIT_DELTA_ADDED history)%nat.
Proof.
  intros H. pose proof (walk_size _ _ _ H) as Hs. simpl in Hs.
  by rewrite map_size_empty in Hs.
Qed.

Lemma live_paths_are_additions_less_deletions_witness :
  (size (owners Scenarios.state_3)
   + count_status GIT_DELTA_DELETED Scenarios.history_3
   = count_status GIT_DELTA_ADDED Scenarios.history_3)%nat.
Proof.
  apply live_paths_are_additions_less_deletions. vm_compute. reflexivity.
Defined.
